(** * Cancela_Estacionamento: the gate sequencing logic of the five sketches

    A shallow embedding of the Arduino sketches V1.ino .. V5.ino.  The board is
    a clock, an EEPROM cell and the list of everything the sketch wrote to its
    pins, its servo and its serial port.  The surroundings (sensor levels,
    distances, the wall-clock date) are a [Mundo]: functions of the time in
    milliseconds since boot.  A [while] loop of the source is its body run
    once per tick by [enquanto], with a bound on the number of ticks. *)

From Stdlib Require Import ZArith List Bool String Lia.
From Stdlib Require Import DecimalString.
Import ListNotations.

Open Scope string_scope.
Open Scope Z_scope.

(** ** The board *)

(** [unsigned long] and [unsigned int] are 32 bits wide on the ESP32. *)
Definition ULONG_MAX_1 : Z := 2 ^ 32.
Definition UINT_MAX_1 : Z := 2 ^ 32.

(** Unsigned subtraction, as in [millis() - tempoInicio]. *)
Definition menos_ul (a b : Z) : Z := (a - b) mod ULONG_MAX_1.

(** [x++] and [x + 1] on an [unsigned int]. *)
Definition mais1_ui (x : Z) : Z := (x + 1) mod UINT_MAX_1.

(** [String(n)] of an unsigned number. *)
Definition String_ (n : Z) : string :=
  NilZero.string_of_uint (N.to_uint (Z.to_N n)).

Inductive Evento : Type :=
| DigitalWrite (pino : Z) (nivel : bool)
| ServoWrite (microssegundos : Z)
| SerialPrint (texto : string)
| SerialPrintln (texto : string)
| EEPROMCommit (valor : Z).

Record Placa : Type := mkPlaca {
  agora : Z;                      (* milliseconds since boot *)
  eeprom : Z;                     (* the cell at ENDERECO_CONTADOR *)
  traco : list (Z * Evento)       (* outputs, oldest first, with their time *)
}.

Record Estado (G : Type) : Type := mkEstado {
  placa : Placa;
  vars : G                        (* the sketch's global variables *)
}.
Arguments mkEstado {G} _ _.
Arguments placa {G} _.
Arguments vars {G} _.

(** What the sketch reads. *)
Record Mundo : Type := mkMundo {
  nivel : Z -> Z -> bool;         (* digitalRead(pin) at a time *)
  distancia : Z -> Z -> Z;        (* Ultrasonic(trig, echo).read(), in cm *)
  wifiConectado : Z -> bool;      (* WiFi.status() == WL_CONNECTED *)
  ntpUpdate : Z -> bool;          (* clienteNTP.update() *)
  dataNTP : Z -> string;          (* strftime "%d/%m/%Y" of the NTP time *)
  horaNTP : Z -> string;          (* strftime "%H:%M:%S" of the NTP time *)
  DATE_ : string;                 (* __DATE__ *)
  TIME_ : string;                 (* __TIME__ *)
  dataCompilacao : string;        (* strftime "%d/%m/%Y" of the build time *)
  horaCompilacao : string;        (* strftime "%H:%M:%S" of the build time *)
  eepromInicial : Z               (* what EEPROM.get finds at boot *)
}.

Section Primitivas.
Context {G : Type}.

Definition tempo (s : Estado G) : Z := agora (placa s).
Definition saidas (s : Estado G) : list (Z * Evento) := traco (placa s).

Definition millis (s : Estado G) : Z := tempo s mod ULONG_MAX_1.

Definition delay (ms : Z) (s : Estado G) : Estado G :=
  mkEstado (mkPlaca (agora (placa s) + ms) (eeprom (placa s)) (traco (placa s)))
           (vars s).

Definition emite (e : Evento) (s : Estado G) : Estado G :=
  mkEstado (mkPlaca (agora (placa s)) (eeprom (placa s))
                    (traco (placa s) ++ [(agora (placa s), e)]))
           (vars s).

Definition digitalWrite (pino : Z) (v : bool) : Estado G -> Estado G :=
  emite (DigitalWrite pino v).
Definition writeMicroseconds (us : Z) : Estado G -> Estado G :=
  emite (ServoWrite us).
Definition println (texto : string) : Estado G -> Estado G :=
  emite (SerialPrintln texto).

(** [EEPROM.put(ENDERECO_CONTADOR, v); EEPROM.commit();] *)
Definition EEPROM_put_commit (v : Z) (s : Estado G) : Estado G :=
  mkEstado (mkPlaca (agora (placa s)) v
                    (traco (placa s) ++ [(agora (placa s), EEPROMCommit v)]))
           (vars s).

Definition digitalRead (w : Mundo) (pino : Z) (s : Estado G) : bool :=
  nivel w pino (tempo s).
Definition ultrasonicRead (w : Mundo) (trig : Z) (s : Estado G) : Z :=
  distancia w trig (tempo s).

Definition com_vars (f : G -> G) (s : Estado G) : Estado G :=
  mkEstado (placa s) (f (vars s)).
End Primitivas.

(** ** Loops *)

(** One pass of a [while]: go round again, leave the loop because its condition
    is false, or [return] from the enclosing function. *)
Inductive Controle (E R : Type) : Type :=
| Segue (s : E)
| Fim (s : E)
| Devolve (r : R) (s : E).
Arguments Segue {E R} _.
Arguments Fim {E R} _.
Arguments Devolve {E R} _ _.

Fixpoint enquanto {E R : Type} (n : nat) (tique : E -> Controle E R) (s : E)
  : option (option R * E) :=
  match n with
  | O => None
  | S n' =>
      match tique s with
      | Segue s' => enquanto n' tique s'
      | Fim s' => Some (None, s')
      | Devolve r s' => Some (Some r, s')
      end
  end.

(** States a loop passes through while it keeps going round. *)
Inductive percorre {E R : Type} (tique : E -> Controle E R) : E -> E -> Prop :=
| percorre_aqui : forall s, percorre tique s s
| percorre_passo : forall s s1 s2,
    tique s = Segue s1 -> percorre tique s1 s2 -> percorre tique s s2.

Definition liga {A B : Type} (m : option A) (f : A -> option B) : option B :=
  match m with
  | Some a => f a
  | None => None
  end.

Notation "x <- m ;; k" := (liga m (fun x => k))
  (at level 61, m at next level, right associativity).
Notation "' p <- m ;; k" := (liga m (fun x => let p := x in k))
  (at level 61, p pattern, m at next level, right associativity).

(** [for (int i = 0; i < n; i++) corpo] with a body that does not read [i]. *)
Fixpoint repete {E : Type} (n : nat) (corpo : E -> E) (s : E) : E :=
  match n with
  | O => s
  | S n' => repete n' corpo (corpo s)
  end.

Definition print {G : Type} (texto : string) : Estado G -> Estado G :=
  emite (SerialPrint texto).

(** Levels.  Escape sequences inside string literals are kept as the source
    writes them. *)
Definition HIGH : bool := true.
Definition LOW : bool := false.

(** ** V3.ino *)
Module V3.

Definition PINO_SERVO : Z := 22.
Definition PINO_BOTAO_TICKET : Z := 25.
Definition PINO_SENSOR_ENTRADA : Z := 33.
Definition PINO_SENSOR_SAIDA : Z := 34.
Definition PINO_SENSOR_RETIRADA_TICKET : Z := 11.
Definition PINO_LED_VERDE : Z := 27.
Definition PINO_LED_VERMELHO : Z := 26.
Definition PINO_LED_AMARELO : Z := 14.
Definition PINO_BUZZER : Z := 12.

Definition SERVO_POSICAO_ABERTA : Z := 500.
Definition SERVO_POSICAO_FECHADA : Z := 1495.

Definition TIMEOUT_OPERACAO : Z := 30000.
Definition DURACAO_IMPRESSAO : Z := 3000.
Definition INTERVALO_MENSAGEM_STATUS : Z := 5000.
Definition DELAY_MOVIMENTO_CANCELA : Z := 500.
Definition DELAY_POS_SAIDA : Z := 2000.

Definition BEEP_AVISO_TIMEOUT : Z := 5.
Definition DURACAO_BEEP : Z := 200.

Record Globais : Type := mkGlobais {
  contadorVeiculos : Z;
  estadoCancelaAberta : bool;
  ultimaDataReset : string;
  ultimoTempoStatus : Z
}.

Definition Est : Type := Estado Globais.

Definition set_contadorVeiculos (v : Z) : Est -> Est :=
  com_vars (fun g => mkGlobais v (estadoCancelaAberta g) (ultimaDataReset g)
                               (ultimoTempoStatus g)).
Definition set_estadoCancelaAberta (v : bool) : Est -> Est :=
  com_vars (fun g => mkGlobais (contadorVeiculos g) v (ultimaDataReset g)
                               (ultimoTempoStatus g)).
Definition set_ultimaDataReset (v : string) : Est -> Est :=
  com_vars (fun g => mkGlobais (contadorVeiculos g) (estadoCancelaAberta g) v
                               (ultimoTempoStatus g)).
Definition set_ultimoTempoStatus (v : Z) : Est -> Est :=
  com_vars (fun g => mkGlobais (contadorVeiculos g) (estadoCancelaAberta g)
                               (ultimaDataReset g) v).

(** The globals as initialised, on a board that has just booted. *)
Definition estadoInicial (w : Mundo) : Est :=
  mkEstado (mkPlaca 0 (eepromInicial w) []) (mkGlobais 0 false EmptyString 0).

Definition conectarWiFi_tique (w : Mundo) (inicioTentativa : Z) (s : Est)
  : Controle Est unit :=
  if negb (wifiConectado w (tempo s))
     && (menos_ul (millis s) inicioTentativa <? 15000)
  then Segue (delay 500 (print "." s))
  else Fim s.

Definition conectarWiFi (n : nat) (w : Mundo) (s : Est) : option Est :=
  let s := print "Conectando ao Wi-Fi " s in
  let inicioTentativa := millis s in
  '(_, s) <- enquanto n (conectarWiFi_tique w inicioTentativa) s ;;
  if wifiConectado w (tempo s)
  then Some (println "\nWiFi conectado!" s)
  else Some (println "\nFalha ao conectar ao Wi-Fi. Usando tempo de compilação." s).

Definition obterDataFormatada (w : Mundo) (s : Est) : string :=
  if negb (wifiConectado w (tempo s)) then DATE_ w else dataNTP w (tempo s).

Definition obterHoraFormatada (w : Mundo) (s : Est) : string :=
  if negb (wifiConectado w (tempo s)) then TIME_ w else horaNTP w (tempo s).

Definition atualizarRelogio (w : Mundo) (s : Est) : Est :=
  if (ultimaDataReset (vars s) =? EmptyString)%string
  then set_ultimaDataReset (obterDataFormatada w s) s
  else s.

Definition fecharCancela (s : Est) : Est :=
  let s := digitalWrite PINO_LED_AMARELO LOW s in
  let s := digitalWrite PINO_LED_VERDE LOW s in
  let s := digitalWrite PINO_LED_VERMELHO HIGH s in
  let s := writeMicroseconds SERVO_POSICAO_FECHADA s in
  let s := set_estadoCancelaAberta false s in
  let s := println "[AÇÃO] Cancela Fechada." s in
  delay DELAY_MOVIMENTO_CANCELA s.

Definition beep (s : Est) : Est :=
  let s := digitalWrite PINO_BUZZER HIGH s in
  let s := delay DURACAO_BEEP s in
  let s := digitalWrite PINO_BUZZER LOW s in
  delay (1000 - DURACAO_BEEP) s.

Definition emitirAvisoFechamento (s : Est) : Est :=
  let s := println ("[ALERTA] A cancela será fechada em "
                    ++ String_ BEEP_AVISO_TIMEOUT ++ " segundos!") s in
  let s := repete (Z.to_nat BEEP_AVISO_TIMEOUT) beep s in
  fecharCancela s.

Definition simularImpressaoTicket (w : Mundo) (s : Est) : Est :=
  let s := println "\nImprimindo ticket..." s in
  let s := digitalWrite PINO_LED_AMARELO HIGH s in
  let s := delay (DURACAO_IMPRESSAO / 2) s in
  let s := println "| ==================== |" s in
  let s := println "|   Ticket de Entrada  " s in
  let s := println ("| Data: " ++ obterDataFormatada w s) s in
  let s := println ("| Hora: " ++ obterHoraFormatada w s) s in
  let s := println ("| Veículo N°: "
                    ++ String_ (mais1_ui (contadorVeiculos (vars s)))) s in
  let s := println "| ==================== |\n" s in
  let s := delay (DURACAO_IMPRESSAO / 2) s in
  let s := digitalWrite PINO_LED_AMARELO LOW s in
  println "Ticket impresso. Retire-o para liberar a passagem." s.

Definition abrirCancela (s : Est) : Est :=
  let s := println "[AÇÃO] Abrindo a cancela..." s in
  let s := digitalWrite PINO_LED_VERMELHO LOW s in
  let s := digitalWrite PINO_LED_VERDE HIGH s in
  let s := writeMicroseconds SERVO_POSICAO_ABERTA s in
  let s := set_estadoCancelaAberta true s in
  let s := println "[AÇÃO] Cancela Aberta. Prossiga." s in
  delay DELAY_MOVIMENTO_CANCELA s.

(** The loop of [aguardarRetiradaTicket]; it carries the local [tempoMsg]. *)
Definition aguardarRetiradaTicket_tique (w : Mundo) (e : Z * Est)
  : Controle (Z * Est) unit :=
  let '(tempoMsg, s) := e in
  if Bool.eqb (digitalRead w PINO_SENSOR_RETIRADA_TICKET s) HIGH then
    let '(tempoMsg, s) :=
      if INTERVALO_MENSAGEM_STATUS <? menos_ul (millis s) tempoMsg
      then (millis s, println "[AGUARDANDO] Por favor, retire o ticket." s)
      else (tempoMsg, s) in
    Segue (tempoMsg, delay 10 s)
  else Fim (tempoMsg, s).

Definition aguardarRetiradaTicket (n : nat) (w : Mundo) (s : Est) : option Est :=
  let tempoMsg := millis s in
  '(_, (_, s)) <- enquanto n (aguardarRetiradaTicket_tique w) (tempoMsg, s) ;;
  Some (println "[INFO] Ticket retirado." s).

(** One pass of the loop of [monitorarPassagemEntrada]. *)
Definition monitorarPassagemEntrada_tique (w : Mundo) (tempoInicio : Z) (s : Est)
  : Controle Est bool :=
  if digitalRead w PINO_SENSOR_ENTRADA s then
    if TIMEOUT_OPERACAO <? menos_ul (millis s) tempoInicio
    then Devolve true (emitirAvisoFechamento s)
    else Segue (delay 10 s)
  else Fim s.

Definition monitorarPassagemEntrada (n : nat) (w : Mundo) (s : Est)
  : option (bool * Est) :=
  let tempoInicio := millis s in
  '(r, s) <- enquanto n (monitorarPassagemEntrada_tique w tempoInicio) s ;;
  match r with
  | Some b => Some (b, s)
  | None => Some (false, println "[INFO] Veículo liberou o sensor de entrada." s)
  end.

(** One pass of the loop of [monitorarPassagemSaida]. *)
Definition monitorarPassagemSaida_tique (w : Mundo) (tempoInicio : Z) (s : Est)
  : Controle Est bool :=
  if negb (digitalRead w PINO_SENSOR_SAIDA s) then
    if digitalRead w PINO_SENSOR_ENTRADA s then
      let s := println "[ALERTA] Fraude detectada! Veículo não autorizado tentou entrar. Fechando cancela." s in
      Devolve true (fecharCancela s)
    else if TIMEOUT_OPERACAO <? menos_ul (millis s) tempoInicio
    then Devolve true (emitirAvisoFechamento s)
    else Segue (delay 10 s)
  else Fim s.

Definition monitorarPassagemSaida (n : nat) (w : Mundo) (s : Est)
  : option (bool * Est) :=
  let tempoInicio := millis s in
  '(r, s) <- enquanto n (monitorarPassagemSaida_tique w tempoInicio) s ;;
  match r with
  | Some b => Some (b, s)
  | None =>
      let s := println ("[INFO] Veículo detectado no sensor de saída. Fechando em "
                        ++ String_ (DELAY_POS_SAIDA / 1000) ++ "s.") s in
      let s := delay DELAY_POS_SAIDA s in
      Some (false, fecharCancela s)
  end.

Definition gerenciarStatusOcioso (w : Mundo) (s : Est) : Est :=
  if INTERVALO_MENSAGEM_STATUS <? menos_ul (millis s) (ultimoTempoStatus (vars s))
  then
    let sensorEntrada := digitalRead w PINO_SENSOR_ENTRADA s in
    let botaoPressionado := digitalRead w PINO_BOTAO_TICKET s in
    let statusCancela :=
      if estadoCancelaAberta (vars s) then "Aberta" else "Fechada" in
    let s :=
      if sensorEntrada && negb botaoPressionado
      then println "[STATUS] Veículo posicionado. Aguardando acionamento do botão." s
      else if negb sensorEntrada && botaoPressionado
      then println "[STATUS] Botão acionado sem veículo na entrada." s
      else println "[STATUS] Sistema ocioso. Aguardando veículo..." s in
    let s := println ("           (Status da Cancela: " ++ statusCancela ++ ")") s in
    set_ultimoTempoStatus (millis s) s
  else s.

Definition verificarResetDiarioContador (w : Mundo) (s : Est) : Est :=
  let dataAtual := obterDataFormatada w s in
  if negb (dataAtual =? ultimaDataReset (vars s))%string
     && negb (ultimaDataReset (vars s) =? EmptyString)%string
  then
    let s := println "\n[INFO] Novo dia detectado! Resetando contador de veículos." s in
    let s := set_contadorVeiculos 0 s in
    let s := EEPROM_put_commit 0 s in
    set_ultimaDataReset dataAtual s
  else s.

Definition setup (n : nat) (w : Mundo) : option Est :=
  s <- conectarWiFi n w (estadoInicial w) ;;
  let s := atualizarRelogio w s in
  let s := set_contadorVeiculos (eeprom (placa s)) s in
  let s := fecharCancela s in
  let s := println "\n=============================================" s in
  let s := println "Sistema de Controle de Cancela Iniciado." s in
  Some (println "=============================================\n" s).

(** The condition that starts a passage in [loop]. *)
Definition admite (w : Mundo) (s : Est) : bool :=
  let sensorEntradaAtivado := digitalRead w PINO_SENSOR_ENTRADA s in
  let botaoTicketPressionado := digitalRead w PINO_BOTAO_TICKET s in
  sensorEntradaAtivado && botaoTicketPressionado.

(** The block of [loop] commented "Sucesso: incrementa o contador e salva na
    EEPROM". *)
Definition registrarSucesso (s : Est) : Est :=
  let s := set_contadorVeiculos (mais1_ui (contadorVeiculos (vars s))) s in
  let s := EEPROM_put_commit (contadorVeiculos (vars s)) s in
  let s := println ("[SUCESSO] Veículo registrado. Total do dia: "
                    ++ String_ (contadorVeiculos (vars s))) s in
  println "\nSistema pronto para o próximo veículo." s.

Definition loop (n : nat) (w : Mundo) (s : Est) : option Est :=
  let s := atualizarRelogio w s in
  let s := verificarResetDiarioContador w s in
  if admite w s then
    let s := println "[INFO] Veículo detectado e botão pressionado. Iniciando operação." s in
    let s := simularImpressaoTicket w s in
    s <- aguardarRetiradaTicket n w s ;;
    let s := abrirCancela s in
    '(timeoutEntrada, s) <- monitorarPassagemEntrada n w s ;;
    if (timeoutEntrada : bool) then
      Some (println "[AVISO] Operação cancelada por timeout na entrada." s)
    else
      '(timeoutSaida, s) <- monitorarPassagemSaida n w s ;;
      if (timeoutSaida : bool) then
        Some (println "[AVISO] Operação cancelada por timeout na saída." s)
      else Some (registrarSucesso s)
  else Some (gerenciarStatusOcioso w s).

End V3.

(** ** V4.ino *)
Module V4.

Definition pinoBotaoTicket : Z := 15.
Definition pinoChaveManual : Z := 21.
Definition pinoSensorSaida : Z := 18.
Definition pinoTrigSensorEntrada : Z := 16.
Definition pinoEchoSensorEntrada : Z := 17.
Definition pinoLedVerde : Z := 27.
Definition pinoLedVermelho : Z := 26.
Definition pinoLedAmarelo : Z := 13.
Definition pinoBuzzer : Z := 12.
Definition pinoServo : Z := 22.

Definition SERVO_POSICAO_ABERTA : Z := 500.
Definition SERVO_POSICAO_FECHADA : Z := 1495.

Definition DISTANCIA_PRESENCA_VEICULO_CM : Z := 5.
Definition DISTANCIA_SAIDA_VEICULO_CM : Z := 15.

Definition TIMEOUT_OPERACAO : Z := 30000.
Definition DURACAO_EMISSAO_TICKET : Z := 1500.
Definition ATRASO_FECHAMENTO : Z := 2000.
Definition DURACAO_MOV_CANCELA : Z := 500.
Definition INTERVALO_MSG_STATUS : Z := 2000.

Definition QTD_AVISOS_SONOROS : Z := 5.
Definition DURACAO_BEEP_BUZZER : Z := 500.

Record Globais : Type := mkGlobais {
  estadoCancelaAberta : bool;
  contadorVeiculosDia : Z;
  dataAtual : string;
  horaAtual : string;
  ultimaDataResetContador : string;
  ultimoTempoMsgStatus : Z;
  timeoutEntradaOcorrido : bool;
  timeoutSaidaOcorrido : bool;
  primeiraExecucao : bool
}.

Definition Est : Type := Estado Globais.

Definition set_estadoCancelaAberta (v : bool) : Est -> Est :=
  com_vars (fun g => mkGlobais v (contadorVeiculosDia g) (dataAtual g) (horaAtual g)
    (ultimaDataResetContador g) (ultimoTempoMsgStatus g)
    (timeoutEntradaOcorrido g) (timeoutSaidaOcorrido g) (primeiraExecucao g)).
Definition set_contadorVeiculosDia (v : Z) : Est -> Est :=
  com_vars (fun g => mkGlobais (estadoCancelaAberta g) v (dataAtual g) (horaAtual g)
    (ultimaDataResetContador g) (ultimoTempoMsgStatus g)
    (timeoutEntradaOcorrido g) (timeoutSaidaOcorrido g) (primeiraExecucao g)).
Definition set_dataAtual (v : string) : Est -> Est :=
  com_vars (fun g => mkGlobais (estadoCancelaAberta g) (contadorVeiculosDia g) v
    (horaAtual g) (ultimaDataResetContador g) (ultimoTempoMsgStatus g)
    (timeoutEntradaOcorrido g) (timeoutSaidaOcorrido g) (primeiraExecucao g)).
Definition set_horaAtual (v : string) : Est -> Est :=
  com_vars (fun g => mkGlobais (estadoCancelaAberta g) (contadorVeiculosDia g)
    (dataAtual g) v (ultimaDataResetContador g) (ultimoTempoMsgStatus g)
    (timeoutEntradaOcorrido g) (timeoutSaidaOcorrido g) (primeiraExecucao g)).
Definition set_ultimaDataResetContador (v : string) : Est -> Est :=
  com_vars (fun g => mkGlobais (estadoCancelaAberta g) (contadorVeiculosDia g)
    (dataAtual g) (horaAtual g) v (ultimoTempoMsgStatus g)
    (timeoutEntradaOcorrido g) (timeoutSaidaOcorrido g) (primeiraExecucao g)).
Definition set_ultimoTempoMsgStatus (v : Z) : Est -> Est :=
  com_vars (fun g => mkGlobais (estadoCancelaAberta g) (contadorVeiculosDia g)
    (dataAtual g) (horaAtual g) (ultimaDataResetContador g) v
    (timeoutEntradaOcorrido g) (timeoutSaidaOcorrido g) (primeiraExecucao g)).
Definition set_timeoutEntradaOcorrido (v : bool) : Est -> Est :=
  com_vars (fun g => mkGlobais (estadoCancelaAberta g) (contadorVeiculosDia g)
    (dataAtual g) (horaAtual g) (ultimaDataResetContador g) (ultimoTempoMsgStatus g)
    v (timeoutSaidaOcorrido g) (primeiraExecucao g)).
Definition set_timeoutSaidaOcorrido (v : bool) : Est -> Est :=
  com_vars (fun g => mkGlobais (estadoCancelaAberta g) (contadorVeiculosDia g)
    (dataAtual g) (horaAtual g) (ultimaDataResetContador g) (ultimoTempoMsgStatus g)
    (timeoutEntradaOcorrido g) v (primeiraExecucao g)).
Definition set_primeiraExecucao (v : bool) : Est -> Est :=
  com_vars (fun g => mkGlobais (estadoCancelaAberta g) (contadorVeiculosDia g)
    (dataAtual g) (horaAtual g) (ultimaDataResetContador g) (ultimoTempoMsgStatus g)
    (timeoutEntradaOcorrido g) (timeoutSaidaOcorrido g) v).

Definition sincronizarDataHora (w : Mundo) (s : Est) : Est :=
  let sucesso := wifiConectado w (tempo s) && ntpUpdate w (tempo s) in
  let s := set_dataAtual
             (if sucesso then dataNTP w (tempo s) else dataCompilacao w) s in
  let s := set_horaAtual
             (if sucesso then horaNTP w (tempo s) else horaCompilacao w) s in
  if primeiraExecucao (vars s) then
    let s := set_ultimaDataResetContador (dataAtual (vars s)) s in
    set_primeiraExecucao false s
  else s.

Definition fecharCancela (s : Est) : Est :=
  let s := digitalWrite pinoLedAmarelo LOW s in
  let s := digitalWrite pinoLedVerde LOW s in
  let s := digitalWrite pinoLedVermelho HIGH s in
  let s := writeMicroseconds SERVO_POSICAO_FECHADA s in
  let s := set_estadoCancelaAberta false s in
  let s := println "-> Cancela fechada.\n" s in
  delay DURACAO_MOV_CANCELA s.

Definition beep (s : Est) : Est :=
  let s := digitalWrite pinoBuzzer HIGH s in
  let s := delay (DURACAO_BEEP_BUZZER / 2) s in
  let s := digitalWrite pinoBuzzer LOW s in
  delay (DURACAO_BEEP_BUZZER / 2) s.

Definition emitirAvisoSonoroFechamento (s : Est) : Est :=
  let s := println ("AVISO: A cancela fechará em "
                    ++ String_ QTD_AVISOS_SONOROS ++ " segundos!\n") s in
  let s := repete (Z.to_nat QTD_AVISOS_SONOROS) beep s in
  fecharCancela s.

Definition abrirCancela (s : Est) : Est :=
  let s := println "Abrindo cancela..." s in
  let s := digitalWrite pinoLedAmarelo LOW s in
  let s := digitalWrite pinoLedVermelho LOW s in
  let s := digitalWrite pinoLedVerde HIGH s in
  let s := writeMicroseconds SERVO_POSICAO_ABERTA s in
  let s := set_estadoCancelaAberta true s in
  let s := println "-> Cancela aberta.\n" s in
  delay DURACAO_MOV_CANCELA s.

Definition emitirTicket (w : Mundo) (s : Est) : Est :=
  let s := sincronizarDataHora w s in
  let s := println "Emitindo ticket..." s in
  let s := digitalWrite pinoLedAmarelo HIGH s in
  let s := delay DURACAO_EMISSAO_TICKET s in
  let s := set_contadorVeiculosDia (mais1_ui (contadorVeiculosDia (vars s))) s in
  let s := println "| ==================== |" s in
  let s := println "|   TICKET DE ENTRADA  |" s in
  let s := println ("| Data: " ++ dataAtual (vars s)) s in
  let s := println ("| Hora: " ++ horaAtual (vars s)) s in
  let s := println ("| Veículo Nº: " ++ String_ (contadorVeiculosDia (vars s))) s in
  let s := println "| ==================== |\n" s in
  let s := delay DURACAO_EMISSAO_TICKET s in
  let s := digitalWrite pinoLedAmarelo LOW s in
  println "-> Ticket emitido.\n" s.

Definition veiculoNaEntrada (w : Mundo) (s : Est) : bool :=
  ultrasonicRead w pinoTrigSensorEntrada s <=? DISTANCIA_PRESENCA_VEICULO_CM.

(** One pass of the loop of [gerenciarSegurancaEntrada], with the local
    [ultimoTempoMsg]. *)
Definition gerenciarSegurancaEntrada_tique (w : Mundo) (tempoInicioEspera : Z)
  (e : Z * Est) : Controle (Z * Est) unit :=
  let '(ultimoTempoMsg, s) := e in
  if veiculoNaEntrada w s then
    if TIMEOUT_OPERACAO <? menos_ul (millis s) tempoInicioEspera then
      let s := println "TIMEOUT: Veículo demorou para avançar. Cancelando operação.\n" s in
      let s := emitirAvisoSonoroFechamento s in
      let s := set_timeoutEntradaOcorrido true s in
      Devolve tt (ultimoTempoMsg, s)
    else
      let '(ultimoTempoMsg, s) :=
        if INTERVALO_MSG_STATUS <? menos_ul (millis s) ultimoTempoMsg
        then (millis s, println "Aguardando veículo avançar..." s)
        else (ultimoTempoMsg, s) in
      Segue (ultimoTempoMsg, delay 10 s)
  else Fim (ultimoTempoMsg, s).

Definition gerenciarSegurancaEntrada (n : nat) (w : Mundo) (s : Est) : option Est :=
  let s := set_timeoutEntradaOcorrido false s in
  let tempoInicioEspera := millis s in
  let ultimoTempoMsg := 0 in
  '(r, (_, s)) <- enquanto n (gerenciarSegurancaEntrada_tique w tempoInicioEspera)
                           (ultimoTempoMsg, s) ;;
  match r with
  | Some _ => Some s
  | None => Some (println "Veículo liberou a área de entrada.\n" s)
  end.

(** One pass of the loop of [gerenciarSegurancaSaida]. *)
Definition gerenciarSegurancaSaida_tique (w : Mundo) (tempoInicioEspera : Z)
  (e : Z * Est) : Controle (Z * Est) unit :=
  let '(ultimoTempoMsg, s) := e in
  if Bool.eqb (digitalRead w pinoSensorSaida s) LOW then
    if TIMEOUT_OPERACAO <? menos_ul (millis s) tempoInicioEspera then
      let s := println "TIMEOUT: Veículo não alcançou a saída. Cancelando operação.\n" s in
      let s := emitirAvisoSonoroFechamento s in
      let s := set_timeoutSaidaOcorrido true s in
      Devolve tt (ultimoTempoMsg, s)
    else if veiculoNaEntrada w s then
      let s := println "ANTI-FRAUDE: Segundo veículo detectado na entrada. Fechando imediatamente!\n" s in
      let s := fecharCancela s in
      let s := set_timeoutSaidaOcorrido true s in
      Devolve tt (ultimoTempoMsg, s)
    else
      let '(ultimoTempoMsg, s) :=
        if INTERVALO_MSG_STATUS <? menos_ul (millis s) ultimoTempoMsg
        then (millis s, println "Aguardando veículo passar pelo sensor de saída..." s)
        else (ultimoTempoMsg, s) in
      Segue (ultimoTempoMsg, delay 10 s)
  else Fim (ultimoTempoMsg, s).

Definition gerenciarSegurancaSaida (n : nat) (w : Mundo) (s : Est) : option Est :=
  if timeoutEntradaOcorrido (vars s) then Some s
  else
    let s := set_timeoutSaidaOcorrido false s in
    let tempoInicioEspera := millis s in
    let ultimoTempoMsg := 0 in
    '(r, (_, s)) <- enquanto n (gerenciarSegurancaSaida_tique w tempoInicioEspera)
                             (ultimoTempoMsg, s) ;;
    match r with
    | Some _ => Some s
    | None =>
        let s := println ("Veículo detectado na saída. Fechando a cancela em "
                          ++ String_ (ATRASO_FECHAMENTO / 1000) ++ " segundos.\n") s in
        let s := delay ATRASO_FECHAMENTO s in
        Some (fecharCancela s)
    end.

(** One pass of the loop of [gerenciarModoManual], with the local [jaAbriu]. *)
Definition gerenciarModoManual_tique (w : Mundo) (e : bool * Est)
  : Controle (bool * Est) unit :=
  let '(jaAbriu, s) := e in
  if Bool.eqb (digitalRead w pinoChaveManual s) HIGH then
    let '(jaAbriu, s) :=
      if negb jaAbriu
      then (true, abrirCancela (println "MODO MANUAL ATIVADO. Abrindo cancela." s))
      else (jaAbriu, s) in
    let s :=
      if INTERVALO_MSG_STATUS <? menos_ul (millis s) (ultimoTempoMsgStatus (vars s))
      then let s := println "Sistema em modo de operação manual..." s in
           set_ultimoTempoMsgStatus (millis s) s
      else s in
    Segue (jaAbriu, delay 10 s)
  else Fim (jaAbriu, s).

Definition gerenciarModoManual (n : nat) (w : Mundo) (s : Est) : option Est :=
  let jaAbriu := false in
  '(_, (_, s)) <- enquanto n (gerenciarModoManual_tique w) (jaAbriu, s) ;;
  let s := println "MODO MANUAL DESATIVADO. Fechando cancela." s in
  Some (fecharCancela s).

(** The block of [loop] headed "Verificação de Reset Diário do Contador". *)
Definition verificacaoResetDiario (s : Est) : Est :=
  if negb (dataAtual (vars s) =? ultimaDataResetContador (vars s))%string then
    let s := println "\nNovo dia detectado! Resetando contador de veículos." s in
    let s := set_contadorVeiculosDia 0 s in
    let s := EEPROM_put_commit 0 s in
    set_ultimaDataResetContador (dataAtual (vars s)) s
  else s.

(** The block of [loop] that follows the two supervisors. *)
Definition registrarOuReverter (s : Est) : Est :=
  let s :=
    if timeoutEntradaOcorrido (vars s) || timeoutSaidaOcorrido (vars s) then
      let s := println "Operação cancelada por timeout. O veículo não será registrado." s in
      if 0 <? contadorVeiculosDia (vars s)
      then set_contadorVeiculosDia (contadorVeiculosDia (vars s) - 1) s
      else s
    else
      let s := EEPROM_put_commit (contadorVeiculosDia (vars s)) s in
      let s := println "Veículo registrado com sucesso." s in
      println "Sistema pronto para o próximo veículo.\n" s in
  let s := set_timeoutEntradaOcorrido false s in
  set_timeoutSaidaOcorrido false s.

(** The block of [loop] that prints the idle status. *)
Definition mensagemStatus (veiculoPresente botaoPressionado : bool) (s : Est) : Est :=
  let s :=
    if botaoPressionado && negb veiculoPresente
    then println "Status: Botão pressionado sem veículo na posição." s
    else if veiculoPresente && negb botaoPressionado
    then println "Status: Veículo posicionado, aguardando acionamento do botão." s
    else println "Status: Sistema ocioso, aguardando veículos." s in
  let s := println ("Cancela: "
                    ++ (if estadoCancelaAberta (vars s) then "Aberta" else "Fechada")
                    ++ " | Veículos Hoje: "
                    ++ String_ (contadorVeiculosDia (vars s)) ++ "\n") s in
  set_ultimoTempoMsgStatus (millis s) s.

Definition loop (n : nat) (w : Mundo) (s : Est) : option Est :=
  let s := sincronizarDataHora w s in
  let s := verificacaoResetDiario s in
  if Bool.eqb (digitalRead w pinoChaveManual s) HIGH then
    gerenciarModoManual n w s
  else
    let veiculoPresente := veiculoNaEntrada w s in
    let botaoPressionado := Bool.eqb (digitalRead w pinoBotaoTicket s) HIGH in
    if veiculoPresente && botaoPressionado then
      let s := println "Veículo na posição e botão pressionado. Iniciando processo de entrada." s in
      let s := emitirTicket w s in
      let s := abrirCancela s in
      s <- gerenciarSegurancaEntrada n w s ;;
      s <- gerenciarSegurancaSaida n w s ;;
      Some (registrarOuReverter s)
    else if INTERVALO_MSG_STATUS <? menos_ul (millis s) (ultimoTempoMsgStatus (vars s))
    then Some (mensagemStatus veiculoPresente botaoPressionado s)
    else Some s.

End V4.

(** ** V2.ino *)
Module V2.

Definition pinoBotaoEmissao : Z := 16.
Definition pinoSensorEntrada : Z := 21.
Definition pinoSensorSaida : Z := 18.
Definition pinoLedVerde : Z := 27.
Definition pinoLedVermelho : Z := 26.
Definition pinoLedFeedback : Z := 13.
Definition pinoBuzzer : Z := 12.

Definition TIMEOUT_OPERACAO : Z := 30000.
Definition DURACAO_IMPRESSAO : Z := 3000.
Definition ESPERA_PARA_FECHAR : Z := 2000.
Definition TEMPO_MOVIMENTO_CANCELA : Z := 500.
Definition INTERVALO_MSG_STATUS : Z := 5000.

Definition REPETICOES_AVISO_BUZZER : Z := 5.
Definition DURACAO_BIP_BUZZER : Z := 500.

Record Globais : Type := mkGlobais {
  dataAtualFormatada : string;
  horaAtualFormatada : string;
  ultimaDataResetContador : string;
  primeiraExecucao : bool;
  contadorVeiculos : Z;
  estadoCancelaAberta : bool;
  timestampUltimaMsg : Z
}.

Definition Est : Type := Estado Globais.

Definition set_dataAtualFormatada (v : string) : Est -> Est :=
  com_vars (fun g => mkGlobais v (horaAtualFormatada g) (ultimaDataResetContador g)
    (primeiraExecucao g) (contadorVeiculos g) (estadoCancelaAberta g)
    (timestampUltimaMsg g)).
Definition set_horaAtualFormatada (v : string) : Est -> Est :=
  com_vars (fun g => mkGlobais (dataAtualFormatada g) v (ultimaDataResetContador g)
    (primeiraExecucao g) (contadorVeiculos g) (estadoCancelaAberta g)
    (timestampUltimaMsg g)).
Definition set_ultimaDataResetContador (v : string) : Est -> Est :=
  com_vars (fun g => mkGlobais (dataAtualFormatada g) (horaAtualFormatada g) v
    (primeiraExecucao g) (contadorVeiculos g) (estadoCancelaAberta g)
    (timestampUltimaMsg g)).
Definition set_primeiraExecucao (v : bool) : Est -> Est :=
  com_vars (fun g => mkGlobais (dataAtualFormatada g) (horaAtualFormatada g)
    (ultimaDataResetContador g) v (contadorVeiculos g) (estadoCancelaAberta g)
    (timestampUltimaMsg g)).
Definition set_contadorVeiculos (v : Z) : Est -> Est :=
  com_vars (fun g => mkGlobais (dataAtualFormatada g) (horaAtualFormatada g)
    (ultimaDataResetContador g) (primeiraExecucao g) v (estadoCancelaAberta g)
    (timestampUltimaMsg g)).
Definition set_estadoCancelaAberta (v : bool) : Est -> Est :=
  com_vars (fun g => mkGlobais (dataAtualFormatada g) (horaAtualFormatada g)
    (ultimaDataResetContador g) (primeiraExecucao g) (contadorVeiculos g) v
    (timestampUltimaMsg g)).
Definition set_timestampUltimaMsg (v : Z) : Est -> Est :=
  com_vars (fun g => mkGlobais (dataAtualFormatada g) (horaAtualFormatada g)
    (ultimaDataResetContador g) (primeiraExecucao g) (contadorVeiculos g)
    (estadoCancelaAberta g) v).

Definition sincronizarRelogio (w : Mundo) (s : Est) : Est :=
  let sucessoNtp := wifiConectado w (tempo s) && ntpUpdate w (tempo s) in
  let s := set_dataAtualFormatada
             (if sucessoNtp then dataNTP w (tempo s) else dataCompilacao w) s in
  let s := set_horaAtualFormatada
             (if sucessoNtp then horaNTP w (tempo s) else horaCompilacao w) s in
  if primeiraExecucao (vars s) then
    let s := set_ultimaDataResetContador (dataAtualFormatada (vars s)) s in
    set_primeiraExecucao false s
  else s.

Definition fecharCancela (s : Est) : Est :=
  let s := digitalWrite pinoLedFeedback LOW s in
  let s := digitalWrite pinoLedVerde LOW s in
  let s := digitalWrite pinoLedVermelho HIGH s in
  let s := println "-> Cancela fechada.\n" s in
  let s := delay TEMPO_MOVIMENTO_CANCELA s in
  set_estadoCancelaAberta false s.

Definition bip (s : Est) : Est :=
  let s := digitalWrite pinoBuzzer HIGH s in
  let s := delay DURACAO_BIP_BUZZER s in
  let s := digitalWrite pinoBuzzer LOW s in
  delay DURACAO_BIP_BUZZER s.

Definition acionarAvisoSonoroFechamento (s : Est) : Est :=
  let s := println ("AVISO: A cancela será fechada em "
                    ++ String_ REPETICOES_AVISO_BUZZER ++ " segundos!\n") s in
  let s := repete (Z.to_nat REPETICOES_AVISO_BUZZER) bip s in
  fecharCancela s.

Definition emitirTicket (w : Mundo) (s : Est) : Est :=
  let s := sincronizarRelogio w s in
  let s := println "\nImprimindo ticket..." s in
  let s := digitalWrite pinoLedFeedback HIGH s in
  let s := println "| ==================== |" s in
  let s := println "|   Ticket de Entrada    |" s in
  let s := println ("| Data: " ++ dataAtualFormatada (vars s)) s in
  let s := println ("| Hora: " ++ horaAtualFormatada (vars s)) s in
  let s := println ("| Veículo N°: "
                    ++ String_ (mais1_ui (contadorVeiculos (vars s)))) s in
  let s := println "| ==================== |\n" s in
  let s := delay DURACAO_IMPRESSAO s in
  let s := digitalWrite pinoLedFeedback LOW s in
  println "-> Ticket impresso. Retire o ticket e avance." s.

Definition abrirCancela (s : Est) : Est :=
  let s := println "-> Abrindo a cancela..." s in
  let s := digitalWrite pinoLedVermelho LOW s in
  let s := digitalWrite pinoLedVerde HIGH s in
  let s := delay TEMPO_MOVIMENTO_CANCELA s in
  let s := println "-> Cancela aberta.\n" s in
  set_estadoCancelaAberta true s.

Definition salvarContador (s : Est) : Est :=
  EEPROM_put_commit (contadorVeiculos (vars s)) s.

(** The locals of the passage loop of [loop]. *)
Record Passagem : Type := mkPassagem {
  passouPelaEntrada : bool;
  operacaoCancelada : bool;
  est : Est
}.

(** One pass of [while (estadoCancelaAberta)] in [loop]; [break] leaves it. *)
Definition passagem_tique (w : Mundo) (timestampInicioPassagem : Z) (p : Passagem)
  : Controle Passagem unit :=
  let s := est p in
  if estadoCancelaAberta (vars s) then
    if TIMEOUT_OPERACAO <? menos_ul (millis s) timestampInicioPassagem then
      let s := println "ERRO: Timeout! O veículo demorou demais para passar." s in
      let s := acionarAvisoSonoroFechamento s in
      Fim (mkPassagem (passouPelaEntrada p) true s)
    else if passouPelaEntrada p then
      if digitalRead w pinoSensorEntrada s then
        let s := println "ALERTA: Tentativa de fraude detectada! Fechando a cancela." s in
        let s := fecharCancela s in
        Fim (mkPassagem (passouPelaEntrada p) true s)
      else if digitalRead w pinoSensorSaida s then
        let s := println "Veículo passando pelo sensor de saída." s in
        let s := delay ESPERA_PARA_FECHAR s in
        let s := fecharCancela s in
        Fim (mkPassagem (passouPelaEntrada p) (operacaoCancelada p) s)
      else Segue (mkPassagem (passouPelaEntrada p) (operacaoCancelada p) (delay 50 s))
    else if Bool.eqb (digitalRead w pinoSensorEntrada s) LOW then
      let s := println "Veículo liberou o sensor de entrada. Aguardando saída..." s in
      Segue (mkPassagem true (operacaoCancelada p) (delay 50 s))
    else Segue (mkPassagem (passouPelaEntrada p) (operacaoCancelada p) (delay 50 s))
  else Fim p.

(** The block of [loop] headed "Reset Diário do Contador". *)
Definition resetDiario (s : Est) : Est :=
  if negb (dataAtualFormatada (vars s) =? ultimaDataResetContador (vars s))%string then
    let s := println "\n--- DETECTADA MUDANÇA DE DIA ---" s in
    let s := println "Resetando contador de veículos para o novo dia." s in
    let s := set_contadorVeiculos 0 s in
    let s := salvarContador s in
    let s := set_ultimaDataResetContador (dataAtualFormatada (vars s)) s in
    println "Contador zerado. Sistema pronto.\n" s
  else s.

(** The condition that starts a passage in [loop]. *)
Definition admite (w : Mundo) (s : Est) : bool :=
  let sensorEntradaAtivado := digitalRead w pinoSensorEntrada s in
  let botaoPressionado := digitalRead w pinoBotaoEmissao s in
  sensorEntradaAtivado && botaoPressionado && negb (estadoCancelaAberta (vars s)).

(** The block of [loop] headed "Atualização do Contador Pós-Operação". *)
Definition atualizacaoContador (operacaoCancelada : bool) (s : Est) : Est :=
  if negb operacaoCancelada then
    let s := set_contadorVeiculos (mais1_ui (contadorVeiculos (vars s))) s in
    let s := salvarContador s in
    let s := println ("Operação bem-sucedida! Veículo N°"
                      ++ String_ (contadorVeiculos (vars s)) ++ " registrado.") s in
    println "Sistema pronto para o próximo veículo.\n" s
  else
    let s := println "Operação cancelada. O contador de veículos não foi incrementado." s in
    println "Sistema pronto para o próximo veículo.\n" s.

Definition loop (n : nat) (w : Mundo) (s : Est) : option Est :=
  let s := sincronizarRelogio w s in
  let s := resetDiario s in
  let sensorEntradaAtivado := digitalRead w pinoSensorEntrada s in
  let botaoPressionado := digitalRead w pinoBotaoEmissao s in
  if admite w s then
    let s := emitirTicket w s in
    let s := abrirCancela s in
    let timestampInicioPassagem := millis s in
    '(_, p) <- enquanto n (passagem_tique w timestampInicioPassagem)
                        (mkPassagem false false s) ;;
    Some (atualizacaoContador (operacaoCancelada p) (est p))
  else if negb (estadoCancelaAberta (vars s))
          && (INTERVALO_MSG_STATUS <? menos_ul (millis s) (timestampUltimaMsg (vars s)))
  then
    let s :=
      if sensorEntradaAtivado && negb botaoPressionado
      then println "Status: Veículo posicionado. Aguardando acionamento do botão." s
      else if negb sensorEntradaAtivado && botaoPressionado
      then println "Status: Botão acionado sem veículo na posição." s
      else println "Status: Sistema ocioso, aguardando veículo." s in
    Some (set_timestampUltimaMsg (millis s) s)
  else Some s.

End V2.

(** ** V5, sistema_cancela_estacionamento.ino *)
Module V5.

Definition pinoServoCancela : Z := 21.
Definition pinoBotaoEmissaoTicket : Z := 25.
Definition pinoAlavancaManual : Z := 33.
Definition pinoBuzzer : Z := 12.
Definition pinoLedVerde : Z := 27.
Definition pinoLedVermelho : Z := 26.
Definition pinoLedAmarelo : Z := 14.
Definition pinoTrigSensorEntrada : Z := 16.
Definition pinoEchoSensorEntrada : Z := 17.
Definition pinoTrigSensorSaida : Z := 22.
Definition pinoEchoSensorSaida : Z := 23.

Definition DISTANCIA_DETECCAO_CM : Z := 50.
Definition POSICAO_SERVO_ABERTA : Z := 500.
Definition POSICAO_SERVO_FECHADA : Z := 1495.

Definition INTERVALO_RESET_CONTADOR : Z := 24 * 60 * 60 * 1000.
Definition TIMEOUT_PASSAGEM_VEICULO : Z := 30000.
Definition DURACAO_SIMULACAO_IMPRESSAO : Z := 3000.
Definition ATRASO_FECHAMENTO_APOS_SAIDA : Z := 2000.
Definition INTERVALO_MENSAGEM_STATUS : Z := 5000.

Definition DURACAO_AVISO_SONORO_S : Z := 5.
Definition PERIODO_PISCA_BUZZER_MS : Z := 500.

Record Globais : Type := mkGlobais {
  cancelaAberta : bool;
  contadorVeiculos : Z;
  tempoUltimoResetContador : Z;
  tempoUltimaMensagemStatus : Z
}.

Definition Est : Type := Estado Globais.

Definition set_cancelaAberta (v : bool) : Est -> Est :=
  com_vars (fun g => mkGlobais v (contadorVeiculos g) (tempoUltimoResetContador g)
                               (tempoUltimaMensagemStatus g)).
Definition set_contadorVeiculos (v : Z) : Est -> Est :=
  com_vars (fun g => mkGlobais (cancelaAberta g) v (tempoUltimoResetContador g)
                               (tempoUltimaMensagemStatus g)).
Definition set_tempoUltimoResetContador (v : Z) : Est -> Est :=
  com_vars (fun g => mkGlobais (cancelaAberta g) (contadorVeiculos g) v
                               (tempoUltimaMensagemStatus g)).
Definition set_tempoUltimaMensagemStatus (v : Z) : Est -> Est :=
  com_vars (fun g => mkGlobais (cancelaAberta g) (contadorVeiculos g)
                               (tempoUltimoResetContador g) v).

Definition fecharCancela (s : Est) : Est :=
  let s := digitalWrite pinoLedAmarelo LOW s in
  let s := digitalWrite pinoLedVerde LOW s in
  let s := digitalWrite pinoLedVermelho HIGH s in
  let s := writeMicroseconds POSICAO_SERVO_FECHADA s in
  let s := set_cancelaAberta false s in
  println "-> Cancela fechada.\n" s.

Definition abrirCancela (s : Est) : Est :=
  let s := println "Abrindo cancela..." s in
  let s := digitalWrite pinoLedAmarelo LOW s in
  let s := digitalWrite pinoLedVermelho LOW s in
  let s := digitalWrite pinoLedVerde HIGH s in
  let s := writeMicroseconds POSICAO_SERVO_ABERTA s in
  let s := set_cancelaAberta true s in
  println "-> Cancela aberta.\n" s.

Definition pisca (s : Est) : Est :=
  let s := digitalWrite pinoBuzzer HIGH s in
  let s := delay (PERIODO_PISCA_BUZZER_MS / 2) s in
  let s := digitalWrite pinoBuzzer LOW s in
  delay (PERIODO_PISCA_BUZZER_MS / 2) s.

Definition emitirAvisoSonoroEFechar (s : Est) : Est :=
  let s := println ("AVISO: A cancela fechará em "
                    ++ String_ DURACAO_AVISO_SONORO_S ++ " segundos.") s in
  let s := repete (Z.to_nat (DURACAO_AVISO_SONORO_S * 2)) pisca s in
  fecharCancela s.

Definition simularImpressaoTicket (w : Mundo) (s : Est) : Est :=
  let dataAtual := dataNTP w (tempo s) in
  let horaAtual := horaNTP w (tempo s) in
  let s := println "\nImprimindo ticket..." s in
  let s := digitalWrite pinoLedAmarelo HIGH s in
  let s := delay (DURACAO_SIMULACAO_IMPRESSAO / 2) s in
  let s := println "| ==================== |" s in
  let s := println "|  Ticket de Entrada   |" s in
  let s := println ("| Data: " ++ dataAtual) s in
  let s := println ("| Hora: " ++ horaAtual) s in
  let s := println ("| Veículo Nº: "
                    ++ String_ (mais1_ui (contadorVeiculos (vars s)))) s in
  let s := println "| ==================== |\n" s in
  let s := delay (DURACAO_SIMULACAO_IMPRESSAO / 2) s in
  let s := digitalWrite pinoLedAmarelo LOW s in
  println "Ticket impresso. Retire o ticket e avance." s.

Definition monitorarPassagemEntrada_tique (w : Mundo) (tempoInicio : Z) (s : Est)
  : Controle Est bool :=
  if ultrasonicRead w pinoTrigSensorEntrada s <=? DISTANCIA_DETECCAO_CM then
    if TIMEOUT_PASSAGEM_VEICULO <? menos_ul (millis s) tempoInicio then
      let s := println "ERRO: Tempo limite de passagem na entrada excedido!" s in
      Devolve false (emitirAvisoSonoroEFechar s)
    else Segue (delay 100 s)
  else Fim s.

Definition monitorarPassagemEntrada (n : nat) (w : Mundo) (s : Est)
  : option (bool * Est) :=
  let s := println "Aguardando veículo passar pelo sensor de entrada..." s in
  let tempoInicio := millis s in
  '(r, s) <- enquanto n (monitorarPassagemEntrada_tique w tempoInicio) s ;;
  match r with
  | Some b => Some (b, s)
  | None => Some (true, println "Veículo liberou o sensor de entrada." s)
  end.

Definition monitorarSaidaEAntifraude_tique (w : Mundo) (tempoInicio : Z) (s : Est)
  : Controle Est bool :=
  if DISTANCIA_DETECCAO_CM <? ultrasonicRead w pinoTrigSensorSaida s then
    if ultrasonicRead w pinoTrigSensorEntrada s <=? DISTANCIA_DETECCAO_CM then
      let s := println "ALERTA: Segundo veículo detectado na entrada! Fechando cancela imediatamente." s in
      Devolve false (fecharCancela s)
    else if TIMEOUT_PASSAGEM_VEICULO <? menos_ul (millis s) tempoInicio then
      let s := println "ERRO: Tempo limite de passagem na saída excedido!" s in
      Devolve false (emitirAvisoSonoroEFechar s)
    else Segue (delay 100 s)
  else Fim s.

Definition monitorarSaidaEAntifraude (n : nat) (w : Mundo) (s : Est)
  : option (bool * Est) :=
  let s := println "Aguardando veículo passar pelo sensor de saída..." s in
  let tempoInicio := millis s in
  '(r, s) <- enquanto n (monitorarSaidaEAntifraude_tique w tempoInicio) s ;;
  match r with
  | Some b => Some (b, s)
  | None =>
      let s := println "Veículo detectado no sensor de saída. Passagem completa." s in
      let s := delay ATRASO_FECHAMENTO_APOS_SAIDA s in
      Some (true, fecharCancela s)
  end.

Definition iniciarProcessoEntradaVeiculo (n : nat) (w : Mundo) (s : Est)
  : option Est :=
  let s := println "\n--- INÍCIO DO PROCESSO DE ENTRADA ---" s in
  let s := println "Botão pressionado por veículo na entrada." s in
  let s := simularImpressaoTicket w s in
  let s := abrirCancela s in
  '(entrou, s) <- monitorarPassagemEntrada n w s ;;
  s <- (if (entrou : bool) then
          '(saiu, s) <- monitorarSaidaEAntifraude n w s ;;
          if (saiu : bool) then
            let s := set_contadorVeiculos (mais1_ui (contadorVeiculos (vars s))) s in
            let s := println "\nProcesso concluído com sucesso. Veículo registrado." s in
            Some (println ("Total de veículos hoje: "
                           ++ String_ (contadorVeiculos (vars s))) s)
          else
            Some (println "\nFalha no processo (anti-fraude ou timeout na saída). Veículo não foi registrado." s)
        else
          Some (println "\nFalha no processo (timeout na entrada). Veículo não foi registrado." s)) ;;
  Some (println "\nSistema pronto para o próximo veículo." s).

Definition operarModoManual_tique (w : Mundo) (e : Z * Est)
  : Controle (Z * Est) unit :=
  let '(tempoMsgManual, s) := e in
  if Bool.eqb (digitalRead w pinoAlavancaManual s) HIGH then
    let '(tempoMsgManual, s) :=
      if INTERVALO_MENSAGEM_STATUS <? menos_ul (millis s) tempoMsgManual
      then (millis s, println "A cancela está em modo de operação manual." s)
      else (tempoMsgManual, s) in
    Segue (tempoMsgManual, delay 100 s)
  else Fim (tempoMsgManual, s).

Definition operarModoManual (n : nat) (w : Mundo) (s : Est) : option Est :=
  let s := println "\n--- MODO MANUAL ATIVADO ---" s in
  let s := abrirCancela s in
  let tempoMsgManual := millis s in
  '(_, (_, s)) <- enquanto n (operarModoManual_tique w) (tempoMsgManual, s) ;;
  let s := println "--- MODO MANUAL DESATIVADO ---" s in
  Some (fecharCancela s).

Definition exibirStatusPeriodico (veiculoPresente botaoPressionado : bool) (s : Est)
  : Est :=
  if INTERVALO_MENSAGEM_STATUS
     <? menos_ul (millis s) (tempoUltimaMensagemStatus (vars s))
  then
    let s :=
      if veiculoPresente && negb botaoPressionado
      then println "Status: Veículo posicionado, aguardando acionamento do botão." s
      else if negb veiculoPresente && negb botaoPressionado
      then println "Status: Sistema ocioso, aguardando veículo." s
      else if negb veiculoPresente && botaoPressionado
      then println "Status: Botão acionado sem veículo na posição." s
      else s in
    set_tempoUltimaMensagemStatus (millis s) s
  else s.

(** The condition that starts a passage in [loop]. *)
Definition admite (w : Mundo) (s : Est) : bool :=
  let veiculoPresenteNaEntrada :=
    ultrasonicRead w pinoTrigSensorEntrada s <=? DISTANCIA_DETECCAO_CM in
  let botaoPressionado := Bool.eqb (digitalRead w pinoBotaoEmissaoTicket s) HIGH in
  veiculoPresenteNaEntrada && botaoPressionado && negb (cancelaAberta (vars s)).

Definition loop (n : nat) (w : Mundo) (s : Est) : option Est :=
  if Bool.eqb (digitalRead w pinoAlavancaManual s) HIGH then operarModoManual n w s
  else
    let s :=
      if INTERVALO_RESET_CONTADOR
         <=? menos_ul (millis s) (tempoUltimoResetContador (vars s))
      then
        let s := set_contadorVeiculos 0 s in
        let s := set_tempoUltimoResetContador (millis s) s in
        println "\nINFO: Contador de veículos foi reiniciado (ciclo de 24h)." s
      else s in
    let veiculoPresenteNaEntrada :=
      ultrasonicRead w pinoTrigSensorEntrada s <=? DISTANCIA_DETECCAO_CM in
    let botaoPressionado := Bool.eqb (digitalRead w pinoBotaoEmissaoTicket s) HIGH in
    if admite w s then iniciarProcessoEntradaVeiculo n w s
    else Some (exibirStatusPeriodico veiculoPresenteNaEntrada botaoPressionado s).

End V5.

(** ** V1.ino *)
Module V1.

Definition PINO_BOTAO : Z := 25.
Definition PINO_SENSOR_ENTRADA : Z := 33.
Definition PINO_SENSOR_SAIDA : Z := 34.
Definition PINO_LED_VERDE : Z := 27.
Definition PINO_LED_VERMELHO : Z := 26.
Definition PINO_LED_STATUS : Z := 14.
Definition PINO_BUZZER : Z := 12.

Definition ATRASO_OPERACAO_CANCELA_MS : Z := 500.
Definition ATRASO_IMPRESSAO_TICKET_MS : Z := 1500.
Definition ATRASO_POS_SAIDA_MS : Z := 2000.
Definition TIMEOUT_ENTRADA_MS : Z := 30000.
Definition TIMEOUT_SAIDA_MS : Z := 30000.
Definition INTERVALO_STATUS_MS : Z := 5000.
Definition INTERVALO_RESET_CONTADOR_MS : Z := 24 * 60 * 60 * 1000.

Definition DURACAO_ALERTA_SEGUNDOS : Z := 5.
Definition INTERVALO_BEEP_BUZZER_MS : Z := 500.

Record Globais : Type := mkGlobais {
  contagemVeiculos : Z;
  ultimoResetContador : Z;
  ultimoUpdateStatus : Z;
  cancelaAberta : bool
}.

Definition Est : Type := Estado Globais.

Definition set_contagemVeiculos (v : Z) : Est -> Est :=
  com_vars (fun g => mkGlobais v (ultimoResetContador g) (ultimoUpdateStatus g)
                               (cancelaAberta g)).
Definition set_ultimoResetContador (v : Z) : Est -> Est :=
  com_vars (fun g => mkGlobais (contagemVeiculos g) v (ultimoUpdateStatus g)
                               (cancelaAberta g)).
Definition set_ultimoUpdateStatus (v : Z) : Est -> Est :=
  com_vars (fun g => mkGlobais (contagemVeiculos g) (ultimoResetContador g) v
                               (cancelaAberta g)).
Definition set_cancelaAberta (v : bool) : Est -> Est :=
  com_vars (fun g => mkGlobais (contagemVeiculos g) (ultimoResetContador g)
                               (ultimoUpdateStatus g) v).

Definition fecharCancela (s : Est) : Est :=
  let s := digitalWrite PINO_LED_STATUS LOW s in
  let s := digitalWrite PINO_LED_VERDE LOW s in
  let s := digitalWrite PINO_LED_VERMELHO HIGH s in
  let s := set_cancelaAberta false s in
  let s := println "STATUS: Cancela fechada.\n" s in
  delay ATRASO_OPERACAO_CANCELA_MS s.

Definition bip (s : Est) : Est :=
  let s := digitalWrite PINO_BUZZER HIGH s in
  let s := delay (INTERVALO_BEEP_BUZZER_MS / 2) s in
  let s := digitalWrite PINO_BUZZER LOW s in
  delay (INTERVALO_BEEP_BUZZER_MS / 2) s.

Definition acionarAlertaEFechar (s : Est) : Est :=
  let s := print "ALERTA: A cancela sera fechada em " s in
  let s := print (String_ DURACAO_ALERTA_SEGUNDOS) s in
  let s := println " segundos.\n" s in
  let s := repete (Z.to_nat DURACAO_ALERTA_SEGUNDOS) bip s in
  fecharCancela s.

Definition abrirCancela (s : Est) : Est :=
  let s := println "INFO: Abrindo a cancela..." s in
  let s := digitalWrite PINO_LED_STATUS LOW s in
  let s := digitalWrite PINO_LED_VERMELHO LOW s in
  let s := digitalWrite PINO_LED_VERDE HIGH s in
  let s := set_cancelaAberta true s in
  let s := println "STATUS: Cancela aberta.\n" s in
  delay ATRASO_OPERACAO_CANCELA_MS s.

Definition simularImpressaoTicket (w : Mundo) (s : Est) : Est :=
  let s := println "INFO: Imprimindo ticket...\n" s in
  let s := digitalWrite PINO_LED_STATUS HIGH s in
  let s := delay ATRASO_IMPRESSAO_TICKET_MS s in
  let s := println "| ======================== |" s in
  let s := println "|    TICKET DE ENTRADA     |" s in
  let s := println "| ======================== |" s in
  let s := print "| Data: " s in
  let s := println (DATE_ w) s in
  let s := print "| Hora: " s in
  let s := println (TIME_ w) s in
  let s := print "| Veiculo No: " s in
  let s := println (String_ (mais1_ui (contagemVeiculos (vars s)))) s in
  let s := println "| ======================== |\n" s in
  let s := delay ATRASO_IMPRESSAO_TICKET_MS s in
  let s := digitalWrite PINO_LED_STATUS LOW s in
  println "INFO: Ticket impresso.\n" s.

Definition gerenciarEntradaVeiculo_tique (w : Mundo) (tempoInicioEntrada : Z)
  (s : Est) : Controle Est bool :=
  if digitalRead w PINO_SENSOR_ENTRADA s then
    if TIMEOUT_ENTRADA_MS <=? menos_ul (millis s) tempoInicioEntrada then
      let s := println "ERRO: Timeout na entrada. Cancelando operacao." s in
      Devolve false (acionarAlertaEFechar s)
    else Segue (delay 50 s)
  else Fim s.

Definition gerenciarEntradaVeiculo (n : nat) (w : Mundo) (s : Est)
  : option (bool * Est) :=
  let tempoInicioEntrada := millis s in
  let s := println "INFO: Aguardando veiculo passar pelo sensor de entrada..." s in
  '(r, s) <- enquanto n (gerenciarEntradaVeiculo_tique w tempoInicioEntrada) s ;;
  match r with
  | Some b => Some (b, s)
  | None => Some (true, println "INFO: Veiculo liberou o sensor de entrada.\n" s)
  end.

Definition gerenciarSaidaVeiculo_tique (w : Mundo) (tempoInicioSaida : Z) (s : Est)
  : Controle Est bool :=
  if negb (digitalRead w PINO_SENSOR_SAIDA s) then
    if digitalRead w PINO_SENSOR_ENTRADA s then
      let s := println "ALERTA: Segundo veiculo detectado na entrada! Fechamento imediato!" s in
      Devolve false (fecharCancela s)
    else if TIMEOUT_SAIDA_MS <=? menos_ul (millis s) tempoInicioSaida then
      let s := println "ERRO: Timeout na saida. Cancelando operacao." s in
      Devolve false (acionarAlertaEFechar s)
    else Segue (delay 50 s)
  else Fim s.

Definition gerenciarSaidaVeiculo (n : nat) (w : Mundo) (s : Est)
  : option (bool * Est) :=
  let tempoInicioSaida := millis s in
  let s := println "INFO: Aguardando veiculo passar pelo sensor de saida..." s in
  '(r, s) <- enquanto n (gerenciarSaidaVeiculo_tique w tempoInicioSaida) s ;;
  match r with
  | Some b => Some (b, s)
  | None =>
      let s := println "INFO: Veiculo detectado no sensor de saida. Fechando em instantes." s in
      let s := delay ATRASO_POS_SAIDA_MS s in
      Some (true, fecharCancela s)
  end.

Definition exibirStatusOcioso (w : Mundo) (s : Est) : Est :=
  let sensorEntradaAtivo := digitalRead w PINO_SENSOR_ENTRADA s in
  let botaoPressionado := digitalRead w PINO_BOTAO s in
  let s :=
    if negb sensorEntradaAtivo && botaoPressionado
    then println "AVISO: Botao pressionado sem veiculo no sensor." s
    else if sensorEntradaAtivo && negb botaoPressionado
    then println "STATUS: Veiculo detectado. Aguardando acionamento do botao..." s
    else println "STATUS: Sistema ocioso. Aguardando veiculo." s in
  let s := print "--> Status da Cancela: " s in
  let s := println (if cancelaAberta (vars s) then "Aberta" else "Fechada") s in
  let s := print "--> Veiculos hoje: " s in
  let s := println (String_ (contagemVeiculos (vars s))) s in
  let s := println EmptyString s in
  set_ultimoUpdateStatus (millis s) s.

Definition loop (n : nat) (w : Mundo) (s : Est) : option Est :=
  let tempoAtual := millis s in
  let s :=
    if INTERVALO_RESET_CONTADOR_MS <=? menos_ul tempoAtual (ultimoResetContador (vars s))
    then
      let s := set_contagemVeiculos 0 s in
      let s := set_ultimoResetContador tempoAtual s in
      println "INFO: O contador de veiculos foi zerado para o novo dia." s
    else s in
  if digitalRead w PINO_SENSOR_ENTRADA s && digitalRead w PINO_BOTAO s then
    let s := println "\n--- INICIO DA SEQUENCIA DE ENTRADA ---" s in
    let s := simularImpressaoTicket w s in
    let s := abrirCancela s in
    '(entradaOK, s) <- gerenciarEntradaVeiculo n w s ;;
    '(saidaOK, s) <- (if (entradaOK : bool) then gerenciarSaidaVeiculo n w s
                      else Some (false, s)) ;;
    let s :=
      if entradaOK && saidaOK then
        let s := set_contagemVeiculos (mais1_ui (contagemVeiculos (vars s))) s in
        let s := println "SUCESSO: Veiculo processado e registrado." s in
        let s := print "Total de veiculos hoje: " s in
        println (String_ (contagemVeiculos (vars s))) s
      else println "FALHA: Operacao cancelada ou falhou. Veiculo nao registrado." s in
    let s := println "--- FIM DA SEQUENCIA --- \n\nSistema pronto para o proximo veiculo.\n" s in
    Some (set_ultimoUpdateStatus (millis s) s)
  else if INTERVALO_STATUS_MS <=? menos_ul tempoAtual (ultimoUpdateStatus (vars s))
  then Some (exibirStatusOcioso w s)
  else Some s.

End V1.

(** ** How a passage resolves *)

Inductive Resolucao : Type :=
| RESOLVED_SUCCESS
| RESOLVED_TIMEOUT
| RESOLVED_FRAUD.

(** What V3.ino does on the tick that resolves a passage in
    [monitorarPassagemSaida]: the code on each way out of the function. *)
Definition V3_resolve (r : Resolucao) (s : V3.Est) : V3.Est :=
  match r with
  | RESOLVED_SUCCESS =>
      V3.fecharCancela
        (delay V3.DELAY_POS_SAIDA
           (println ("[INFO] Veículo detectado no sensor de saída. Fechando em "
                     ++ String_ (V3.DELAY_POS_SAIDA / 1000) ++ "s.") s))
  | RESOLVED_TIMEOUT => V3.emitirAvisoFechamento s
  | RESOLVED_FRAUD =>
      V3.fecharCancela
        (println "[ALERTA] Fraude detectada! Veículo não autorizado tentou entrar. Fechando cancela." s)
  end.

(** The same for [gerenciarSegurancaSaida] of V4.ino, which records a failure
    in [timeoutSaidaOcorrido]. *)
Definition V4_resolve (r : Resolucao) (s : V4.Est) : V4.Est :=
  match r with
  | RESOLVED_SUCCESS =>
      V4.fecharCancela
        (delay V4.ATRASO_FECHAMENTO
           (println ("Veículo detectado na saída. Fechando a cancela em "
                     ++ String_ (V4.ATRASO_FECHAMENTO / 1000) ++ " segundos.\n") s))
  | RESOLVED_TIMEOUT =>
      V4.set_timeoutSaidaOcorrido true
        (V4.emitirAvisoSonoroFechamento
           (println "TIMEOUT: Veículo não alcançou a saída. Cancelando operação.\n" s))
  | RESOLVED_FRAUD =>
      V4.set_timeoutSaidaOcorrido true
        (V4.fecharCancela
           (println "ANTI-FRAUDE: Segundo veículo detectado na entrada. Fechando imediatamente!\n" s))
  end.

(** The value [monitorarPassagemSaida] returns for each resolution. *)
Definition falhou (r : Resolucao) : bool :=
  match r with
  | RESOLVED_SUCCESS => false
  | _ => true
  end.

(** The last command sent to the servo. *)
Fixpoint ultimoServo (l : list (Z * Evento)) : option Z :=
  match l with
  | [] => None
  | (_, e) :: l' =>
      match ultimoServo l' with
      | Some us => Some us
      | None => match e with ServoWrite us => Some us | _ => None end
      end
  end.

(** The times at which the buzzer was switched on. *)
Fixpoint beeps (l : list (Z * Evento)) (pino : Z) : list Z :=
  match l with
  | [] => []
  | (t, DigitalWrite p true) :: l' =>
      if p =? pino then t :: beeps l' pino else beeps l' pino
  | _ :: l' => beeps l' pino
  end.

(** When each resolution is taken on a tick of [monitorarPassagemSaida] of
    V3.ino that started at [tempoInicio]. *)
Definition V3_condicao (w : Mundo) (tempoInicio : Z) (r : Resolucao) (s : V3.Est)
  : Prop :=
  match r with
  | RESOLVED_SUCCESS => digitalRead w V3.PINO_SENSOR_SAIDA s = true
  | RESOLVED_FRAUD =>
      digitalRead w V3.PINO_SENSOR_SAIDA s = false /\
      digitalRead w V3.PINO_SENSOR_ENTRADA s = true
  | RESOLVED_TIMEOUT =>
      digitalRead w V3.PINO_SENSOR_SAIDA s = false /\
      digitalRead w V3.PINO_SENSOR_ENTRADA s = false /\
      V3.TIMEOUT_OPERACAO < menos_ul (millis s) tempoInicio
  end.

(** What [fecharCancela] of V3.ino writes when called at time [t]. *)
Definition V3_eventos_fechar (t : Z) : list (Z * Evento) :=
  [ (t, DigitalWrite V3.PINO_LED_AMARELO LOW);
    (t, DigitalWrite V3.PINO_LED_VERDE LOW);
    (t, DigitalWrite V3.PINO_LED_VERMELHO HIGH);
    (t, ServoWrite V3.SERVO_POSICAO_FECHADA);
    (t, SerialPrintln "[AÇÃO] Cancela Fechada.") ].

(** [n] beeps of [emitirAvisoFechamento], the first at time [t]. *)
Fixpoint V3_eventos_beeps (n : nat) (t : Z) : list (Z * Evento) :=
  match n with
  | O => []
  | S n' =>
      (t, DigitalWrite V3.PINO_BUZZER HIGH)
      :: (t + V3.DURACAO_BEEP, DigitalWrite V3.PINO_BUZZER LOW)
      :: V3_eventos_beeps n' (t + 1000)
  end.

(** When each resolution is taken on a tick of [gerenciarSegurancaSaida] of
    V4.ino that started at [tempoInicioEspera]. *)
Definition V4_condicao (w : Mundo) (tempoInicioEspera : Z) (r : Resolucao)
  (s : V4.Est) : Prop :=
  match r with
  | RESOLVED_SUCCESS => digitalRead w V4.pinoSensorSaida s = true
  | RESOLVED_TIMEOUT =>
      digitalRead w V4.pinoSensorSaida s = false /\
      V4.TIMEOUT_OPERACAO < menos_ul (millis s) tempoInicioEspera
  | RESOLVED_FRAUD =>
      digitalRead w V4.pinoSensorSaida s = false /\
      menos_ul (millis s) tempoInicioEspera <= V4.TIMEOUT_OPERACAO /\
      V4.veiculoNaEntrada w s = true
  end.

(** What [gerenciarSegurancaEntrada] of V4.ino does on the tick on which it
    gives up. *)
Definition V4_timeout_entrada (s : V4.Est) : V4.Est :=
  V4.set_timeoutEntradaOcorrido true
    (V4.emitirAvisoSonoroFechamento
       (println "TIMEOUT: Veículo demorou para avançar. Cancelando operação.\n" s)).

(** ** Concrete surroundings and states, for the examples *)

(** A world with the given pin levels and distances, without Wi-Fi. *)
Definition mundoDe (niv : Z -> Z -> bool) (dist : Z -> Z -> Z) : Mundo :=
  mkMundo niv dist (fun _ => false) (fun _ => false)
          (fun _ => "01/01/2025") (fun _ => "12:00:00")
          "Jan  1 2025" "12:00:00" "01/01/2025" "12:00:00" 0.

(** Every pin high, every distance zero. *)
Definition mundo_tudo_ativo : Mundo := mundoDe (fun _ _ => true) (fun _ _ => 0).

(** Only the given pin high; nothing in front of the ultrasonic sensors. *)
Definition mundo_so_pino (pino : Z) : Mundo :=
  mundoDe (fun p _ => p =? pino) (fun _ _ => 400).

(** Every pin low; something right in front of the ultrasonic sensors. *)
Definition mundo_so_ultrassom : Mundo := mundoDe (fun _ _ => false) (fun _ _ => 0).


(** Boards in the middle of a passage, gate open, at time [t]. *)
Definition V3_em_passagem (t : Z) : V3.Est :=
  mkEstado (mkPlaca t 0 []) (V3.mkGlobais 0 true "Jan  1 2025" 0).
Definition V4_em_passagem (t : Z) : V4.Est :=
  mkEstado (mkPlaca t 0 [])
           (V4.mkGlobais true 1 "01/01/2025" "12:00:00" "01/01/2025" 0
                         false false false).
Definition V1_em_passagem (t : Z) : V1.Est :=
  mkEstado (mkPlaca t 0 []) (V1.mkGlobais 0 0 0 true).

(** Boards that are idle, gate closed, at time [t], with [c] vehicles counted. *)
Definition V3_ocioso (t c : Z) : V3.Est :=
  mkEstado (mkPlaca t c []) (V3.mkGlobais c false "Jan  1 2025" 0).
Definition V4_ocioso (t c : Z) : V4.Est :=
  mkEstado (mkPlaca t c [])
           (V4.mkGlobais false c "01/01/2025" "12:00:00" "01/01/2025" 0
                         false false false).

(** The result of a run that is known to return. *)
Definition resultado {A : Type} (o : option A) (padrao : A) : A :=
  match o with
  | Some a => a
  | None => padrao
  end.

(** How [loop] of V3.ino ends a passage that resolved as [r], from the state
    [x] in which the supervisors left the board. *)
Definition V3_encerra (r : Resolucao) (x s' : V3.Est) : Prop :=
  match r with
  | RESOLVED_SUCCESS => s' = V3.registrarSucesso x
  | _ =>
      s' = println "[AVISO] Operação cancelada por timeout na entrada." x \/
      s' = println "[AVISO] Operação cancelada por timeout na saída." x
  end.

(** The states [loop] of V3.ino can be entered in: after [setup], and after
    each return of [loop], in whatever surroundings. *)
Inductive V3_alcancavel : V3.Est -> Prop :=
| V3_alcancavel_setup : forall n w s,
    V3.setup n w = Some s -> V3_alcancavel s
| V3_alcancavel_loop : forall n w s s',
    V3_alcancavel s -> V3.loop n w s = Some s' -> V3_alcancavel s'.

(** A world with Wi-Fi in which the network time says the date is [d]. *)
Definition mundo_com_data (d : string) : Mundo :=
  mkMundo (fun _ _ => false) (fun _ _ => 400) (fun _ => true) (fun _ => true)
          (fun _ => d) (fun _ => "00:00:05")
          "Jan  1 2025" "12:00:00" "01/01/2025" "12:00:00" 7.

(** Boards that last reset their counter on 01/01/2025 and counted 7 vehicles. *)
Definition V3_sete_veiculos : V3.Est :=
  mkEstado (mkPlaca 0 7 []) (V3.mkGlobais 7 false "01/01/2025" 0).
Definition V4_sete_veiculos : V4.Est :=
  mkEstado (mkPlaca 0 7 [])
           (V4.mkGlobais false 7 "02/01/2025" "00:00:05" "01/01/2025" 0
                         false false false).

(** A vehicle at V3.ino's gate with the button pressed and the ticket taken at
    once: it leaves the entry sensor at [tE] and reaches the exit sensor at
    [tS]. *)
Definition mundo_passagem_V3 (tE tS : Z) : Mundo :=
  mundoDe (fun p t =>
             if p =? V3.PINO_SENSOR_ENTRADA then t <? tE
             else if p =? V3.PINO_BOTAO_TICKET then true
             else if p =? V3.PINO_SENSOR_SAIDA then tS <=? t
             else false)
          (fun _ _ => 400).

(** The same at V4.ino's gate, manual switch off. *)
Definition mundo_passagem_V4 (tE tS : Z) : Mundo :=
  mundoDe (fun p t =>
             if p =? V4.pinoBotaoTicket then true
             else if p =? V4.pinoSensorSaida then tS <=? t
             else false)
          (fun _ t => if t <? tE then 0 else 400).

(** How a passage of V4.ino resolved as [r], leaving the board in [x]: in the
    exit supervisor, or by the timeout of the entry supervisor. *)
Definition V4_resolvido (r : Resolucao) (x : V4.Est) : Prop :=
  exists sk : V4.Est,
    x = V4_resolve r sk \/ (r = RESOLVED_TIMEOUT /\ x = V4_timeout_entrada sk).

(** Idle boards of V2.ino and V5, gate closed, with [c] vehicles counted. *)
Definition V2_ocioso (t c : Z) : V2.Est :=
  mkEstado (mkPlaca t c [])
           (V2.mkGlobais "01/01/2025" "12:00:00" "01/01/2025" false c false 0).
Definition V5_ocioso (t c : Z) : V5.Est :=
  mkEstado (mkPlaca t c []) (V5.mkGlobais false c 0 0).


(** A vehicle at V2.ino's gate that leaves the entry sensor at [tE] and never
    reaches the exit sensor. *)
Definition mundo_passagem_V2 (tE : Z) : Mundo :=
  mundoDe (fun p t => (p =? V2.pinoSensorEntrada) && (t <? tE)) (fun _ _ => 400).

Definition V2_em_passagem (t : Z) : V2.Est :=
  mkEstado (mkPlaca t 0 [])
           (V2.mkGlobais "01/01/2025" "12:00:00" "01/01/2025" false 0 true 0).

(** The same surroundings on a board whose EEPROM cell holds [v] at boot. *)
Definition com_eeprom (v : Z) (w : Mundo) : Mundo :=
  mkMundo (nivel w) (distancia w) (wifiConectado w) (ntpUpdate w) (dataNTP w)
          (horaNTP w) (DATE_ w) (TIME_ w) (dataCompilacao w) (horaCompilacao w) v.

(** V3.ino booting with all four bytes of the EEPROM cell at 0xFF, and a
    vehicle that leaves the entry sensor at 20500 ms and reaches the exit
    sensor at 21500 ms. *)
Definition mundo_eeprom_cheia : Mundo :=
  com_eeprom 4294967295 (mundo_passagem_V3 20500 21500).
Definition V3_apos_setup_cheia : V3.Est :=
  resultado (V3.setup 40 mundo_eeprom_cheia) (V3.estadoInicial mundo_eeprom_cheia).

(** A board of V3.ino, gate open, whose clock is [t]: used with [t] close to
    2^32 to run a wait across the overflow of [millis]. *)
Definition V3_perto_do_estouro : V3.Est := V3_em_passagem 4294966296.

(** The ticket of V3.ino is taken at [tR]; nothing else happens. *)
Definition mundo_ticket (tR : Z) : Mundo :=
  mundoDe (fun p t => (p =? V3.PINO_SENSOR_RETIRADA_TICKET) && (t <? tR))
          (fun _ _ => 400).

(** What the wait for the ticket of V3.ino may write before the ticket is
    taken: reminders on the serial port. *)
Definition V3_so_lembretes (l : list (Z * Evento)) : Prop :=
  Forall (fun e => snd e = SerialPrintln "[AGUARDANDO] Por favor, retire o ticket.") l.

(** The two copies of the count of V3.ino, in RAM and in the EEPROM, agree. *)
Definition V3_persistido (s : V3.Est) : Prop :=
  eeprom (placa s) = V3.contadorVeiculos (vars s).

(** The status line of the manual mode of V4.ino, printed when it is due. *)
Definition V4_mensagem_manual (s : V4.Est) : V4.Est :=
  if V4.INTERVALO_MSG_STATUS <? menos_ul (millis s) (V4.ultimoTempoMsgStatus (vars s))
  then let s := println "Sistema em modo de operação manual..." s in
       V4.set_ultimoTempoMsgStatus (millis s) s
  else s.

(** Global variables of V4.ino that agree on everything but the state of the
    gate and the time of the last status message. *)
Definition V4_salvo_cancela_e_status (g g' : V4.Globais) : Prop :=
  V4.contadorVeiculosDia g' = V4.contadorVeiculosDia g /\
  V4.dataAtual g' = V4.dataAtual g /\
  V4.horaAtual g' = V4.horaAtual g /\
  V4.ultimaDataResetContador g' = V4.ultimaDataResetContador g /\
  V4.timeoutEntradaOcorrido g' = V4.timeoutEntradaOcorrido g /\
  V4.timeoutSaidaOcorrido g' = V4.timeoutSaidaOcorrido g /\
  V4.primeiraExecucao g' = V4.primeiraExecucao g.

(** The manual switch of V4.ino is on until [tM]; a vehicle stands at the
    entry sensor with the button pressed all the while. *)
Definition mundo_manual (tM : Z) : Mundo :=
  mundoDe (fun p t => if p =? V4.pinoChaveManual then t <? tM
                      else p =? V4.pinoBotaoTicket)
          (fun _ _ => 0).

(** The block of [loop] of V1.ino that zeroes the count every 24 h. *)
Definition V1_reset24h (s : V1.Est) : V1.Est :=
  if V1.INTERVALO_RESET_CONTADOR_MS
     <=? menos_ul (millis s) (V1.ultimoResetContador (vars s))
  then
    let s' := V1.set_contagemVeiculos 0 s in
    let s' := V1.set_ultimoResetContador (millis s) s' in
    println "INFO: O contador de veiculos foi zerado para o novo dia." s'
  else s.

(** A vehicle at V1.ino's gate with the button pressed: it leaves the entry
    sensor at [tE] and reaches the exit sensor at [tS]. *)
Definition mundo_passagem_V1 (tE tS : Z) : Mundo :=
  mundoDe (fun p t =>
             if p =? V1.PINO_SENSOR_ENTRADA then t <? tE
             else if p =? V1.PINO_BOTAO then true
             else if p =? V1.PINO_SENSOR_SAIDA then tS <=? t
             else false)
          (fun _ _ => 400).

(** An idle board of V1.ino, gate closed, at time [t], with [c] vehicles
    counted since the reset at boot. *)
Definition V1_ocioso (t c : Z) : V1.Est :=
  mkEstado (mkPlaca t 0 []) (V1.mkGlobais c 0 0 false).


(** The lever of V5 is on until [tM]; a vehicle stands in front of the entry
    sensor with the button pressed all the while. *)
Definition mundo_alavanca (tM : Z) : Mundo :=
  mundoDe (fun p t => if p =? V5.pinoAlavancaManual then t <? tM
                      else p =? V5.pinoBotaoEmissaoTicket)
          (fun _ _ => 0).

(** The block of [loop] of V5 that zeroes the count every 24 h. *)
Definition V5_reset24h (s : V5.Est) : V5.Est :=
  if V5.INTERVALO_RESET_CONTADOR
     <=? menos_ul (millis s) (V5.tempoUltimoResetContador (vars s))
  then
    let s' := V5.set_contadorVeiculos 0 s in
    let s' := V5.set_tempoUltimoResetContador (millis s') s' in
    println "\nINFO: Contador de veículos foi reiniciado (ciclo de 24h)." s'
  else s.

(** Boards of V1.ino and V5 on which 24 h and one second have passed since
    the last reset of the count, with 7 vehicles counted. *)
Definition V1_um_dia_depois : V1.Est :=
  mkEstado (mkPlaca 86401000 0 []) (V1.mkGlobais 7 0 86400000 false).
Definition V5_um_dia_depois : V5.Est :=
  mkEstado (mkPlaca 86401000 0 []) (V5.mkGlobais false 7 0 86400000).

(** ** Loops: general facts *)

Open Scope list_scope.

Section Lacos.
Context {E R : Type} (tique : E -> Controle E R).

Lemma enquanto_mais (n m : nat) (s : E) (r : option R * E) :
  enquanto n tique s = Some r -> enquanto (n + m) tique s = Some r.
Proof.
  revert s. induction n as [|n IH]; intros s H; simpl in *.
  - discriminate.
  - destruct (tique s); auto.
Qed.

Lemma enquanto_le (n m : nat) (s : E) (r : option R * E) :
  (n <= m)%nat -> enquanto n tique s = Some r -> enquanto m tique s = Some r.
Proof.
  intros Hle H. replace m with (n + (m - n))%nat by lia.
  now apply enquanto_mais.
Qed.

Lemma enquanto_inv (n : nat) (s s' : E) (r : option R) :
  enquanto n tique s = Some (r, s') ->
  exists sk, percorre tique s sk /\
    match r with
    | None => tique sk = Fim s'
    | Some x => tique sk = Devolve x s'
    end.
Proof.
  revert s. induction n as [|n IH]; intros s H; simpl in H.
  - discriminate.
  - destruct (tique s) as [s1|s1|x s1] eqn:Et.
    + destruct (IH _ H) as (sk & Hp & Hk).
      exists sk. split; [eapply percorre_passo; eauto | exact Hk].
    + inversion H; subst. exists s. split; [constructor | exact Et].
    + inversion H; subst. exists s. split; [constructor | exact Et].
Qed.

Lemma percorre_enquanto (s sk : E) :
  percorre tique s sk ->
  exists k, forall n, enquanto (k + n) tique s = enquanto n tique sk.
Proof.
  induction 1 as [s|s s1 s2 Hs _ (k & Hk)].
  - exists 0%nat. reflexivity.
  - exists (S k). intros n. simpl. rewrite Hs. apply Hk.
Qed.

Lemma percorre_inv (P : E -> Prop) :
  (forall a b, P a -> tique a = Segue b -> P b) ->
  forall s sk, percorre tique s sk -> P s -> P sk.
Proof.
  intros Hstep s sk Hp. induction Hp; eauto.
Qed.

End Lacos.

(** ** Unsigned arithmetic on the clock *)

Lemma menos_ul_intervalo (a b : Z) : 0 <= menos_ul a b < ULONG_MAX_1.
Proof. unfold menos_ul, ULONG_MAX_1. apply Z.mod_pos_bound. reflexivity. Qed.

Lemma menos_ul_delay {G : Type} (d t0 : Z) (s : Estado G) :
  menos_ul (millis (delay d s)) t0 = (menos_ul (millis s) t0 + d) mod ULONG_MAX_1.
Proof.
  unfold menos_ul, millis, tempo, delay. cbn [placa agora].
  generalize ULONG_MAX_1 (agora (placa s)). intros M a.
  rewrite (Zminus_mod_idemp_l (a + d)).
  rewrite Zplus_mod_idemp_l.
  rewrite <- (Z.add_sub_swap (a mod M)).
  rewrite <- (Zminus_mod_idemp_l (a mod M + d)).
  rewrite Zplus_mod_idemp_l.
  rewrite Zminus_mod_idemp_l.
  reflexivity.
Qed.

Lemma menos_ul_delay_pequeno {G : Type} (d t0 : Z) (s : Estado G) :
  0 <= d -> menos_ul (millis s) t0 + d < ULONG_MAX_1 ->
  menos_ul (millis (delay d s)) t0 = menos_ul (millis s) t0 + d.
Proof.
  intros Hd Hlt. rewrite menos_ul_delay.
  apply Z.mod_small. pose proof (menos_ul_intervalo (millis s) t0). lia.
Qed.

Lemma menos_ul_inicio {G : Type} (s : Estado G) : menos_ul (millis s) (millis s) = 0.
Proof. unfold menos_ul. rewrite Z.sub_diag. reflexivity. Qed.

Lemma mais1_ui_pequeno (c : Z) : 0 <= c < UINT_MAX_1 - 1 -> mais1_ui c = c + 1.
Proof. intros H. unfold mais1_ui. apply Z.mod_small. lia. Qed.

Lemma mais1_ui_volta : mais1_ui (UINT_MAX_1 - 1) = 0.
Proof. reflexivity. Qed.

(** ** States: general facts *)

Lemma delay_0 {G : Type} (s : Estado G) : delay 0 s = s.
Proof. destruct s as [[a e t] g]. unfold delay. simpl. now rewrite Z.add_0_r. Qed.

Lemma delay_delay {G : Type} (a b : Z) (s : Estado G) :
  delay a (delay b s) = delay (b + a) s.
Proof. unfold delay. simpl. now rewrite Z.add_assoc. Qed.

Lemma ultimoServo_app (l1 l2 : list (Z * Evento)) :
  ultimoServo (l1 ++ l2) =
  match ultimoServo l2 with
  | Some us => Some us
  | None => ultimoServo l1
  end.
Proof.
  induction l1 as [|[t e] l1 IH]; simpl.
  - now destruct (ultimoServo l2).
  - rewrite IH. now destruct (ultimoServo l2).
Qed.

(** ** V3.ino: the two supervisors *)

Lemma V3_fecharCancela_saidas (s : V3.Est) :
  saidas (V3.fecharCancela s) = saidas s ++ V3_eventos_fechar (tempo s).
Proof.
  unfold V3.fecharCancela, saidas, V3_eventos_fechar. simpl.
  now rewrite <- !app_assoc.
Qed.

Lemma V3_fecharCancela_fechada (s : V3.Est) :
  V3.estadoCancelaAberta (vars (V3.fecharCancela s)) = false.
Proof. reflexivity. Qed.

Lemma V3_fecharCancela_contador (s : V3.Est) :
  V3.contadorVeiculos (vars (V3.fecharCancela s)) = V3.contadorVeiculos (vars s).
Proof. reflexivity. Qed.

Lemma V3_beeps_saidas (n : nat) (s : V3.Est) :
  saidas (repete n V3.beep s) = saidas s ++ V3_eventos_beeps n (tempo s).
Proof.
  revert s. induction n as [|n IH]; intros s; simpl.
  - now rewrite app_nil_r.
  - rewrite IH. unfold V3.beep, saidas, tempo. simpl.
    rewrite <- !app_assoc. simpl.
    replace (agora (placa s) + V3.DURACAO_BEEP + 800)
      with (agora (placa s) + 1000) by (unfold V3.DURACAO_BEEP; lia).
    reflexivity.
Qed.

Lemma V3_beeps_tempo (n : nat) (s : V3.Est) :
  tempo (repete n V3.beep s) = tempo s + 1000 * Z.of_nat n.
Proof.
  revert s. induction n as [|n IH]; intros s.
  - simpl. lia.
  - cbn [repete]. rewrite IH. unfold V3.beep, tempo, V3.DURACAO_BEEP. simpl agora. lia.
Qed.

Lemma V3_beeps_vars (n : nat) (s : V3.Est) : vars (repete n V3.beep s) = vars s.
Proof.
  revert s. induction n as [|n IH]; intros s; simpl; [reflexivity|].
  now rewrite IH.
Qed.

Lemma V3_emitirAvisoFechamento_saidas (s : V3.Est) :
  saidas (V3.emitirAvisoFechamento s) =
  saidas s
  ++ (tempo s, SerialPrintln "[ALERTA] A cancela será fechada em 5 segundos!")
     :: V3_eventos_beeps 5 (tempo s)
  ++ V3_eventos_fechar (tempo s + 5000).
Proof.
  unfold V3.emitirAvisoFechamento.
  rewrite V3_fecharCancela_saidas, V3_beeps_saidas, V3_beeps_tempo.
  unfold saidas, tempo. simpl.
  rewrite <- !app_assoc. reflexivity.
Qed.

Lemma V3_emitirAvisoFechamento_fechada (s : V3.Est) :
  V3.estadoCancelaAberta (vars (V3.emitirAvisoFechamento s)) = false.
Proof. reflexivity. Qed.

Lemma V3_emitirAvisoFechamento_contador (s : V3.Est) :
  V3.contadorVeiculos (vars (V3.emitirAvisoFechamento s)) = V3.contadorVeiculos (vars s).
Proof.
  unfold V3.emitirAvisoFechamento. rewrite V3_fecharCancela_contador.
  unfold println, emite, com_vars. cbn [vars].
  now rewrite V3_beeps_vars.
Qed.

(** One pass of the exit loop, by cases on what the sensors and the clock say. *)
Lemma V3_saida_tique_resolve (w : Mundo) (t0 : Z) (s : V3.Est) (r : Resolucao) :
  V3_condicao w t0 r s ->
  V3.monitorarPassagemSaida_tique w t0 s =
  match r with
  | RESOLVED_SUCCESS => Fim s
  | _ => Devolve true (V3_resolve r s)
  end.
Proof.
  unfold V3.monitorarPassagemSaida_tique.
  destruct r; simpl.
  - intros ->. reflexivity.
  - intros (-> & -> & Ht). simpl.
    apply Z.ltb_lt in Ht. now rewrite Ht.
  - intros (-> & ->). reflexivity.
Qed.

Lemma V3_saida_tique_segue (w : Mundo) (t0 : Z) (s s1 : V3.Est) :
  V3.monitorarPassagemSaida_tique w t0 s = Segue s1 ->
  s1 = delay 10 s /\
  digitalRead w V3.PINO_SENSOR_SAIDA s = false /\
  digitalRead w V3.PINO_SENSOR_ENTRADA s = false /\
  menos_ul (millis s) t0 <= V3.TIMEOUT_OPERACAO.
Proof.
  unfold V3.monitorarPassagemSaida_tique.
  destruct (digitalRead w V3.PINO_SENSOR_SAIDA s); simpl; [discriminate|].
  destruct (digitalRead w V3.PINO_SENSOR_ENTRADA s); [discriminate|].
  destruct (V3.TIMEOUT_OPERACAO <? menos_ul (millis s) t0) eqn:Ht; [discriminate|].
  apply Z.ltb_ge in Ht. intros H. inversion H. auto.
Qed.

Lemma V3_saida_tique_para (w : Mundo) (t0 : Z) (s : V3.Est) :
  (exists s1, V3.monitorarPassagemSaida_tique w t0 s = Segue s1) \/
  (exists r, V3_condicao w t0 r s).
Proof.
  unfold V3.monitorarPassagemSaida_tique.
  destruct (digitalRead w V3.PINO_SENSOR_SAIDA s) eqn:Es; simpl.
  - right. exists RESOLVED_SUCCESS. exact Es.
  - destruct (digitalRead w V3.PINO_SENSOR_ENTRADA s) eqn:Ee.
    + right. exists RESOLVED_FRAUD. simpl. auto.
    + destruct (V3.TIMEOUT_OPERACAO <? menos_ul (millis s) t0) eqn:Ht.
      * right. exists RESOLVED_TIMEOUT. simpl. apply Z.ltb_lt in Ht. auto.
      * left. eauto.
Qed.

Lemma V3_saida_percorre (w : Mundo) (t0 : Z) (s sk : V3.Est) :
  percorre (V3.monitorarPassagemSaida_tique w t0) s sk ->
  exists k : nat, sk = delay (10 * Z.of_nat k) s.
Proof.
  induction 1 as [s|s s1 s2 Hs _ (k & Hk)].
  - exists 0%nat. simpl. now rewrite delay_0.
  - apply V3_saida_tique_segue in Hs. destruct Hs as (-> & _).
    exists (S k). rewrite Hk, delay_delay. f_equal. lia.
Qed.

(** Every way out of [monitorarPassagemSaida]. *)
Lemma V3_monitorarPassagemSaida_casos (n : nat) (w : Mundo) (s s2 : V3.Est) (b : bool) :
  V3.monitorarPassagemSaida n w s = Some (b, s2) ->
  exists (k : nat) (r : Resolucao),
    V3_condicao w (millis s) r (delay (10 * Z.of_nat k) s) /\
    s2 = V3_resolve r (delay (10 * Z.of_nat k) s) /\
    b = falhou r.
Proof.
  unfold V3.monitorarPassagemSaida, liga.
  destruct (enquanto n _ s) as [[r s1]|] eqn:El; [|discriminate].
  apply enquanto_inv in El. destruct El as (sk & Hp & Hk).
  apply V3_saida_percorre in Hp. destruct Hp as (k & ->).
  intros H. exists k.
  destruct (V3_saida_tique_para w (millis s) (delay (10 * Z.of_nat k) s))
    as [(s' & Hs)|(r' & Hc)].
  - rewrite Hs in Hk. destruct r; discriminate.
  - exists r'. split; [exact Hc|].
    rewrite (V3_saida_tique_resolve _ _ _ _ Hc) in Hk.
    destruct r as [x|]; destruct r'; try discriminate;
      inversion Hk; subst; inversion H; subst; auto.
Qed.

Lemma V3_saida_espera (w : Mundo) (t0 : Z) (k n : nat) (s : V3.Est) :
  (forall j : nat, (j < k)%nat ->
     nivel w V3.PINO_SENSOR_SAIDA (tempo s + 10 * Z.of_nat j) = false /\
     nivel w V3.PINO_SENSOR_ENTRADA (tempo s + 10 * Z.of_nat j) = false) ->
  menos_ul (millis s) t0 + 10 * Z.of_nat k <= V3.TIMEOUT_OPERACAO + 10 ->
  enquanto (k + n) (V3.monitorarPassagemSaida_tique w t0) s =
  enquanto n (V3.monitorarPassagemSaida_tique w t0) (delay (10 * Z.of_nat k) s).
Proof.
  revert s. induction k as [|k IH]; intros s Hq He.
  - simpl. now rewrite delay_0.
  - cbn [Nat.add enquanto].
    assert (Ht : V3.monitorarPassagemSaida_tique w t0 s = Segue (delay 10 s)).
    { unfold V3.monitorarPassagemSaida_tique, digitalRead.
      destruct (Hq 0%nat ltac:(lia)) as (Hs & Hent).
      rewrite Z.mul_0_r, Z.add_0_r in Hs, Hent. rewrite Hs, Hent. simpl.
      replace (V3.TIMEOUT_OPERACAO <? menos_ul (millis s) t0) with false; [reflexivity|].
      symmetry. apply Z.ltb_ge. lia. }
    rewrite Ht, IH.
    + rewrite delay_delay. do 2 f_equal. lia.
    + intros j Hj. destruct (Hq (S j) ltac:(lia)) as (Hs & Hent).
      unfold tempo, delay. cbn [placa agora].
      replace (agora (placa s) + 10 + 10 * Z.of_nat j)
        with (tempo s + 10 * Z.of_nat (S j)) by (unfold tempo; lia).
      auto.
    + rewrite menos_ul_delay_pequeno; unfold V3.TIMEOUT_OPERACAO, ULONG_MAX_1 in *; lia.
Qed.

Lemma V3_saida_termina (w : Mundo) (t0 : Z) (n : nat) (s : V3.Est) :
  V3.TIMEOUT_OPERACAO - menos_ul (millis s) t0 < 10 * Z.of_nat n ->
  exists r, enquanto (S n) (V3.monitorarPassagemSaida_tique w t0) s = Some r.
Proof.
  revert s. induction n as [|n IH]; intros s He.
  - destruct (V3_saida_tique_para w t0 s) as [(s1 & Hs)|(r & Hc)].
    + apply V3_saida_tique_segue in Hs. destruct Hs as (_ & _ & _ & Hle).
      unfold V3.TIMEOUT_OPERACAO in *. lia.
    + simpl. rewrite (V3_saida_tique_resolve _ _ _ _ Hc). destruct r; eauto.
  - destruct (V3_saida_tique_para w t0 s) as [(s1 & Hs)|(r & Hc)].
    + cbn [enquanto]. rewrite Hs.
      apply V3_saida_tique_segue in Hs. destruct Hs as (-> & _ & _ & Hle).
      apply IH. rewrite menos_ul_delay_pequeno;
        unfold V3.TIMEOUT_OPERACAO, ULONG_MAX_1 in *; lia.
    + cbn [enquanto]. rewrite (V3_saida_tique_resolve _ _ _ _ Hc). destruct r; eauto.
Qed.

(** [monitorarPassagemSaida] always returns: 3002 passes are enough. *)
Lemma V3_monitorarPassagemSaida_total (n : nat) (w : Mundo) (s : V3.Est) :
  (3002 <= n)%nat -> exists b s2, V3.monitorarPassagemSaida n w s = Some (b, s2).
Proof.
  intros Hn.
  destruct (V3_saida_termina w (millis s) 3001 s) as ([r s1] & Hr).
  { pose proof (menos_ul_intervalo (millis s) (millis s)).
    unfold V3.TIMEOUT_OPERACAO. lia. }
  apply (enquanto_le _ _ n) in Hr; [|lia].
  unfold V3.monitorarPassagemSaida, liga. rewrite Hr.
  destruct r; eauto.
Qed.

(** The entry loop. *)
Lemma V3_entrada_tique_casos (w : Mundo) (t0 : Z) (s : V3.Est) :
  V3.monitorarPassagemEntrada_tique w t0 s =
  if digitalRead w V3.PINO_SENSOR_ENTRADA s then
    if V3.TIMEOUT_OPERACAO <? menos_ul (millis s) t0
    then Devolve true (V3_resolve RESOLVED_TIMEOUT s)
    else Segue (delay 10 s)
  else Fim s.
Proof. reflexivity. Qed.

Lemma V3_entrada_percorre (w : Mundo) (t0 : Z) (s sk : V3.Est) :
  percorre (V3.monitorarPassagemEntrada_tique w t0) s sk ->
  exists k : nat, sk = delay (10 * Z.of_nat k) s.
Proof.
  induction 1 as [s|s s1 s2 Hs _ (k & Hk)].
  - exists 0%nat. simpl. now rewrite delay_0.
  - rewrite V3_entrada_tique_casos in Hs.
    destruct (digitalRead w V3.PINO_SENSOR_ENTRADA s); [|discriminate].
    destruct (V3.TIMEOUT_OPERACAO <? menos_ul (millis s) t0); [discriminate|].
    inversion Hs; subst.
    exists (S k). rewrite delay_delay. f_equal. lia.
Qed.

(** Every way out of [monitorarPassagemEntrada]. *)
Lemma V3_monitorarPassagemEntrada_casos (n : nat) (w : Mundo) (s s2 : V3.Est)
  (b : bool) :
  V3.monitorarPassagemEntrada n w s = Some (b, s2) ->
  exists k : nat,
    let sk := delay (10 * Z.of_nat k) s in
    (b = true /\ s2 = V3_resolve RESOLVED_TIMEOUT sk /\
     digitalRead w V3.PINO_SENSOR_ENTRADA sk = true /\
     V3.TIMEOUT_OPERACAO < menos_ul (millis sk) (millis s))
    \/
    (b = false /\
     s2 = println "[INFO] Veículo liberou o sensor de entrada." sk /\
     digitalRead w V3.PINO_SENSOR_ENTRADA sk = false).
Proof.
  unfold V3.monitorarPassagemEntrada, liga.
  destruct (enquanto n _ s) as [[r s1]|] eqn:El; [|discriminate].
  apply enquanto_inv in El. destruct El as (sk & Hp & Hk).
  apply V3_entrada_percorre in Hp. destruct Hp as (k & ->).
  intros H. exists k. cbn zeta.
  rewrite V3_entrada_tique_casos in Hk.
  destruct (digitalRead w V3.PINO_SENSOR_ENTRADA _) eqn:Ee.
  - destruct (V3.TIMEOUT_OPERACAO <? menos_ul _ _) eqn:Ht.
    + destruct r; [|discriminate]. inversion Hk; subst. inversion H; subst.
      left. apply Z.ltb_lt in Ht. auto.
    + destruct r; discriminate.
  - destruct r; [discriminate|]. inversion Hk; subst. inversion H; subst.
    right. auto.
Qed.

Lemma V3_entrada_espera (w : Mundo) (t0 : Z) (k n : nat) (s : V3.Est) :
  (forall j : nat, (j < k)%nat ->
     nivel w V3.PINO_SENSOR_ENTRADA (tempo s + 10 * Z.of_nat j) = true) ->
  menos_ul (millis s) t0 + 10 * Z.of_nat k <= V3.TIMEOUT_OPERACAO + 10 ->
  enquanto (k + n) (V3.monitorarPassagemEntrada_tique w t0) s =
  enquanto n (V3.monitorarPassagemEntrada_tique w t0) (delay (10 * Z.of_nat k) s).
Proof.
  revert s. induction k as [|k IH]; intros s Hq He.
  - simpl. now rewrite delay_0.
  - cbn [Nat.add enquanto].
    assert (Ht : V3.monitorarPassagemEntrada_tique w t0 s = Segue (delay 10 s)).
    { rewrite V3_entrada_tique_casos. unfold digitalRead.
      pose proof (Hq 0%nat ltac:(lia)) as Hent.
      rewrite Z.mul_0_r, Z.add_0_r in Hent. rewrite Hent.
      replace (V3.TIMEOUT_OPERACAO <? menos_ul (millis s) t0) with false; [reflexivity|].
      symmetry. apply Z.ltb_ge. lia. }
    rewrite Ht, IH.
    + rewrite delay_delay. do 2 f_equal. lia.
    + intros j Hj. pose proof (Hq (S j) ltac:(lia)) as Hent.
      unfold tempo, delay. cbn [placa agora].
      replace (agora (placa s) + 10 + 10 * Z.of_nat j)
        with (tempo s + 10 * Z.of_nat (S j)) by (unfold tempo; lia).
      auto.
    + rewrite menos_ul_delay_pequeno; unfold V3.TIMEOUT_OPERACAO, ULONG_MAX_1 in *; lia.
Qed.

Lemma V3_entrada_termina (w : Mundo) (t0 : Z) (n : nat) (s : V3.Est) :
  V3.TIMEOUT_OPERACAO - menos_ul (millis s) t0 < 10 * Z.of_nat n ->
  exists r, enquanto (S n) (V3.monitorarPassagemEntrada_tique w t0) s = Some r.
Proof.
  revert s. induction n as [|n IH]; intros s He; cbn [enquanto];
    rewrite V3_entrada_tique_casos;
    destruct (digitalRead w V3.PINO_SENSOR_ENTRADA s); eauto;
    destruct (V3.TIMEOUT_OPERACAO <? menos_ul (millis s) t0) eqn:Ht; eauto;
    apply Z.ltb_ge in Ht.
  - unfold V3.TIMEOUT_OPERACAO in *. lia.
  - apply IH. rewrite menos_ul_delay_pequeno;
      unfold V3.TIMEOUT_OPERACAO, ULONG_MAX_1 in *; lia.
Qed.

(** [monitorarPassagemEntrada] always returns: 3002 passes are enough. *)
Lemma V3_monitorarPassagemEntrada_total (n : nat) (w : Mundo) (s : V3.Est) :
  (3002 <= n)%nat -> exists b s2, V3.monitorarPassagemEntrada n w s = Some (b, s2).
Proof.
  intros Hn.
  destruct (V3_entrada_termina w (millis s) 3001 s) as ([r s1] & Hr).
  { pose proof (menos_ul_intervalo (millis s) (millis s)).
    unfold V3.TIMEOUT_OPERACAO. lia. }
  apply (enquanto_le _ _ n) in Hr; [|lia].
  unfold V3.monitorarPassagemEntrada, liga. rewrite Hr.
  destruct r; eauto.
Qed.

(** ** V4.ino: the two supervisors *)

Lemma V4_beeps_vars (n : nat) (s : V4.Est) : vars (repete n V4.beep s) = vars s.
Proof.
  revert s. induction n as [|n IH]; intros s; simpl; [reflexivity|].
  now rewrite IH.
Qed.

Lemma V4_fecharCancela_vars (s : V4.Est) :
  vars (V4.fecharCancela s) = vars (V4.set_estadoCancelaAberta false s).
Proof. reflexivity. Qed.

Lemma V4_set_estadoCancelaAberta_vars (b : bool) (s s' : V4.Est) :
  vars s = vars s' ->
  vars (V4.set_estadoCancelaAberta b s) = vars (V4.set_estadoCancelaAberta b s').
Proof.
  unfold V4.set_estadoCancelaAberta, com_vars. cbn [vars]. now intros ->.
Qed.

Lemma V4_emitirAviso_vars (s : V4.Est) :
  vars (V4.emitirAvisoSonoroFechamento s) = vars (V4.set_estadoCancelaAberta false s).
Proof.
  unfold V4.emitirAvisoSonoroFechamento.
  rewrite V4_fecharCancela_vars.
  apply V4_set_estadoCancelaAberta_vars.
  now rewrite V4_beeps_vars.
Qed.

Lemma V4_saida_tique_casos (w : Mundo) (t0 u : Z) (s : V4.Est) :
  V4.gerenciarSegurancaSaida_tique w t0 (u, s) =
  if digitalRead w V4.pinoSensorSaida s then Fim (u, s)
  else if V4.TIMEOUT_OPERACAO <? menos_ul (millis s) t0
  then Devolve tt (u, V4_resolve RESOLVED_TIMEOUT s)
  else if V4.veiculoNaEntrada w s
  then Devolve tt (u, V4_resolve RESOLVED_FRAUD s)
  else Segue
         (if V4.INTERVALO_MSG_STATUS <? menos_ul (millis s) u
          then (millis s,
                delay 10 (println "Aguardando veículo passar pelo sensor de saída..." s))
          else (u, delay 10 s)).
Proof.
  unfold V4.gerenciarSegurancaSaida_tique.
  destruct (digitalRead w V4.pinoSensorSaida s); simpl; [reflexivity|].
  destruct (V4.TIMEOUT_OPERACAO <? menos_ul (millis s) t0); [reflexivity|].
  destruct (V4.veiculoNaEntrada w s); [reflexivity|].
  destruct (V4.INTERVALO_MSG_STATUS <? menos_ul (millis s) u); reflexivity.
Qed.

Lemma V4_saida_tique_resolve (w : Mundo) (t0 u : Z) (s : V4.Est) (r : Resolucao) :
  V4_condicao w t0 r s ->
  V4.gerenciarSegurancaSaida_tique w t0 (u, s) =
  match r with
  | RESOLVED_SUCCESS => Fim (u, s)
  | _ => Devolve tt (u, V4_resolve r s)
  end.
Proof.
  rewrite V4_saida_tique_casos. destruct r; simpl.
  - intros ->. reflexivity.
  - intros (-> & Ht). apply Z.ltb_lt in Ht. now rewrite Ht.
  - intros (-> & Ht & ->). apply Z.ltb_ge in Ht. now rewrite Ht.
Qed.

Lemma V4_saida_tique_para (w : Mundo) (t0 u : Z) (s : V4.Est) :
  (exists e, V4.gerenciarSegurancaSaida_tique w t0 (u, s) = Segue e /\
             vars (snd e) = vars s) \/
  (exists r, V4_condicao w t0 r s).
Proof.
  rewrite V4_saida_tique_casos.
  destruct (digitalRead w V4.pinoSensorSaida s) eqn:Es.
  - right. exists RESOLVED_SUCCESS. exact Es.
  - destruct (V4.TIMEOUT_OPERACAO <? menos_ul (millis s) t0) eqn:Ht.
    + right. exists RESOLVED_TIMEOUT. simpl. apply Z.ltb_lt in Ht. auto.
    + destruct (V4.veiculoNaEntrada w s) eqn:Ee.
      * right. exists RESOLVED_FRAUD. simpl. apply Z.ltb_ge in Ht. auto.
      * left. eexists. split; [reflexivity|].
        destruct (V4.INTERVALO_MSG_STATUS <? menos_ul (millis s) u); reflexivity.
Qed.

Lemma V4_saida_percorre (w : Mundo) (t0 : Z) (e ek : Z * V4.Est) :
  percorre (V4.gerenciarSegurancaSaida_tique w t0) e ek ->
  vars (snd ek) = vars (snd e).
Proof.
  induction 1 as [e|[u s] e1 e2 Hs _ IH]; [reflexivity|].
  rewrite IH.
  destruct (V4_saida_tique_para w t0 u s) as [(e' & He & Hv)|(r & Hc)].
  - rewrite He in Hs. inversion Hs; subst. exact Hv.
  - rewrite (V4_saida_tique_resolve _ _ _ _ _ Hc) in Hs. destruct r; discriminate.
Qed.

(** Every way out of [gerenciarSegurancaSaida] once the entry was cleared. *)
Lemma V4_gerenciarSegurancaSaida_casos (n : nat) (w : Mundo) (s x : V4.Est) :
  V4.timeoutEntradaOcorrido (vars s) = false ->
  V4.gerenciarSegurancaSaida n w s = Some x ->
  exists (r : Resolucao) (sk : V4.Est),
    vars sk = vars (V4.set_timeoutSaidaOcorrido false s) /\
    V4_condicao w (millis s) r sk /\
    x = V4_resolve r sk.
Proof.
  intros HtE. unfold V4.gerenciarSegurancaSaida, liga. rewrite HtE.
  destruct (enquanto n _ _) as [[r [u s1]]|] eqn:El; [|discriminate].
  apply enquanto_inv in El. destruct El as ([uk sk] & Hp & Hk).
  apply V4_saida_percorre in Hp. simpl in Hp.
  intros H.
  change (millis (V4.set_timeoutSaidaOcorrido false s)) with (millis s) in Hk.
  destruct (V4_saida_tique_para w (millis s) uk sk) as [(e' & He & _)|(r' & Hc)].
  - rewrite He in Hk. destruct r; discriminate.
  - exists r', sk. split; [exact Hp|]. split; [exact Hc|].
    rewrite (V4_saida_tique_resolve _ _ _ _ _ Hc) in Hk.
    destruct r as [[]|]; destruct r'; try discriminate;
      inversion Hk; subst; inversion H; subst; reflexivity.
Qed.

Lemma V4_entrada_tique_casos (w : Mundo) (t0 u : Z) (s : V4.Est) :
  V4.gerenciarSegurancaEntrada_tique w t0 (u, s) =
  if V4.veiculoNaEntrada w s then
    if V4.TIMEOUT_OPERACAO <? menos_ul (millis s) t0
    then Devolve tt (u, V4_timeout_entrada s)
    else Segue
           (if V4.INTERVALO_MSG_STATUS <? menos_ul (millis s) u
            then (millis s, delay 10 (println "Aguardando veículo avançar..." s))
            else (u, delay 10 s))
  else Fim (u, s).
Proof.
  unfold V4.gerenciarSegurancaEntrada_tique.
  destruct (V4.veiculoNaEntrada w s); [|reflexivity].
  destruct (V4.TIMEOUT_OPERACAO <? menos_ul (millis s) t0); [reflexivity|].
  destruct (V4.INTERVALO_MSG_STATUS <? menos_ul (millis s) u); reflexivity.
Qed.

Lemma V4_entrada_percorre (w : Mundo) (t0 : Z) (e ek : Z * V4.Est) :
  percorre (V4.gerenciarSegurancaEntrada_tique w t0) e ek ->
  vars (snd ek) = vars (snd e).
Proof.
  induction 1 as [e|[u s] e1 e2 Hs _ IH]; [reflexivity|].
  rewrite IH. rewrite V4_entrada_tique_casos in Hs.
  destruct (V4.veiculoNaEntrada w s); [|discriminate].
  destruct (V4.TIMEOUT_OPERACAO <? menos_ul (millis s) t0); [discriminate|].
  inversion Hs; subst.
  destruct (V4.INTERVALO_MSG_STATUS <? menos_ul (millis s) u); reflexivity.
Qed.

(** Every way out of [gerenciarSegurancaEntrada]. *)
Lemma V4_gerenciarSegurancaEntrada_casos (n : nat) (w : Mundo) (s x : V4.Est) :
  V4.gerenciarSegurancaEntrada n w s = Some x ->
  exists sk : V4.Est,
    vars sk = vars (V4.set_timeoutEntradaOcorrido false s) /\
    (x = V4_timeout_entrada sk \/
     x = println "Veículo liberou a área de entrada.\n" sk).
Proof.
  unfold V4.gerenciarSegurancaEntrada, liga.
  destruct (enquanto n _ _) as [[r [u s1]]|] eqn:El; [|discriminate].
  apply enquanto_inv in El. destruct El as ([uk sk] & Hp & Hk).
  apply V4_entrada_percorre in Hp. simpl in Hp.
  intros H. exists sk. split; [exact Hp|].
  rewrite V4_entrada_tique_casos in Hk.
  destruct (V4.veiculoNaEntrada w sk).
  - destruct (V4.TIMEOUT_OPERACAO <? menos_ul _ _).
    + destruct r as [[]|]; [|discriminate]. inversion Hk; subst.
      inversion H; subst. now left.
    + destruct r; discriminate.
  - destruct r; [discriminate|]. inversion Hk; subst. inversion H; subst. now right.
Qed.

(** ** C1: the order of the checks on a tick of the exit wait *)




(** ** The entry waits of V1.ino and V3.ino *)

Lemma V1_entrada_tique_casos (w : Mundo) (t0 : Z) (s : V1.Est) :
  V1.gerenciarEntradaVeiculo_tique w t0 s =
  if digitalRead w V1.PINO_SENSOR_ENTRADA s then
    if V1.TIMEOUT_ENTRADA_MS <=? menos_ul (millis s) t0
    then Devolve false
           (V1.acionarAlertaEFechar
              (println "ERRO: Timeout na entrada. Cancelando operacao." s))
    else Segue (delay 50 s)
  else Fim s.
Proof. reflexivity. Qed.

(** A whole wait of V3.ino with the vehicle never leaving the entry sensor:
    the first tick more than T ms after the start is the one at 30010 ms, and
    it resolves the passage as a timeout. *)
Lemma V3_entrada_sempre_presente (w : Mundo) (n : nat) (s : V3.Est) :
  (forall j : nat, (j <= 3001)%nat ->
     nivel w V3.PINO_SENSOR_ENTRADA (tempo s + 10 * Z.of_nat j) = true) ->
  V3.monitorarPassagemEntrada (3001 + S n) w s
  = Some (true, V3_resolve RESOLVED_TIMEOUT (delay 30010 s)).
Proof.
  intros Hp. unfold V3.monitorarPassagemEntrada, liga.
  rewrite V3_entrada_espera.
  - cbn [enquanto]. rewrite V3_entrada_tique_casos.
    unfold digitalRead, tempo, delay. cbn [placa agora].
    change (10 * Z.of_nat 3001) with 30010.
    specialize (Hp 3001%nat (le_n _)). unfold tempo in Hp.
    change (10 * Z.of_nat 3001) with 30010 in Hp. rewrite Hp.
    pose proof (menos_ul_delay_pequeno 30010 (millis s) s) as Hd.
    rewrite menos_ul_inicio in Hd. unfold delay in Hd.
    rewrite Hd by (unfold ULONG_MAX_1; lia).
    reflexivity.
  - intros j Hj. apply Hp. lia.
  - rewrite menos_ul_inicio. unfold V3.TIMEOUT_OPERACAO. lia.
Qed.

(** ** What a failed exit wait leaves in the global variables *)

Lemma V3_fecharCancela_vars (s : V3.Est) :
  vars (V3.fecharCancela s) = vars (V3.set_estadoCancelaAberta false s).
Proof. reflexivity. Qed.

Lemma V3_set_estadoCancelaAberta_vars (b : bool) (s s' : V3.Est) :
  vars s = vars s' ->
  vars (V3.set_estadoCancelaAberta b s) = vars (V3.set_estadoCancelaAberta b s').
Proof.
  unfold V3.set_estadoCancelaAberta, com_vars. cbn [vars]. now intros ->.
Qed.

Lemma V3_resolve_falha_vars (r : Resolucao) (s : V3.Est) :
  r <> RESOLVED_SUCCESS ->
  vars (V3_resolve r s) = vars (V3.set_estadoCancelaAberta false s).
Proof.
  destruct r; intros Hr; [congruence| |reflexivity].
  unfold V3_resolve, V3.emitirAvisoFechamento.
  rewrite V3_fecharCancela_vars.
  apply V3_set_estadoCancelaAberta_vars.
  now rewrite V3_beeps_vars.
Qed.

Lemma V4_resolve_falha_vars (r : Resolucao) (s : V4.Est) :
  r <> RESOLVED_SUCCESS ->
  vars (V4_resolve r s)
  = vars (V4.set_timeoutSaidaOcorrido true (V4.set_estadoCancelaAberta false s)).
Proof.
  destruct r; intros Hr; [congruence| |reflexivity].
  unfold V4_resolve, V4.set_timeoutSaidaOcorrido at 1, com_vars. cbn [vars].
  now rewrite V4_emitirAviso_vars.
Qed.

(** ** C8: the reset at the day boundary *)

(** C8.  V3.ino, on a state prepared by [atualizarRelogio] as [loop] does, and
    V4.ino: when the current date differs from the date of the last reset, one
    pass of the reset sets the counter (and its EEPROM copy) to zero and the
    date of the last reset to the current date; a further pass under the same
    current date changes nothing.  A pass changes both or neither. *)
Theorem C8_reset_diario (w : Mundo) (s : V3.Est) (s4 : V4.Est) :
  (let s0 := V3.atualizarRelogio w s in
   let d := V3.obterDataFormatada w s0 in
   let s1 := V3.verificarResetDiarioContador w s0 in
   (vars s1 = vars s0 \/
    (V3.contadorVeiculos (vars s1) = 0 /\ V3.ultimaDataReset (vars s1) = d)) /\
   (d <> V3.ultimaDataReset (vars s0) ->
    V3.contadorVeiculos (vars s1) = 0 /\
    eeprom (placa s1) = 0 /\
    V3.ultimaDataReset (vars s1) = d /\
    forall (w' : Mundo) (s2 : V3.Est),
      V3.ultimaDataReset (vars s2) = V3.ultimaDataReset (vars s1) ->
      V3.obterDataFormatada w' s2 = d ->
      V3.verificarResetDiarioContador w' s2 = s2))
  /\
  (let d := V4.dataAtual (vars s4) in
   let s1 := V4.verificacaoResetDiario s4 in
   (vars s1 = vars s4 \/
    (V4.contadorVeiculosDia (vars s1) = 0 /\
     V4.ultimaDataResetContador (vars s1) = d)) /\
   (d <> V4.ultimaDataResetContador (vars s4) ->
    V4.contadorVeiculosDia (vars s1) = 0 /\
    eeprom (placa s1) = 0 /\
    V4.ultimaDataResetContador (vars s1) = d /\
    forall s2 : V4.Est,
      V4.ultimaDataResetContador (vars s2) = V4.ultimaDataResetContador (vars s1) ->
      V4.dataAtual (vars s2) = d ->
      V4.verificacaoResetDiario s2 = s2)).
Proof.
  split.
  - cbn zeta.
    assert (Hd : V3.obterDataFormatada w (V3.atualizarRelogio w s)
                 = V3.obterDataFormatada w s).
    { unfold V3.atualizarRelogio.
      destruct (V3.ultimaDataReset (vars s) =? EmptyString)%string; reflexivity. }
    split.
    + unfold V3.verificarResetDiarioContador.
      destruct (negb _ && negb _); [right; split; reflexivity | now left].
    + intros Hne.
      assert (Hvazio : (V3.ultimaDataReset (vars (V3.atualizarRelogio w s)) =? EmptyString)%string
                       = false).
      { apply String.eqb_neq. intros Hv. apply Hne. rewrite Hd.
        unfold V3.atualizarRelogio in Hv |- *.
        destruct (V3.ultimaDataReset (vars s) =? EmptyString)%string eqn:E; [reflexivity|].
        apply String.eqb_neq in E. contradiction. }
      unfold V3.verificarResetDiarioContador at 1 2 3.
      apply String.eqb_neq in Hne. rewrite Hne, Hvazio. cbn [negb andb].
      repeat split.
      intros w' s2 Hu Hd2. unfold V3.verificarResetDiarioContador.
      rewrite Hd2, Hu.
      unfold V3.verificarResetDiarioContador. rewrite Hne, Hvazio.
      cbn [negb andb]. cbn. now rewrite String.eqb_refl.
  - cbn zeta. split.
    + unfold V4.verificacaoResetDiario.
      destruct (negb _); [right; split; reflexivity | now left].
    + intros Hne. apply String.eqb_neq in Hne.
      unfold V4.verificacaoResetDiario at 1 2 3. rewrite Hne. cbn [negb].
      repeat split.
      intros s2 Hu Hd2. unfold V4.verificacaoResetDiario.
      rewrite Hd2, Hu. unfold V4.verificacaoResetDiario. rewrite Hne.
      cbn. now rewrite String.eqb_refl.
Qed.

(** C8 at work: the counter is 7, the last reset was on 01/01/2025 and the date
    is now 02/01/2025. *)
Lemma C8_reset_diario_exemplo :
  (let w := mundo_com_data "02/01/2025" in
   let s1 := V3.verificarResetDiarioContador w (V3.atualizarRelogio w V3_sete_veiculos) in
   V3.contadorVeiculos (vars s1) = 0 /\
   eeprom (placa s1) = 0 /\
   V3.ultimaDataReset (vars s1) = "02/01/2025" /\
   V3.verificarResetDiarioContador w s1 = s1)
  /\
  (let s1 := V4.verificacaoResetDiario V4_sete_veiculos in
   V4.contadorVeiculosDia (vars s1) = 0 /\
   eeprom (placa s1) = 0 /\
   V4.ultimaDataResetContador (vars s1) = "02/01/2025" /\
   V4.verificacaoResetDiario s1 = s1).
Proof.
  split; cbn zeta.
  - destruct (proj2 (proj1 (C8_reset_diario (mundo_com_data "02/01/2025")
                              V3_sete_veiculos V4_sete_veiculos)))
      as (Hc & He & Hu & Hi).
    + apply String.eqb_neq. reflexivity.
    + split; [exact Hc | split; [exact He | split; [exact Hu |]]].
      apply Hi; reflexivity.
  - destruct (proj2 (proj2 (C8_reset_diario (mundo_com_data "02/01/2025")
                              V3_sete_veiculos V4_sete_veiculos)))
      as (Hc & He & Hu & Hi).
    + apply String.eqb_neq. reflexivity.
    + split; [exact Hc | split; [exact He | split; [exact Hu |]]].
      apply Hi; reflexivity.
Defined.

(** ** V3.ino: a whole passage *)

Lemma V3_aguardar_percorre (w : Mundo) (e ek : Z * V3.Est) :
  percorre (V3.aguardarRetiradaTicket_tique w) e ek ->
  vars (snd ek) = vars (snd e).
Proof.
  induction 1 as [e|[u s] e1 e2 Hs _ IH]; [reflexivity|].
  rewrite IH. unfold V3.aguardarRetiradaTicket_tique in Hs.
  destruct (Bool.eqb _ HIGH); [|discriminate].
  destruct (V3.INTERVALO_MENSAGEM_STATUS <? menos_ul (millis s) u);
    inversion Hs; reflexivity.
Qed.

Lemma V3_aguardarRetiradaTicket_vars (n : nat) (w : Mundo) (s s' : V3.Est) :
  V3.aguardarRetiradaTicket n w s = Some s' -> vars s' = vars s.
Proof.
  unfold V3.aguardarRetiradaTicket, liga.
  destruct (enquanto n _ _) as [[r [u s1]]|] eqn:El; [|discriminate].
  apply enquanto_inv in El. destruct El as ([uk sk] & Hp & Hk).
  apply V3_aguardar_percorre in Hp. simpl in Hp.
  intros H. inversion H; subst. cbn [vars println emite].
  unfold V3.aguardarRetiradaTicket_tique in Hk.
  destruct (Bool.eqb _ HIGH).
  - destruct (V3.INTERVALO_MENSAGEM_STATUS <? menos_ul (millis sk) uk);
      destruct r; discriminate.
  - destruct r; [discriminate|]. inversion Hk; subst. exact Hp.
Qed.

Lemma V3_resolve_fecha (r : Resolucao) (s : V3.Est) :
  exists y, V3_resolve r s = V3.fecharCancela y.
Proof. destruct r; eexists; reflexivity. Qed.

Lemma V3_resolve_contador (r : Resolucao) (s : V3.Est) :
  V3.contadorVeiculos (vars (V3_resolve r s)) = V3.contadorVeiculos (vars s).
Proof.
  destruct r; [reflexivity| |reflexivity].
  apply V3_emitirAvisoFechamento_contador.
Qed.

(** Every passage [loop] admits and returns from: the ticket, the wait for its
    removal and the opening of the gate leave the global variables as they
    were but for the gate; then one of the supervisors resolves the passage on
    some tick [sk], and [loop] ends it. *)
Lemma V3_loop_casos (n : nat) (w : Mundo) (s s' : V3.Est) :
  V3.loop n w s = Some s' ->
  V3.admite w (V3.verificarResetDiarioContador w (V3.atualizarRelogio w s)) = true ->
  exists (r : Resolucao) (sk : V3.Est),
    vars sk
    = vars (V3.set_estadoCancelaAberta true
              (V3.verificarResetDiarioContador w (V3.atualizarRelogio w s))) /\
    V3_encerra r (V3_resolve r sk) s'.
Proof.
  unfold V3.loop. intros H Ha. rewrite Ha in H.
  set (s0 := V3.verificarResetDiarioContador w (V3.atualizarRelogio w s)) in *.
  unfold liga in H.
  destruct (V3.aguardarRetiradaTicket n w _) as [sC|] eqn:Eag; [|discriminate].
  apply V3_aguardarRetiradaTicket_vars in Eag.
  destruct (V3.monitorarPassagemEntrada n w _) as [[b1 s2]|] eqn:Een; [|discriminate].
  apply V3_monitorarPassagemEntrada_casos in Een.
  destruct Een as (k & Hcase). cbn zeta in Hcase.
  assert (Hv : vars (delay (10 * Z.of_nat k) (V3.abrirCancela sC))
               = vars (V3.set_estadoCancelaAberta true s0)).
  { cbn [vars delay]. unfold V3.abrirCancela. cbn. rewrite Eag. reflexivity. }
  destruct Hcase as [(-> & -> & _ & _)|(-> & -> & _)].
  - inversion H; subst.
    exists RESOLVED_TIMEOUT, (delay (10 * Z.of_nat k) (V3.abrirCancela sC)).
    split; [exact Hv | left; reflexivity].
  - destruct (V3.monitorarPassagemSaida n w _) as [[b2 s3]|] eqn:Esa; [|discriminate].
    apply V3_monitorarPassagemSaida_casos in Esa.
    destruct Esa as (k2 & r & _ & -> & ->).
    exists r,
      (delay (10 * Z.of_nat k2)
         (println "[INFO] Veículo liberou o sensor de entrada."
            (delay (10 * Z.of_nat k) (V3.abrirCancela sC)))).
    split.
    + rewrite <- Hv. reflexivity.
    + destruct r; cbn [falhou] in H; injection H as <-; unfold V3_encerra; auto.
Qed.

Lemma V3_encerra_contador (r : Resolucao) (x s' : V3.Est) :
  V3_encerra r x s' ->
  V3.contadorVeiculos (vars s') =
  match r with
  | RESOLVED_SUCCESS => mais1_ui (V3.contadorVeiculos (vars x))
  | _ => V3.contadorVeiculos (vars x)
  end.
Proof.
  destruct r; simpl; [intros ->; reflexivity | |]; intros [-> | ->]; reflexivity.
Qed.

Lemma V3_encerra_fechada (r : Resolucao) (y s' : V3.Est) :
  V3_encerra r (V3.fecharCancela y) s' ->
  V3.estadoCancelaAberta (vars s') = false /\
  ultimoServo (saidas s') = Some V3.SERVO_POSICAO_FECHADA.
Proof.
  intros H.
  assert (Hs : forall l, ultimoServo (saidas (V3.fecharCancela y) ++ l)
                         = match ultimoServo l with
                           | Some us => Some us
                           | None => Some V3.SERVO_POSICAO_FECHADA
                           end).
  { intros l. rewrite ultimoServo_app, V3_fecharCancela_saidas, ultimoServo_app.
    reflexivity. }
  destruct r; simpl in H.
  - subst. split; [reflexivity|].
    unfold V3.registrarSucesso, saidas, println, emite, EEPROM_put_commit.
    cbn [placa traco]. rewrite <- !app_assoc.
    exact (Hs _).
  - destruct H as [-> | ->]; (split; [reflexivity|]);
      unfold saidas, println, emite; cbn [placa traco]; exact (Hs _).
  - destruct H as [-> | ->]; (split; [reflexivity|]);
      unfold saidas, println, emite; cbn [placa traco]; exact (Hs _).
Qed.

(** ** V4.ino: a whole passage *)

Lemma V4_resolve_contador (r : Resolucao) (s : V4.Est) :
  V4.contadorVeiculosDia (vars (V4_resolve r s)) = V4.contadorVeiculosDia (vars s).
Proof.
  destruct r; [reflexivity| |reflexivity].
  unfold V4_resolve, V4.set_timeoutSaidaOcorrido, com_vars. cbn [vars].
  now rewrite V4_emitirAviso_vars.
Qed.

Lemma V4_resolve_flags (r : Resolucao) (s : V4.Est) :
  V4.timeoutEntradaOcorrido (vars (V4_resolve r s)) = V4.timeoutEntradaOcorrido (vars s)
  /\ V4.timeoutSaidaOcorrido (vars (V4_resolve r s))
     = (falhou r || V4.timeoutSaidaOcorrido (vars s)).
Proof.
  destruct r; [split; reflexivity| |split; reflexivity].
  unfold V4_resolve, V4.set_timeoutSaidaOcorrido, com_vars. cbn [vars].
  rewrite V4_emitirAviso_vars. split; reflexivity.
Qed.

Lemma V4_timeout_entrada_vars (s : V4.Est) :
  vars (V4_timeout_entrada s)
  = vars (V4.set_timeoutEntradaOcorrido true (V4.set_estadoCancelaAberta false s)).
Proof.
  unfold V4_timeout_entrada, V4.set_timeoutEntradaOcorrido at 1, com_vars. cbn [vars].
  now rewrite V4_emitirAviso_vars.
Qed.

Ltac v4_campos :=
  unfold V4.set_timeoutEntradaOcorrido, V4.set_timeoutSaidaOcorrido,
    V4.set_estadoCancelaAberta, com_vars, println, emite;
  cbn [vars V4.contadorVeiculosDia V4.timeoutEntradaOcorrido
       V4.timeoutSaidaOcorrido V4.estadoCancelaAberta].

Lemma V4_supervisores_casos (n : nat) (w : Mundo) (sC s' : V4.Est) :
  (s1 <- V4.gerenciarSegurancaEntrada n w sC ;;
   s2 <- V4.gerenciarSegurancaSaida n w s1 ;;
   Some (V4.registrarOuReverter s2)) = Some s' ->
  exists (r : Resolucao) (x : V4.Est),
    V4_resolvido r x /\
    V4.contadorVeiculosDia (vars x) = V4.contadorVeiculosDia (vars sC) /\
    (V4.timeoutEntradaOcorrido (vars x) || V4.timeoutSaidaOcorrido (vars x)) = falhou r /\
    s' = V4.registrarOuReverter x.
Proof.
  unfold liga. intros H.
  destruct (V4.gerenciarSegurancaEntrada n w sC) as [sD|] eqn:Een; [|discriminate].
  apply V4_gerenciarSegurancaEntrada_casos in Een.
  destruct Een as (sk & Hsk & [-> | ->]).
  - (* the entry supervisor gave up *)
    unfold V4.gerenciarSegurancaSaida in H.
    rewrite V4_timeout_entrada_vars in H.
    change (V4.timeoutEntradaOcorrido
              (vars (V4.set_timeoutEntradaOcorrido true
                       (V4.set_estadoCancelaAberta false sk)))) with true in H.
    injection H as <-.
    exists RESOLVED_TIMEOUT, (V4_timeout_entrada sk).
    split; [|split; [|split; [|reflexivity]]].
    + exists sk. right. auto.
    + rewrite V4_timeout_entrada_vars. v4_campos. rewrite Hsk. reflexivity.
    + rewrite V4_timeout_entrada_vars. reflexivity.
  - destruct (V4.gerenciarSegurancaSaida n w _) as [x|] eqn:Esa; [|discriminate].
    injection H as <-.
    apply V4_gerenciarSegurancaSaida_casos in Esa;
      [|cbn [vars println emite]; rewrite Hsk; reflexivity].
    destruct Esa as (r & sk2 & Hsk2 & _ & ->).
    exists r, (V4_resolve r sk2).
    split; [|split; [|split; [|reflexivity]]].
    + exists sk2. now left.
    + rewrite V4_resolve_contador, Hsk2. v4_campos. rewrite Hsk. reflexivity.
    + destruct (V4_resolve_flags r sk2) as (-> & ->).
      rewrite Hsk2. v4_campos. rewrite Hsk. v4_campos. now rewrite orb_false_r.
Qed.

(** Every passage [loop] of V4.ino admits and returns from. *)
Lemma V4_loop_casos (n : nat) (w : Mundo) (s s' : V4.Est) :
  let s0 := V4.verificacaoResetDiario (V4.sincronizarDataHora w s) in
  V4.loop n w s = Some s' ->
  digitalRead w V4.pinoChaveManual s0 = false ->
  V4.veiculoNaEntrada w s0 && Bool.eqb (digitalRead w V4.pinoBotaoTicket s0) HIGH = true ->
  exists (r : Resolucao) (x : V4.Est),
    V4_resolvido r x /\
    V4.contadorVeiculosDia (vars x) = mais1_ui (V4.contadorVeiculosDia (vars s0)) /\
    (V4.timeoutEntradaOcorrido (vars x) || V4.timeoutSaidaOcorrido (vars x)) = falhou r /\
    s' = V4.registrarOuReverter x.
Proof.
  intros s0. unfold V4.loop. fold s0. intros H Hm Ha.
  rewrite Hm, Ha in H. cbn [Bool.eqb HIGH] in H.
  apply V4_supervisores_casos in H.
  destruct H as (r & x & Hr & Hc & Hf & Hs).
  exists r, x. split; [exact Hr|]. split; [|split; [exact Hf | exact Hs]].
  rewrite Hc.
  unfold V4.abrirCancela, V4.emitirTicket, V4.sincronizarDataHora.
  cbn [vars println digitalWrite writeMicroseconds emite delay com_vars
       V4.set_estadoCancelaAberta V4.set_contadorVeiculosDia V4.set_dataAtual
       V4.set_horaAtual V4.primeiraExecucao V4.contadorVeiculosDia].
  destruct (V4.primeiraExecucao (vars s0)); reflexivity.
Qed.

Lemma V4_registrarOuReverter_contador (x : V4.Est) :
  V4.contadorVeiculosDia (vars (V4.registrarOuReverter x)) =
  if V4.timeoutEntradaOcorrido (vars x) || V4.timeoutSaidaOcorrido (vars x)
  then if 0 <? V4.contadorVeiculosDia (vars x)
       then V4.contadorVeiculosDia (vars x) - 1
       else V4.contadorVeiculosDia (vars x)
  else V4.contadorVeiculosDia (vars x).
Proof.
  unfold V4.registrarOuReverter.
  destruct (V4.timeoutEntradaOcorrido (vars x) || V4.timeoutSaidaOcorrido (vars x)).
  - cbn [vars println emite].
    destruct (0 <? V4.contadorVeiculosDia (vars x)); reflexivity.
  - reflexivity.
Qed.

(** ** C4: the counter after a passage *)

(** C4, as stated, fails when the counter is at the top of its 32 bits: V3.ino
    starts with 4294967295 vehicles (as read by [setup] from an EEPROM cell
    whose four bytes are 0xFF), a vehicle crosses both sensors in time, and
    the counter is 0 afterwards, not 4294967296. *)
Lemma C4_mais_um_falha :
  V3.setup 40 mundo_eeprom_cheia = Some V3_apos_setup_cheia /\
  V3.contadorVeiculos (vars V3_apos_setup_cheia) = 4294967295 /\
  tempo V3_apos_setup_cheia = 15500 /\
  option_map (fun x => (V3.contadorVeiculos (vars x), eeprom (placa x)))
             (V3.loop 400 mundo_eeprom_cheia V3_apos_setup_cheia)
  = Some (0, 0).
Proof.
  split; [vm_compute; reflexivity|].
  split; [vm_compute; reflexivity|].
  split; vm_compute; reflexivity.
Qed.

(** The rollback of V4.ino misses the same corner: the provisional increment
    wraps to 0, the passage fails, and [contadorVeiculosDia > 0] keeps the
    decrement from running. *)
Lemma V4_reversao_no_limite :
  V4.contadorVeiculosDia (vars (V4_ocioso 0 4294967295)) = 4294967295 /\
  option_map (fun x => V4.contadorVeiculosDia (vars x))
             (V4.loop 3100 (mundo_passagem_V4 50000 60000) (V4_ocioso 0 4294967295))
  = Some 0.
Proof. split; [reflexivity|]. vm_compute. reflexivity. Qed.

(** C4, amended.  Every passage that [loop] admits and returns from resolved
    as a success, a timeout or a fraud on some tick.  In V3.ino the counter
    still had its value from before the admission on that tick, and afterwards
    it is that value plus one modulo 2^32 after a success, and that value after
    a timeout or a fraud.  In V4.ino the counter is the value from before the
    admission plus one modulo 2^32 while the passage is supervised; afterwards
    it is that after a success, and after a timeout or a fraud it is one less
    than that unless that is zero.  So for a counter below 2^32 - 1 a failed
    passage of V4.ino leaves the value from before the admission. *)
Theorem C4_contador_apos_passagem (n : nat) (w : Mundo) (s s' : V3.Est)
  (s4 s4' : V4.Est) :
  (let s0 := V3.verificarResetDiarioContador w (V3.atualizarRelogio w s) in
   V3.loop n w s = Some s' ->
   V3.admite w s0 = true ->
   exists (r : Resolucao) (sk : V3.Est),
     V3.contadorVeiculos (vars sk) = V3.contadorVeiculos (vars s0) /\
     V3_encerra r (V3_resolve r sk) s' /\
     V3.contadorVeiculos (vars s') =
     match r with
     | RESOLVED_SUCCESS => mais1_ui (V3.contadorVeiculos (vars s0))
     | _ => V3.contadorVeiculos (vars s0)
     end)
  /\
  (let s0 := V4.verificacaoResetDiario (V4.sincronizarDataHora w s4) in
   let c := V4.contadorVeiculosDia (vars s0) in
   V4.loop n w s4 = Some s4' ->
   digitalRead w V4.pinoChaveManual s0 = false ->
   V4.veiculoNaEntrada w s0 && Bool.eqb (digitalRead w V4.pinoBotaoTicket s0) HIGH
   = true ->
   exists (r : Resolucao) (x : V4.Est),
     V4_resolvido r x /\
     V4.contadorVeiculosDia (vars x) = mais1_ui c /\
     s4' = V4.registrarOuReverter x /\
     V4.contadorVeiculosDia (vars s4') =
     match r with
     | RESOLVED_SUCCESS => mais1_ui c
     | _ => if 0 <? mais1_ui c then mais1_ui c - 1 else mais1_ui c
     end /\
     (0 <= c < UINT_MAX_1 - 1 ->
      V4.contadorVeiculosDia (vars x) = c + 1 /\
      V4.contadorVeiculosDia (vars s4') =
      match r with
      | RESOLVED_SUCCESS => c + 1
      | _ => c
      end)).
Proof.
  split; cbn zeta.
  - intros H Ha.
    destruct (V3_loop_casos _ _ _ _ H Ha) as (r & sk & Hv & He).
    exists r, sk.
    assert (Hc : V3.contadorVeiculos (vars sk)
                 = V3.contadorVeiculos
                     (vars (V3.verificarResetDiarioContador w (V3.atualizarRelogio w s))))
      by (rewrite Hv; reflexivity).
    split; [exact Hc|]. split; [exact He|].
    rewrite (V3_encerra_contador _ _ _ He), V3_resolve_contador, Hc.
    destruct r; reflexivity.
  - intros H Hm Ha.
    destruct (V4_loop_casos _ _ _ _ H Hm Ha) as (r & x & Hr & Hx & Hf & ->).
    exists r, x. split; [exact Hr|]. split; [exact Hx|]. split; [reflexivity|].
    assert (Hfim : V4.contadorVeiculosDia (vars (V4.registrarOuReverter x)) =
                   match r with
                   | RESOLVED_SUCCESS =>
                       mais1_ui
                         (V4.contadorVeiculosDia
                            (vars (V4.verificacaoResetDiario (V4.sincronizarDataHora w s4))))
                   | _ =>
                       if 0 <? mais1_ui
                                 (V4.contadorVeiculosDia
                                    (vars (V4.verificacaoResetDiario
                                             (V4.sincronizarDataHora w s4))))
                       then mais1_ui
                              (V4.contadorVeiculosDia
                                 (vars (V4.verificacaoResetDiario
                                          (V4.sincronizarDataHora w s4)))) - 1
                       else mais1_ui
                              (V4.contadorVeiculosDia
                                 (vars (V4.verificacaoResetDiario
                                          (V4.sincronizarDataHora w s4))))
                   end).
    { rewrite V4_registrarOuReverter_contador, Hf, Hx. destruct r; reflexivity. }
    split; [exact Hfim|].
    intros Hc. rewrite Hfim, Hx. rewrite (mais1_ui_pequeno _ Hc).
    split; [reflexivity|].
    destruct r; try reflexivity;
      (replace (0 <? _) with true by (symmetry; apply Z.ltb_lt; lia)); lia.
Qed.

(** C4 at work: with 7 vehicles counted, a passage of V3.ino that succeeds
    and a passage of V4.ino on which the vehicle never leaves the entry
    sensor. *)
Lemma C4_contador_apos_passagem_exemplo :
  (let s' := resultado (V3.loop 400 (mundo_passagem_V3 5000 6000) (V3_ocioso 0 7))
                       (V3_ocioso 0 7) in
   exists (r : Resolucao) (sk : V3.Est),
     V3.contadorVeiculos (vars sk) = 7 /\
     V3_encerra r (V3_resolve r sk) s' /\
     V3.contadorVeiculos (vars s') =
     match r with RESOLVED_SUCCESS => 8 | _ => 7 end)
  /\
  (let s' := resultado (V4.loop 3100 (mundo_passagem_V4 50000 60000) (V4_ocioso 0 7))
                       (V4_ocioso 0 7) in
   exists (r : Resolucao) (x : V4.Est),
     V4_resolvido r x /\
     V4.contadorVeiculosDia (vars x) = 8 /\
     s' = V4.registrarOuReverter x /\
     V4.contadorVeiculosDia (vars s') =
     match r with RESOLVED_SUCCESS => 8 | _ => 7 end /\
     (0 <= 7 < UINT_MAX_1 - 1 ->
      V4.contadorVeiculosDia (vars x) = 7 + 1 /\
      V4.contadorVeiculosDia (vars s') =
      match r with RESOLVED_SUCCESS => 7 + 1 | _ => 7 end)).
Proof.
  split; cbn zeta.
  - apply (proj1 (C4_contador_apos_passagem 400 (mundo_passagem_V3 5000 6000)
                    (V3_ocioso 0 7) _ (V4_ocioso 0 7) (V4_ocioso 0 7))).
    + vm_compute. reflexivity.
    + reflexivity.
  - apply (proj2 (C4_contador_apos_passagem 3100 (mundo_passagem_V4 50000 60000)
                    (V3_ocioso 0 7) (V3_ocioso 0 7) (V4_ocioso 0 7) _)).
    + vm_compute. reflexivity.
    + reflexivity.
    + reflexivity.
Defined.

(** ** C2: the number on the ticket *)

Lemma saidas_emite {G : Type} (e : Evento) (s : Estado G) :
  saidas (emite e s) = saidas s ++ [(tempo s, e)].
Proof. reflexivity. Qed.

Lemma saidas_delay {G : Type} (d : Z) (s : Estado G) : saidas (delay d s) = saidas s.
Proof. reflexivity. Qed.

Lemma saidas_com_vars {G : Type} (f : G -> G) (s : Estado G) :
  saidas (com_vars f s) = saidas s.
Proof. reflexivity. Qed.

Lemma tempo_emite {G : Type} (e : Evento) (s : Estado G) : tempo (emite e s) = tempo s.
Proof. reflexivity. Qed.

Lemma tempo_delay {G : Type} (d : Z) (s : Estado G) : tempo (delay d s) = tempo s + d.
Proof. reflexivity. Qed.

Lemma tempo_com_vars {G : Type} (f : G -> G) (s : Estado G) :
  tempo (com_vars f s) = tempo s.
Proof. reflexivity. Qed.

Lemma vars_emite {G : Type} (e : Evento) (s : Estado G) : vars (emite e s) = vars s.
Proof. reflexivity. Qed.

Lemma vars_delay {G : Type} (d : Z) (s : Estado G) : vars (delay d s) = vars s.
Proof. reflexivity. Qed.

Create Rewrite HintDb placa.
#[local] Hint Rewrite @saidas_emite @saidas_delay @saidas_com_vars
  @tempo_emite @tempo_delay @tempo_com_vars @vars_emite @vars_delay : placa.

Ltac escreve := unfold println, print, digitalWrite, writeMicroseconds.

Ltac acha :=
  first [ apply in_or_app; right; left; reflexivity
        | apply in_or_app; left; acha ].

(** The line of the ticket that carries the number, in V3.ino. *)
Lemma V3_ticket_linha (w : Mundo) (s : V3.Est) :
  In (tempo s + 1500,
      SerialPrintln ("| Veículo N°: "
                     ++ String_ (mais1_ui (V3.contadorVeiculos (vars s))))%string)
     (saidas (V3.simularImpressaoTicket w s)).
Proof.
  unfold V3.simularImpressaoTicket. escreve.
  autorewrite with placa.
  change (V3.DURACAO_IMPRESSAO / 2) with 1500.
  acha.
Qed.

(** The same in V4.ino: [c] is the counter before [emitirTicket]. *)
Lemma V4_ticket_linha (w : Mundo) (s : V4.Est) :
  In (tempo s + 1500,
      SerialPrintln ("| Veículo Nº: "
                     ++ String_ (mais1_ui (V4.contadorVeiculosDia (vars s))))%string)
     (saidas (V4.emitirTicket w s)).
Proof.
  unfold V4.emitirTicket. escreve.
  unfold V4.set_contadorVeiculosDia.
  autorewrite with placa.
  change V4.DURACAO_EMISSAO_TICKET with 1500.
  assert (Ht : tempo (V4.sincronizarDataHora w s) = tempo s).
  { unfold V4.sincronizarDataHora.
    destruct (V4.primeiraExecucao _); reflexivity. }
  assert (Hc : V4.contadorVeiculosDia (vars (V4.sincronizarDataHora w s))
               = V4.contadorVeiculosDia (vars s)).
  { unfold V4.sincronizarDataHora.
    destruct (V4.primeiraExecucao _); reflexivity. }
  cbn [vars com_vars V4.contadorVeiculosDia]. autorewrite with placa.
  rewrite Ht, Hc.
  acha.
Qed.

(** C2, as stated, fails on V4.ino: with no vehicle counted yet, [emitirTicket]
    prints number 1 and leaves 1, not 0, in the stored counter. *)
Lemma C2_incremento_antecipado :
  V4.contadorVeiculosDia (vars (V4_ocioso 0 0)) = 0 /\
  In (1500, SerialPrintln "| Veículo Nº: 1")
     (saidas (V4.emitirTicket mundo_so_ultrassom (V4_ocioso 0 0))) /\
  V4.contadorVeiculosDia (vars (V4.emitirTicket mundo_so_ultrassom (V4_ocioso 0 0)))
  = 1.
Proof.
  split; [reflexivity|]. split; [|reflexivity].
  vm_compute. auto 20.
Qed.

(** C2, amended.  The number on the ticket is the counter from before the
    admission plus one, modulo 2^32.  In V3.ino printing the ticket leaves
    the global variables alone, and on the tick that resolves the passage the
    counter still has its value from before the admission.  In V4.ino
    [emitirTicket] has already stored the number it prints. *)
Theorem C2_numero_do_ticket (n : nat) (w : Mundo) (s sa s' : V3.Est) (s4 : V4.Est) :
  (In (tempo s + 1500,
       SerialPrintln ("| Veículo N°: "
                      ++ String_ (mais1_ui (V3.contadorVeiculos (vars s))))%string)
      (saidas (V3.simularImpressaoTicket w s)) /\
   vars (V3.simularImpressaoTicket w s) = vars s)
  /\
  (let s0 := V3.verificarResetDiarioContador w (V3.atualizarRelogio w sa) in
   V3.loop n w sa = Some s' ->
   V3.admite w s0 = true ->
   exists (r : Resolucao) (sk : V3.Est),
     V3.contadorVeiculos (vars sk) = V3.contadorVeiculos (vars s0) /\
     V3_encerra r (V3_resolve r sk) s')
  /\
  (In (tempo s4 + 1500,
       SerialPrintln ("| Veículo Nº: "
                      ++ String_ (mais1_ui (V4.contadorVeiculosDia (vars s4))))%string)
      (saidas (V4.emitirTicket w s4)) /\
   V4.contadorVeiculosDia (vars (V4.emitirTicket w s4))
   = mais1_ui (V4.contadorVeiculosDia (vars s4))).
Proof.
  split; [|split].
  - split; [apply V3_ticket_linha | reflexivity].
  - cbn zeta. intros H Ha.
    destruct (V3_loop_casos _ _ _ _ H Ha) as (r & sk & Hv & He).
    exists r, sk. split; [rewrite Hv; reflexivity | exact He].
  - split; [apply V4_ticket_linha|].
    unfold V4.emitirTicket, V4.sincronizarDataHora.
    cbn [vars println digitalWrite emite delay com_vars
         V4.set_contadorVeiculosDia V4.set_dataAtual
         V4.set_horaAtual V4.primeiraExecucao V4.contadorVeiculosDia].
    destruct (V4.primeiraExecucao (vars s4)); reflexivity.
Qed.

(** C2 at work on the passage of V3.ino that starts with 7 vehicles counted. *)
Lemma C2_numero_do_ticket_exemplo :
  let w := mundo_passagem_V3 5000 6000 in
  let s' := resultado (V3.loop 400 w (V3_ocioso 0 7)) (V3_ocioso 0 7) in
  In (1500, SerialPrintln "| Veículo N°: 8") (saidas s') /\
  exists (r : Resolucao) (sk : V3.Est),
    V3.contadorVeiculos (vars sk) = 7 /\ V3_encerra r (V3_resolve r sk) s'.
Proof.
  cbn zeta. split.
  - vm_compute. auto 20.
  - apply (proj1 (proj2 (C2_numero_do_ticket 400 (mundo_passagem_V3 5000 6000)
                           (V3_ocioso 0 7) (V3_ocioso 0 7) _ (V4_ocioso 0 7)))).
    + vm_compute. reflexivity.
    + reflexivity.
Defined.

(** ** V5: a whole passage *)

Lemma V5_fecharCancela_servo (y : V5.Est) (l : list (Z * Evento)) :
  ultimoServo (saidas (V5.fecharCancela y) ++ l) =
  match ultimoServo l with
  | Some us => Some us
  | None => Some V5.POSICAO_SERVO_FECHADA
  end.
Proof.
  rewrite ultimoServo_app. unfold V5.fecharCancela. escreve.
  unfold V5.set_cancelaAberta. autorewrite with placa.
  rewrite !ultimoServo_app. reflexivity.
Qed.

Lemma V5_entrada_tique_casos (w : Mundo) (t0 : Z) (s : V5.Est) :
  V5.monitorarPassagemEntrada_tique w t0 s =
  if ultrasonicRead w V5.pinoTrigSensorEntrada s <=? V5.DISTANCIA_DETECCAO_CM then
    if V5.TIMEOUT_PASSAGEM_VEICULO <? menos_ul (millis s) t0
    then Devolve false
           (V5.fecharCancela
              (repete (Z.to_nat (V5.DURACAO_AVISO_SONORO_S * 2)) V5.pisca
                 (println "AVISO: A cancela fechará em 5 segundos."
                    (println "ERRO: Tempo limite de passagem na entrada excedido!" s))))
    else Segue (delay 100 s)
  else Fim s.
Proof. reflexivity. Qed.

Lemma V5_saida_tique_casos (w : Mundo) (t0 : Z) (s : V5.Est) :
  V5.monitorarSaidaEAntifraude_tique w t0 s =
  if V5.DISTANCIA_DETECCAO_CM <? ultrasonicRead w V5.pinoTrigSensorSaida s then
    if ultrasonicRead w V5.pinoTrigSensorEntrada s <=? V5.DISTANCIA_DETECCAO_CM
    then Devolve false
           (V5.fecharCancela
              (println "ALERTA: Segundo veículo detectado na entrada! Fechando cancela imediatamente." s))
    else if V5.TIMEOUT_PASSAGEM_VEICULO <? menos_ul (millis s) t0
    then Devolve false
           (V5.fecharCancela
              (repete (Z.to_nat (V5.DURACAO_AVISO_SONORO_S * 2)) V5.pisca
                 (println "AVISO: A cancela fechará em 5 segundos."
                    (println "ERRO: Tempo limite de passagem na saída excedido!" s))))
    else Segue (delay 100 s)
  else Fim s.
Proof. reflexivity. Qed.

(** Every way out of the two supervisors of V5: a failure returns [false]
    from a state left by [fecharCancela]; the exit supervisor leaves such a
    state on a success too. *)
Lemma V5_monitorarPassagemEntrada_casos (n : nat) (w : Mundo) (s s2 : V5.Est)
  (b : bool) :
  V5.monitorarPassagemEntrada n w s = Some (b, s2) ->
  (b = false /\ exists y, s2 = V5.fecharCancela y) \/
  (b = true /\ exists sk, s2 = println "Veículo liberou o sensor de entrada." sk).
Proof.
  unfold V5.monitorarPassagemEntrada, liga.
  destruct (enquanto n _ _) as [[r s1]|] eqn:El; [|discriminate].
  apply enquanto_inv in El. destruct El as (sk & _ & Hk).
  rewrite V5_entrada_tique_casos in Hk. intros H.
  destruct (_ <=? _).
  - destruct (_ <? _).
    + destruct r; [|discriminate]. inversion Hk; subst. inversion H; subst.
      left. eauto.
    + destruct r; discriminate.
  - destruct r; [discriminate|]. inversion Hk; subst. inversion H; subst.
    right. eauto.
Qed.

Lemma V5_monitorarSaidaEAntifraude_casos (n : nat) (w : Mundo) (s s2 : V5.Est)
  (b : bool) :
  V5.monitorarSaidaEAntifraude n w s = Some (b, s2) ->
  exists y, s2 = V5.fecharCancela y.
Proof.
  unfold V5.monitorarSaidaEAntifraude, liga.
  destruct (enquanto n _ _) as [[r s1]|] eqn:El; [|discriminate].
  apply enquanto_inv in El. destruct El as (sk & _ & Hk).
  rewrite V5_saida_tique_casos in Hk. intros H.
  destruct (V5.DISTANCIA_DETECCAO_CM <? _).
  - destruct (_ <=? _); [|destruct (_ <? _)];
      destruct r; try discriminate; inversion Hk; subst; inversion H; subst; eauto.
  - destruct r; [discriminate|]. inversion Hk; subst. inversion H; subst. eauto.
Qed.

Lemma V5_entrada_termina (w : Mundo) (t0 : Z) (n : nat) (s : V5.Est) :
  V5.TIMEOUT_PASSAGEM_VEICULO - menos_ul (millis s) t0 < 100 * Z.of_nat n ->
  exists r, enquanto (S n) (V5.monitorarPassagemEntrada_tique w t0) s = Some r.
Proof.
  revert s. induction n as [|n IH]; intros s He; cbn [enquanto];
    rewrite V5_entrada_tique_casos;
    destruct (_ <=? _); eauto;
    destruct (V5.TIMEOUT_PASSAGEM_VEICULO <? menos_ul (millis s) t0) eqn:Ht; eauto;
    apply Z.ltb_ge in Ht.
  - unfold V5.TIMEOUT_PASSAGEM_VEICULO in *. lia.
  - apply IH. rewrite menos_ul_delay_pequeno;
      unfold V5.TIMEOUT_PASSAGEM_VEICULO, ULONG_MAX_1 in *; lia.
Qed.

Lemma V5_saida_termina (w : Mundo) (t0 : Z) (n : nat) (s : V5.Est) :
  V5.TIMEOUT_PASSAGEM_VEICULO - menos_ul (millis s) t0 < 100 * Z.of_nat n ->
  exists r, enquanto (S n) (V5.monitorarSaidaEAntifraude_tique w t0) s = Some r.
Proof.
  revert s. induction n as [|n IH]; intros s He; cbn [enquanto];
    rewrite V5_saida_tique_casos;
    destruct (V5.DISTANCIA_DETECCAO_CM <? _); eauto;
    destruct (_ <=? _); eauto;
    destruct (V5.TIMEOUT_PASSAGEM_VEICULO <? menos_ul (millis s) t0) eqn:Ht; eauto;
    apply Z.ltb_ge in Ht.
  - unfold V5.TIMEOUT_PASSAGEM_VEICULO in *. lia.
  - apply IH. rewrite menos_ul_delay_pequeno;
      unfold V5.TIMEOUT_PASSAGEM_VEICULO, ULONG_MAX_1 in *; lia.
Qed.

(** [iniciarProcessoEntradaVeiculo] always returns: 302 passes are enough for
    each of its two loops. *)
Lemma V5_iniciarProcesso_total (n : nat) (w : Mundo) (s : V5.Est) :
  (302 <= n)%nat -> exists s', V5.iniciarProcessoEntradaVeiculo n w s = Some s'.
Proof.
  intros Hn. unfold V5.iniciarProcessoEntradaVeiculo.
  set (sA := V5.abrirCancela _).
  assert (He : exists b s2, V5.monitorarPassagemEntrada n w sA = Some (b, s2)).
  { unfold V5.monitorarPassagemEntrada, liga.
    set (sB := println _ sA).
    destruct (V5_entrada_termina w (millis sB) 301 sB) as ([r s1] & Hr).
    { rewrite menos_ul_inicio. unfold V5.TIMEOUT_PASSAGEM_VEICULO. lia. }
    apply (enquanto_le _ _ n) in Hr; [|lia]. rewrite Hr. destruct r; eauto. }
  destruct He as (b & s2 & ->). cbn [liga].
  destruct b; [|cbn [liga]; eauto].
  assert (Hs : exists b s3, V5.monitorarSaidaEAntifraude n w s2 = Some (b, s3)).
  { unfold V5.monitorarSaidaEAntifraude, liga.
    set (sB := println _ s2).
    destruct (V5_saida_termina w (millis sB) 301 sB) as ([r s1] & Hr).
    { rewrite menos_ul_inicio. unfold V5.TIMEOUT_PASSAGEM_VEICULO. lia. }
    apply (enquanto_le _ _ n) in Hr; [|lia]. rewrite Hr. destruct r; eauto. }
  destruct Hs as (b & s3 & ->). cbn [liga].
  destruct b; cbn [liga]; eauto.
Qed.

Lemma V5_iniciarProcesso_fechada (n : nat) (w : Mundo) (s s' : V5.Est) :
  V5.iniciarProcessoEntradaVeiculo n w s = Some s' ->
  V5.cancelaAberta (vars s') = false /\
  ultimoServo (saidas s') = Some V5.POSICAO_SERVO_FECHADA.
Proof.
  unfold V5.iniciarProcessoEntradaVeiculo. set (sA := V5.abrirCancela _).
  unfold liga at 1.
  destruct (V5.monitorarPassagemEntrada n w sA) as [[b s2]|] eqn:Een; [|discriminate].
  apply V5_monitorarPassagemEntrada_casos in Een.
  destruct Een as [(-> & y & ->)|(-> & sk & ->)].
  - cbn [liga]. intros H. injection H as <-. split; [reflexivity|].
    escreve. autorewrite with placa. rewrite <- app_assoc.
    rewrite V5_fecharCancela_servo. reflexivity.
  - unfold liga.
    destruct (V5.monitorarSaidaEAntifraude n w _) as [[b s3]|] eqn:Esa; [|discriminate].
    apply V5_monitorarSaidaEAntifraude_casos in Esa. destruct Esa as (y & ->).
    destruct b; intros H; injection H as <-; (split; [reflexivity|]);
      escreve; unfold V5.set_contadorVeiculos; autorewrite with placa;
      rewrite <- !app_assoc; rewrite V5_fecharCancela_servo; reflexivity.
Qed.

(** ** C10: the gate is closed when a passage is over *)

(** C10.  When [loop] of V3.ino returns from a passage it admitted, and when
    [iniciarProcessoEntradaVeiculo] of V5 returns (which it always does), the
    gate is marked closed and the last command to the servo was the closed
    position: each supervisor that resolves the passage calls [fecharCancela],
    and only serial and EEPROM output follows. *)
Theorem C10_cancela_fechada_ao_voltar (n : nat) (w : Mundo) (s s' : V3.Est)
  (s5 : V5.Est) :
  (V3.loop n w s = Some s' ->
   V3.admite w (V3.verificarResetDiarioContador w (V3.atualizarRelogio w s)) = true ->
   V3.estadoCancelaAberta (vars s') = false /\
   ultimoServo (saidas s') = Some V3.SERVO_POSICAO_FECHADA)
  /\
  ((302 <= n)%nat ->
   exists s5',
     V5.iniciarProcessoEntradaVeiculo n w s5 = Some s5' /\
     V5.cancelaAberta (vars s5') = false /\
     ultimoServo (saidas s5') = Some V5.POSICAO_SERVO_FECHADA).
Proof.
  split.
  - intros H Ha.
    destruct (V3_loop_casos _ _ _ _ H Ha) as (r & sk & _ & He).
    destruct (V3_resolve_fecha r sk) as (y & Hy). rewrite Hy in He.
    exact (V3_encerra_fechada _ _ _ He).
  - intros Hn.
    destruct (V5_iniciarProcesso_total n w s5 Hn) as (s5' & H).
    exists s5'. split; [exact H|].
    exact (V5_iniciarProcesso_fechada _ _ _ _ H).
Qed.

(** C10 at work: the passage of V3.ino that succeeds, and a passage of V5 on
    which the vehicle never leaves the entry sensor. *)
Lemma C10_cancela_fechada_ao_voltar_exemplo :
  (let s' := resultado (V3.loop 400 (mundo_passagem_V3 5000 6000) (V3_ocioso 0 7))
                       (V3_ocioso 0 7) in
   V3.estadoCancelaAberta (vars s') = false /\
   ultimoServo (saidas s') = Some 1495)
  /\
  (exists s5',
     V5.iniciarProcessoEntradaVeiculo 302 mundo_so_ultrassom (V5_ocioso 0 7)
     = Some s5' /\
     V5.cancelaAberta (vars s5') = false /\
     ultimoServo (saidas s5') = Some 1495).
Proof.
  split; cbn zeta.
  - apply (proj1 (C10_cancela_fechada_ao_voltar 400 (mundo_passagem_V3 5000 6000)
                    (V3_ocioso 0 7) _ (V5_ocioso 0 7))).
    + vm_compute. reflexivity.
    + reflexivity.
  - apply (proj2 (C10_cancela_fechada_ao_voltar 302 mundo_so_ultrassom
                    (V3_ocioso 0 7) (V3_ocioso 0 7) (V5_ocioso 0 7))).
    apply le_n.
Defined.

(** ** The gate of V3.ino between passages *)





(** ** C3: one deadline or two *)

Lemma menos_ul_tempo {G : Type} (d : Z) (s x : Estado G) :
  tempo x = tempo s + d -> 0 <= d < ULONG_MAX_1 ->
  menos_ul (millis x) (millis s) = d.
Proof.
  intros Ht Hd. unfold menos_ul, millis. rewrite Ht.
  rewrite <- Zminus_mod.
  replace (tempo s + d - tempo s) with d by lia.
  now apply Z.mod_small.
Qed.

Lemma V2_espera_entrada (w : Mundo) (t0 : Z) (k n : nat) (c : bool) (s : V2.Est) :
  V2.estadoCancelaAberta (vars s) = true ->
  (forall j : nat, (j < k)%nat ->
     nivel w V2.pinoSensorEntrada (tempo s + 50 * Z.of_nat j) = true) ->
  menos_ul (millis s) t0 + 50 * Z.of_nat k <= V2.TIMEOUT_OPERACAO + 50 ->
  enquanto (k + n) (V2.passagem_tique w t0) (V2.mkPassagem false c s) =
  enquanto n (V2.passagem_tique w t0)
           (V2.mkPassagem false c (delay (50 * Z.of_nat k) s)).
Proof.
  revert s. induction k as [|k IH]; intros s Hg Hq He.
  - simpl. now rewrite delay_0.
  - cbn [Nat.add enquanto].
    assert (Ht : V2.passagem_tique w t0 (V2.mkPassagem false c s)
                 = Segue (V2.mkPassagem false c (delay 50 s))).
    { unfold V2.passagem_tique. cbn [V2.est V2.passouPelaEntrada V2.operacaoCancelada].
      rewrite Hg.
      replace (V2.TIMEOUT_OPERACAO <? menos_ul (millis s) t0) with false
        by (symmetry; apply Z.ltb_ge; lia).
      unfold digitalRead.
      pose proof (Hq 0%nat ltac:(lia)) as Hent.
      rewrite Z.mul_0_r, Z.add_0_r in Hent. rewrite Hent. reflexivity. }
    rewrite Ht, IH.
    + rewrite delay_delay. do 3 f_equal. lia.
    + exact Hg.
    + intros j Hj. pose proof (Hq (S j) ltac:(lia)) as Hent.
      rewrite tempo_delay.
      replace (tempo s + 50 + 50 * Z.of_nat j)
        with (tempo s + 50 * Z.of_nat (S j)) by lia.
      exact Hent.
    + rewrite menos_ul_delay_pequeno; unfold V2.TIMEOUT_OPERACAO, ULONG_MAX_1 in *; lia.
Qed.

Lemma V2_espera_saida (w : Mundo) (t0 : Z) (k n : nat) (c : bool) (s : V2.Est) :
  V2.estadoCancelaAberta (vars s) = true ->
  (forall j : nat, (j < k)%nat ->
     nivel w V2.pinoSensorEntrada (tempo s + 50 * Z.of_nat j) = false /\
     nivel w V2.pinoSensorSaida (tempo s + 50 * Z.of_nat j) = false) ->
  menos_ul (millis s) t0 + 50 * Z.of_nat k <= V2.TIMEOUT_OPERACAO + 50 ->
  enquanto (k + n) (V2.passagem_tique w t0) (V2.mkPassagem true c s) =
  enquanto n (V2.passagem_tique w t0)
           (V2.mkPassagem true c (delay (50 * Z.of_nat k) s)).
Proof.
  revert s. induction k as [|k IH]; intros s Hg Hq He.
  - simpl. now rewrite delay_0.
  - cbn [Nat.add enquanto].
    assert (Ht : V2.passagem_tique w t0 (V2.mkPassagem true c s)
                 = Segue (V2.mkPassagem true c (delay 50 s))).
    { unfold V2.passagem_tique. cbn [V2.est V2.passouPelaEntrada V2.operacaoCancelada].
      rewrite Hg.
      replace (V2.TIMEOUT_OPERACAO <? menos_ul (millis s) t0) with false
        by (symmetry; apply Z.ltb_ge; lia).
      unfold digitalRead.
      destruct (Hq 0%nat ltac:(lia)) as (Hent & Hsai).
      rewrite Z.mul_0_r, Z.add_0_r in Hent, Hsai. rewrite Hent, Hsai. reflexivity. }
    rewrite Ht, IH.
    + rewrite delay_delay. do 3 f_equal. lia.
    + exact Hg.
    + intros j Hj. pose proof (Hq (S j) ltac:(lia)) as Hq'.
      rewrite tempo_delay.
      replace (tempo s + 50 + 50 * Z.of_nat j)
        with (tempo s + 50 * Z.of_nat (S j)) by lia.
      exact Hq'.
    + rewrite menos_ul_delay_pequeno; unfold V2.TIMEOUT_OPERACAO, ULONG_MAX_1 in *; lia.
Qed.

(** A passage of V2.ino on which the vehicle leaves the entry sensor after
    [k1] ticks and never reaches the exit sensor: the timeout comes on tick
    601, that is 30050 ms after the gate opened, however long the vehicle
    stood at the entry. *)
Lemma V2_prazo_unico (w : Mundo) (k1 n : nat) (s : V2.Est) :
  V2.estadoCancelaAberta (vars s) = true ->
  (k1 <= 600)%nat ->
  (forall j : nat, (j < k1)%nat ->
     nivel w V2.pinoSensorEntrada (tempo s + 50 * Z.of_nat j) = true) ->
  (forall j : nat, (k1 <= j <= 601)%nat ->
     nivel w V2.pinoSensorEntrada (tempo s + 50 * Z.of_nat j) = false /\
     nivel w V2.pinoSensorSaida (tempo s + 50 * Z.of_nat j) = false) ->
  let s1 := println "Veículo liberou o sensor de entrada. Aguardando saída..."
                    (delay (50 * Z.of_nat k1) s) in
  let s2 := delay (50 * Z.of_nat (600 - k1)) (delay 50 s1) in
  tempo s2 = tempo s + 30050 /\
  enquanto (k1 + S ((600 - k1) + S n)) (V2.passagem_tique w (millis s))
           (V2.mkPassagem false false s)
  = Some (None,
          V2.mkPassagem true true
            (V2.acionarAvisoSonoroFechamento
               (println "ERRO: Timeout! O veículo demorou demais para passar." s2))).
Proof.
  intros Hg Hk Hent Hq. cbn zeta.
  split.
  { rewrite !tempo_delay. unfold println. rewrite tempo_emite, tempo_delay. lia. }
  rewrite V2_espera_entrada; [|exact Hg|exact Hent|].
  2:{ rewrite menos_ul_inicio. unfold V2.TIMEOUT_OPERACAO. lia. }
  cbn [enquanto].
  assert (Ht1 : V2.passagem_tique w (millis s)
                  (V2.mkPassagem false false (delay (50 * Z.of_nat k1) s))
                = Segue (V2.mkPassagem true false
                           (delay 50
                              (println "Veículo liberou o sensor de entrada. Aguardando saída..."
                                 (delay (50 * Z.of_nat k1) s))))).
  { unfold V2.passagem_tique. cbn [V2.est V2.passouPelaEntrada V2.operacaoCancelada].
    rewrite vars_delay, Hg.
    rewrite (menos_ul_tempo (50 * Z.of_nat k1) s) by
      (rewrite ?tempo_delay; unfold ULONG_MAX_1; lia).
    replace (V2.TIMEOUT_OPERACAO <? 50 * Z.of_nat k1) with false
      by (symmetry; apply Z.ltb_ge; unfold V2.TIMEOUT_OPERACAO; lia).
    unfold digitalRead. rewrite tempo_delay.
    rewrite (proj1 (Hq k1 ltac:(lia))). reflexivity. }
  rewrite Ht1. clear Ht1.
  set (s1 := println "Veículo liberou o sensor de entrada. Aguardando saída..."
                     (delay (50 * Z.of_nat k1) s)).
  assert (Hg1 : V2.estadoCancelaAberta (vars s1) = true) by exact Hg.
  assert (Ht1 : tempo s1 = tempo s + 50 * Z.of_nat k1) by reflexivity.
  clearbody s1.
  rewrite V2_espera_saida.
  - cbn [enquanto]. unfold V2.passagem_tique at 1.
    cbn [V2.est V2.passouPelaEntrada V2.operacaoCancelada].
    rewrite !vars_delay, Hg1.
    rewrite (menos_ul_tempo 30050 s).
    + reflexivity.
    + rewrite !tempo_delay, Ht1. lia.
    + unfold ULONG_MAX_1. lia.
  - exact Hg1.
  - intros j Hj. rewrite tempo_delay, Ht1.
    replace (tempo s + 50 * Z.of_nat k1 + 50 + 50 * Z.of_nat j)
      with (tempo s + 50 * Z.of_nat (k1 + 1 + j)) by lia.
    apply Hq. lia.
  - rewrite (menos_ul_tempo (50 * Z.of_nat k1 + 50) s).
    + unfold V2.TIMEOUT_OPERACAO. lia.
    + rewrite tempo_delay, Ht1. lia.
    + unfold ULONG_MAX_1. lia.
Qed.

(** C3, as stated, fails on V3.ino: the gate opens at 3000 ms, the vehicle
    stands at the entry sensor from 3500 to 23500 ms (20 s) and reaches the
    exit sensor at 43500 ms, 20 s later and 40 s after the wait began; the
    passage succeeds and the vehicle is counted, although only 10 s of one
    30 s budget would have been left. *)
Lemma C3_prazo_reiniciado :
  option_map (fun x => (V3.contadorVeiculos (vars x), tempo x,
                        beeps (saidas x) V3.PINO_BUZZER))
             (V3.loop 2100 (mundo_passagem_V3 23500 43500) (V3_ocioso 0 7))
  = Some (8, 46000, []).
Proof. vm_compute. reflexivity. Qed.

(** C3, amended.  V2.ino has one deadline for the whole passage: if the
    vehicle stands at the entry sensor for [k1] ticks and then never reaches
    the exit sensor, the timeout comes 30050 ms after the gate opened,
    whatever [k1].  In V3.ino the exit wait counts from its own start,
    whatever came before: a vehicle that reaches the exit sensor up to 30010 ms
    after that start succeeds, and with both sensors clear the timeout comes
    30010 ms after that start. *)
Theorem C3_prazo_da_passagem (w : Mundo) (n k1 k : nat) (s2 : V2.Est) (s3 : V3.Est) :
  (V2.estadoCancelaAberta (vars s2) = true ->
   (k1 <= 600)%nat ->
   (forall j : nat, (j < k1)%nat ->
      nivel w V2.pinoSensorEntrada (tempo s2 + 50 * Z.of_nat j) = true) ->
   (forall j : nat, (k1 <= j <= 601)%nat ->
      nivel w V2.pinoSensorEntrada (tempo s2 + 50 * Z.of_nat j) = false /\
      nivel w V2.pinoSensorSaida (tempo s2 + 50 * Z.of_nat j) = false) ->
   let s1 := println "Veículo liberou o sensor de entrada. Aguardando saída..."
                     (delay (50 * Z.of_nat k1) s2) in
   let sk := delay (50 * Z.of_nat (600 - k1)) (delay 50 s1) in
   tempo sk = tempo s2 + 30050 /\
   enquanto (k1 + S ((600 - k1) + S n)) (V2.passagem_tique w (millis s2))
            (V2.mkPassagem false false s2)
   = Some (None,
           V2.mkPassagem true true
             (V2.acionarAvisoSonoroFechamento
                (println "ERRO: Timeout! O veículo demorou demais para passar." sk))))
  /\
  ((k <= 3001)%nat ->
   (forall j : nat, (j < k)%nat ->
      nivel w V3.PINO_SENSOR_SAIDA (tempo s3 + 10 * Z.of_nat j) = false /\
      nivel w V3.PINO_SENSOR_ENTRADA (tempo s3 + 10 * Z.of_nat j) = false) ->
   (nivel w V3.PINO_SENSOR_SAIDA (tempo s3 + 10 * Z.of_nat k) = true ->
    V3.monitorarPassagemSaida (k + S n) w s3
    = Some (false, V3_resolve RESOLVED_SUCCESS (delay (10 * Z.of_nat k) s3))) /\
   (k = 3001%nat ->
    nivel w V3.PINO_SENSOR_SAIDA (tempo s3 + 10 * Z.of_nat k) = false ->
    nivel w V3.PINO_SENSOR_ENTRADA (tempo s3 + 10 * Z.of_nat k) = false ->
    V3.monitorarPassagemSaida (k + S n) w s3
    = Some (true, V3_resolve RESOLVED_TIMEOUT (delay 30010 s3)))).
Proof.
  split.
  - intros Hg Hk Hent Hq. exact (V2_prazo_unico w k1 n s2 Hg Hk Hent Hq).
  - intros Hk Hq.
    assert (He : enquanto (k + S n) (V3.monitorarPassagemSaida_tique w (millis s3)) s3
                 = enquanto (S n) (V3.monitorarPassagemSaida_tique w (millis s3))
                            (delay (10 * Z.of_nat k) s3)).
    { apply V3_saida_espera; [exact Hq|].
      rewrite menos_ul_inicio. unfold V3.TIMEOUT_OPERACAO. lia. }
    split.
    + intros Hs. unfold V3.monitorarPassagemSaida, liga. rewrite He.
      cbn [enquanto].
      rewrite (V3_saida_tique_resolve w (millis s3) _ RESOLVED_SUCCESS).
      * reflexivity.
      * simpl. unfold digitalRead. rewrite tempo_delay. exact Hs.
    + intros -> Hs Hen. unfold V3.monitorarPassagemSaida, liga. rewrite He.
      cbn [enquanto]. change (10 * Z.of_nat 3001) with 30010 in *.
      rewrite (V3_saida_tique_resolve w (millis s3) _ RESOLVED_TIMEOUT).
      * reflexivity.
      * simpl. unfold digitalRead. rewrite tempo_delay.
        split; [exact Hs|]. split; [exact Hen|].
        rewrite (menos_ul_tempo 30010 s3); [unfold V3.TIMEOUT_OPERACAO; lia
                                           |reflexivity|unfold ULONG_MAX_1; lia].
Qed.

(** C3 at work.  V2.ino: the vehicle stands at the entry sensor for 10 s
    (200 ticks) and the timeout comes at 30050 ms.  V3.ino: the vehicle
    reaches the exit sensor 30 s after the exit wait began and succeeds. *)
Lemma C3_prazo_da_passagem_exemplo :
  (let s1 := println "Veículo liberou o sensor de entrada. Aguardando saída..."
                     (delay 10000 (V2_em_passagem 0)) in
   let sk := delay 20000 (delay 50 s1) in
   tempo sk = 30050 /\
   enquanto 602 (V2.passagem_tique (mundo_passagem_V2 10000) 0)
            (V2.mkPassagem false false (V2_em_passagem 0))
   = Some (None,
           V2.mkPassagem true true
             (V2.acionarAvisoSonoroFechamento
                (println "ERRO: Timeout! O veículo demorou demais para passar." sk))))
  /\
  V3.monitorarPassagemSaida 3001 (mundo_passagem_V3 0 30000) (V3_em_passagem 0)
  = Some (false, V3_resolve RESOLVED_SUCCESS (delay 30000 (V3_em_passagem 0))).
Proof.
  split.
  - apply (proj1 (C3_prazo_da_passagem (mundo_passagem_V2 10000) 0 200 0
                    (V2_em_passagem 0) (V3_em_passagem 0))).
    + reflexivity.
    + apply Nat.leb_le. reflexivity.
    + intros j Hj. unfold mundo_passagem_V2, mundoDe, nivel.
      cbn [tempo placa agora V2_em_passagem]. apply andb_true_intro.
      split; [reflexivity | apply Z.ltb_lt; lia].
    + intros j Hj. unfold mundo_passagem_V2, mundoDe, nivel.
      cbn [tempo placa agora V2_em_passagem]. split.
      * apply andb_false_intro2. apply Z.ltb_ge. lia.
      * reflexivity.
  - apply (proj1 (proj2 (C3_prazo_da_passagem (mundo_passagem_V3 0 30000) 0 0 3000
                           (V2_em_passagem 0) (V3_em_passagem 0))
                        ltac:(apply Nat.leb_le; reflexivity)
                        ltac:(intros j Hj; unfold mundo_passagem_V3, mundoDe, nivel;
                              cbn [tempo placa agora V3_em_passagem];
                              split; [apply Z.leb_gt; lia | apply Z.ltb_ge; lia]))).
    reflexivity.
Defined.

(** ** Beyond the claims: how long V3.ino can wait *)

Lemma eeprom_emite {G : Type} (e : Evento) (s : Estado G) :
  eeprom (placa (emite e s)) = eeprom (placa s).
Proof. reflexivity. Qed.

Lemma eeprom_delay {G : Type} (d : Z) (s : Estado G) :
  eeprom (placa (delay d s)) = eeprom (placa s).
Proof. reflexivity. Qed.

Lemma eeprom_com_vars {G : Type} (f : G -> G) (s : Estado G) :
  eeprom (placa (com_vars f s)) = eeprom (placa s).
Proof. reflexivity. Qed.

Lemma tempo_println {G : Type} (texto : string) (s : Estado G) :
  tempo (println texto s) = tempo s.
Proof. reflexivity. Qed.

Lemma V3_fecharCancela_tempo (s : V3.Est) :
  tempo (V3.fecharCancela s) = tempo s + 500.
Proof. reflexivity. Qed.

Lemma V3_resolve_tempo (r : Resolucao) (s : V3.Est) :
  tempo (V3_resolve r s) =
  tempo s + match r with
            | RESOLVED_SUCCESS => 2500
            | RESOLVED_TIMEOUT => 5500
            | RESOLVED_FRAUD => 500
            end.
Proof.
  destruct r; unfold V3_resolve, V3.emitirAvisoFechamento;
    rewrite V3_fecharCancela_tempo, ?V3_beeps_tempo;
    unfold println; rewrite ?tempo_delay, tempo_emite;
    unfold V3.DELAY_POS_SAIDA; simpl; lia.
Qed.

Lemma V3_beeps_eeprom (n : nat) (s : V3.Est) :
  eeprom (placa (repete n V3.beep s)) = eeprom (placa s).
Proof.
  revert s. induction n as [|n IH]; intros s; simpl; [reflexivity|].
  now rewrite IH.
Qed.

Lemma V3_fecharCancela_eeprom (s : V3.Est) :
  eeprom (placa (V3.fecharCancela s)) = eeprom (placa s).
Proof. reflexivity. Qed.

Lemma V3_resolve_eeprom (r : Resolucao) (s : V3.Est) :
  eeprom (placa (V3_resolve r s)) = eeprom (placa s).
Proof.
  destruct r; [reflexivity| |reflexivity].
  unfold V3_resolve, V3.emitirAvisoFechamento.
  rewrite V3_fecharCancela_eeprom, V3_beeps_eeprom. reflexivity.
Qed.

(** The ticks a wait of V3.ino goes round on are 10 ms apart, and the last of
    them comes at most 30010 ms after the wait began. *)
Lemma V3_saida_percorre_limite (w : Mundo) (t0 : Z) (s sk : V3.Est) :
  percorre (V3.monitorarPassagemSaida_tique w t0) s sk ->
  exists k : nat,
    sk = delay (10 * Z.of_nat k) s /\
    (k = 0%nat \/
     menos_ul (millis s) t0 + 10 * Z.of_nat k <= V3.TIMEOUT_OPERACAO + 10).
Proof.
  induction 1 as [s|s s1 s2 Hs _ (k & Hk & Hb)].
  - exists 0%nat. split; [simpl; now rewrite delay_0 | now left].
  - apply V3_saida_tique_segue in Hs. destruct Hs as (-> & _ & _ & Hle).
    exists (S k). split.
    + rewrite Hk, delay_delay. f_equal. lia.
    + right. destruct Hb as [-> | Hb]; [lia|].
      rewrite menos_ul_delay_pequeno in Hb;
        unfold V3.TIMEOUT_OPERACAO, ULONG_MAX_1 in *; lia.
Qed.

Lemma V3_entrada_percorre_limite (w : Mundo) (t0 : Z) (s sk : V3.Est) :
  percorre (V3.monitorarPassagemEntrada_tique w t0) s sk ->
  exists k : nat,
    sk = delay (10 * Z.of_nat k) s /\
    (k = 0%nat \/
     menos_ul (millis s) t0 + 10 * Z.of_nat k <= V3.TIMEOUT_OPERACAO + 10).
Proof.
  induction 1 as [s|s s1 s2 Hs _ (k & Hk & Hb)].
  - exists 0%nat. split; [simpl; now rewrite delay_0 | now left].
  - rewrite V3_entrada_tique_casos in Hs.
    destruct (digitalRead w V3.PINO_SENSOR_ENTRADA s); [|discriminate].
    destruct (V3.TIMEOUT_OPERACAO <? menos_ul (millis s) t0) eqn:Ht; [discriminate|].
    apply Z.ltb_ge in Ht. inversion Hs; subst.
    exists (S k). split.
    + rewrite delay_delay. f_equal. lia.
    + right. destruct Hb as [-> | Hb]; [lia|].
      rewrite menos_ul_delay_pequeno in Hb;
        unfold V3.TIMEOUT_OPERACAO, ULONG_MAX_1 in *; lia.
Qed.

(** Whenever [monitorarPassagemEntrada] returns, it does so on a tick at most
    30010 ms after it was called: with [false] and nothing changed but the
    clock and the serial output, or with [true] after the warning and the
    closing of the gate. *)
Lemma V3_entrada_limites (n : nat) (w : Mundo) (s s2 : V3.Est) (b : bool) :
  V3.monitorarPassagemEntrada n w s = Some (b, s2) ->
  exists d : Z,
    0 <= d <= 30010 /\
    (if b
     then s2 = V3_resolve RESOLVED_TIMEOUT (delay d s)
     else s2 = println "[INFO] Veículo liberou o sensor de entrada." (delay d s)).
Proof.
  intros H.
  unfold V3.monitorarPassagemEntrada, liga in H.
  destruct (enquanto n _ s) as [[r s1]|] eqn:El; [|discriminate].
  apply enquanto_inv in El. destruct El as (sk & Hp & Hk).
  apply V3_entrada_percorre_limite in Hp. destruct Hp as (k & -> & Hb).
  rewrite menos_ul_inicio in Hb.
  exists (10 * Z.of_nat k).
  split; [unfold V3.TIMEOUT_OPERACAO in Hb; lia|].
  rewrite V3_entrada_tique_casos in Hk.
  destruct (digitalRead w V3.PINO_SENSOR_ENTRADA _).
  - destruct (V3.TIMEOUT_OPERACAO <? menos_ul _ _).
    + destruct r as [x|]; [|discriminate].
      assert (Hs2 : s2 = V3_resolve RESOLVED_TIMEOUT (delay (10 * Z.of_nat k) s)
                    /\ b = true) by (split; congruence).
      destruct Hs2 as (-> & ->). reflexivity.
    + destruct r; discriminate.
  - destruct r as [x|]; [discriminate|].
    assert (Hs2 : s2 = println "[INFO] Veículo liberou o sensor de entrada."
                         (delay (10 * Z.of_nat k) s)
                  /\ b = false) by (split; congruence).
    destruct Hs2 as (-> & ->). reflexivity.
Qed.

(** The same for [monitorarPassagemSaida], which resolves the passage. *)
Lemma V3_saida_limites (n : nat) (w : Mundo) (s s2 : V3.Est) (b : bool) :
  V3.monitorarPassagemSaida n w s = Some (b, s2) ->
  exists (d : Z) (r : Resolucao),
    0 <= d <= 30010 /\ s2 = V3_resolve r (delay d s) /\ b = falhou r.
Proof.
  intros H.
  unfold V3.monitorarPassagemSaida, liga in H.
  destruct (enquanto n _ s) as [[r s1]|] eqn:El; [|discriminate].
  apply enquanto_inv in El. destruct El as (sk & Hp & Hk).
  apply V3_saida_percorre_limite in Hp. destruct Hp as (k & -> & Hb).
  rewrite menos_ul_inicio in Hb.
  exists (10 * Z.of_nat k).
  destruct (V3_saida_tique_para w (millis s) (delay (10 * Z.of_nat k) s))
    as [(s' & Hs)|(r' & Hc)].
  - rewrite Hs in Hk. destruct r; discriminate.
  - rewrite (V3_saida_tique_resolve _ _ _ _ Hc) in Hk.
    exists r'. split; [unfold V3.TIMEOUT_OPERACAO in Hb; lia|].
    destruct r as [x|]; destruct r'; try discriminate;
      inversion Hk; subst; inversion H; subst; split; reflexivity.
Qed.

(** X1.  [monitorarPassagemEntrada] of V3.ino always returns, and no later
    than 35510 ms after it was called: at most 30010 ms of waiting, and the
    warning and the closing of the gate when it gives up.  When it returns
    [true] the gate is closed; when it returns [false] nothing but the clock
    and the serial output has changed. *)
Theorem V3_monitorarPassagemEntrada_duracao (n : nat) (w : Mundo) (s : V3.Est) :
  (3002 <= n)%nat ->
  exists (b : bool) (s2 : V3.Est),
    V3.monitorarPassagemEntrada n w s = Some (b, s2) /\
    tempo s <= tempo s2 <= tempo s + 35510 /\
    (if b then V3.estadoCancelaAberta (vars s2) = false
     else vars s2 = vars s /\ tempo s2 <= tempo s + 30010).
Proof.
  intros Hn.
  destruct (V3_monitorarPassagemEntrada_total n w s Hn) as (b & s2 & H).
  exists b, s2. split; [exact H|].
  apply V3_entrada_limites in H. destruct H as (d & Hd & H).
  destruct b; subst s2.
  - rewrite V3_resolve_tempo, tempo_delay.
    split; [lia|]. apply V3_emitirAvisoFechamento_fechada.
  - unfold println. rewrite tempo_emite, tempo_delay.
    split; [lia|]. split; [reflexivity | lia].
Qed.

(** X1 at work: the vehicle never leaves the entry sensor. *)
Lemma V3_monitorarPassagemEntrada_duracao_exemplo :
  exists (b : bool) (s2 : V3.Est),
    V3.monitorarPassagemEntrada 3002 mundo_tudo_ativo (V3_em_passagem 0)
    = Some (b, s2) /\
    tempo (V3_em_passagem 0) <= tempo s2 <= tempo (V3_em_passagem 0) + 35510 /\
    (if b then V3.estadoCancelaAberta (vars s2) = false
     else vars s2 = vars (V3_em_passagem 0) /\
          tempo s2 <= tempo (V3_em_passagem 0) + 30010).
Proof.
  exact (V3_monitorarPassagemEntrada_duracao 3002 mundo_tudo_ativo (V3_em_passagem 0)
           (le_n _)).
Defined.

(** X2.  [monitorarPassagemSaida] of V3.ino always returns, between 500 and
    35510 ms after it was called, and always with the gate closed. *)
Theorem V3_monitorarPassagemSaida_duracao (n : nat) (w : Mundo) (s : V3.Est) :
  (3002 <= n)%nat ->
  exists (b : bool) (s2 : V3.Est),
    V3.monitorarPassagemSaida n w s = Some (b, s2) /\
    tempo s + 500 <= tempo s2 <= tempo s + 35510 /\
    V3.estadoCancelaAberta (vars s2) = false.
Proof.
  intros Hn.
  destruct (V3_monitorarPassagemSaida_total n w s Hn) as (b & s2 & H).
  exists b, s2. split; [exact H|].
  apply V3_saida_limites in H. destruct H as (d & r & Hd & -> & _).
  rewrite V3_resolve_tempo, tempo_delay.
  split; [destruct r; lia|].
  destruct (V3_resolve_fecha r (delay d s)) as (y & ->).
  reflexivity.
Qed.

(** X2 at work: the vehicle never reaches the exit sensor. *)
Lemma V3_monitorarPassagemSaida_duracao_exemplo :
  exists (b : bool) (s2 : V3.Est),
    V3.monitorarPassagemSaida 3002 (mundo_so_pino 0) (V3_em_passagem 0)
    = Some (b, s2) /\
    tempo (V3_em_passagem 0) + 500 <= tempo s2 <= tempo (V3_em_passagem 0) + 35510 /\
    V3.estadoCancelaAberta (vars s2) = false.
Proof.
  exact (V3_monitorarPassagemSaida_duracao 3002 (mundo_so_pino 0) (V3_em_passagem 0)
           (le_n _)).
Defined.

Lemma beeps_app (a b : list (Z * Evento)) (pino : Z) :
  beeps (a ++ b) pino = beeps a pino ++ beeps b pino.
Proof.
  induction a as [|[t e] a IH]; [reflexivity|].
  destruct e as [p v| | | |]; cbn [app beeps]; try exact IH.
  destruct v; [|exact IH].
  destruct (p =? pino); [cbn [app]; now rewrite IH | exact IH].
Qed.

(** X3.  The time limit of a wait of V3.ino is kept wherever the 32-bit count
    of [millis] stands when the wait begins, also when the count overflows
    during the wait: with a vehicle that stays on the entry sensor,
    [monitorarPassagemEntrada] gives up on the tick 30010 ms after it was
    called, and returns [true] 5500 ms later with the gate closed. *)
Theorem V3_prazo_atravessa_estouro (w : Mundo) (n : nat) (s : V3.Est) :
  (forall j : nat, (j <= 3001)%nat ->
     nivel w V3.PINO_SENSOR_ENTRADA (tempo s + 10 * Z.of_nat j) = true) ->
  exists s2 : V3.Est,
    V3.monitorarPassagemEntrada (3002 + n) w s = Some (true, s2) /\
    tempo s2 = tempo s + 35510 /\
    beeps (saidas s2) V3.PINO_BUZZER
    = beeps (saidas s) V3.PINO_BUZZER
      ++ [tempo s + 30010; tempo s + 31010; tempo s + 32010; tempo s + 33010;
          tempo s + 34010] /\
    V3.estadoCancelaAberta (vars s2) = false.
Proof.
  intros Hp.
  exists (V3_resolve RESOLVED_TIMEOUT (delay 30010 s)).
  split.
  - replace (3002 + n)%nat with (3001 + S n)%nat by lia.
    now apply V3_entrada_sempre_presente.
  - rewrite V3_resolve_tempo, tempo_delay. split; [lia|].
    split; [|reflexivity].
    cbn [V3_resolve]. rewrite V3_emitirAvisoFechamento_saidas.
    rewrite saidas_delay, tempo_delay.
    generalize (saidas s) (tempo s). intros l t.
    rewrite beeps_app. f_equal.
    cbn. repeat (f_equal; try lia).
Qed.

(** X3 at work: the wait begins 1000 ms before [millis] overflows. *)
Lemma V3_prazo_atravessa_estouro_exemplo :
  millis V3_perto_do_estouro = 4294966296 /\
  millis (delay 30010 V3_perto_do_estouro) = 29010 /\
  exists s2 : V3.Est,
    V3.monitorarPassagemEntrada (3002 + 0) mundo_tudo_ativo V3_perto_do_estouro
    = Some (true, s2) /\
    tempo s2 = tempo V3_perto_do_estouro + 35510 /\
    beeps (saidas s2) V3.PINO_BUZZER
    = beeps (saidas V3_perto_do_estouro) V3.PINO_BUZZER
      ++ [tempo V3_perto_do_estouro + 30010; tempo V3_perto_do_estouro + 31010;
          tempo V3_perto_do_estouro + 32010; tempo V3_perto_do_estouro + 33010;
          tempo V3_perto_do_estouro + 34010] /\
    V3.estadoCancelaAberta (vars s2) = false.
Proof.
  split; [reflexivity|]. split; [reflexivity|].
  exact (V3_prazo_atravessa_estouro mundo_tudo_ativo 0 V3_perto_do_estouro
           (fun j _ => eq_refl)).
Defined.

(** ** Beyond the claims: the wait for the ticket in V3.ino *)

Lemma V3_aguardar_preso (w : Mundo) (n : nat) (e : Z * V3.Est) :
  (forall t : Z, tempo (snd e) <= t ->
     nivel w V3.PINO_SENSOR_RETIRADA_TICKET t = true) ->
  enquanto n (V3.aguardarRetiradaTicket_tique w) e = None.
Proof.
  revert e. induction n as [|n IH]; intros [u s] Hp; [reflexivity|].
  cbn [enquanto]. unfold V3.aguardarRetiradaTicket_tique, digitalRead.
  rewrite (Hp (tempo s)) by (simpl; lia). cbn [Bool.eqb HIGH].
  destruct (V3.INTERVALO_MENSAGEM_STATUS <? menos_ul (millis s) u);
    apply IH; intros t Ht; apply Hp; simpl in *; unfold tempo in *;
    simpl in Ht; lia.
Qed.

Lemma V3_inicio_tempo (w : Mundo) (s : V3.Est) :
  tempo (V3.verificarResetDiarioContador w (V3.atualizarRelogio w s)) = tempo s.
Proof.
  unfold V3.verificarResetDiarioContador, V3.atualizarRelogio.
  destruct (V3.ultimaDataReset (vars s) =? EmptyString)%string;
    destruct (negb _ && negb _); reflexivity.
Qed.

Lemma V3_ticket_tempo (w : Mundo) (s : V3.Est) :
  tempo (V3.simularImpressaoTicket w
           (println "[INFO] Veículo detectado e botão pressionado. Iniciando operação." s))
  = tempo s + 3000.
Proof.
  change (tempo s + V3.DURACAO_IMPRESSAO / 2 + V3.DURACAO_IMPRESSAO / 2 = tempo s + 3000).
  change (V3.DURACAO_IMPRESSAO / 2) with 1500. lia.
Qed.

(** X4.  The wait for the ticket has no time limit: while the sensor of the
    ticket slot stays HIGH, [aguardarRetiradaTicket] does not return, and so
    neither does the [loop] of V3.ino that admitted the vehicle, however many
    passes its loops are given. *)
Theorem V3_ticket_nunca_retirado (w : Mundo) (s : V3.Est) (n : nat) :
  V3.admite w (V3.verificarResetDiarioContador w (V3.atualizarRelogio w s)) = true ->
  (forall t : Z, tempo s <= t -> nivel w V3.PINO_SENSOR_RETIRADA_TICKET t = true) ->
  V3.loop n w s = None.
Proof.
  intros Ha Hp. unfold V3.loop. rewrite Ha.
  unfold V3.aguardarRetiradaTicket.
  rewrite V3_aguardar_preso; [reflexivity|].
  intros t Ht. apply Hp. cbn [snd] in Ht.
  rewrite V3_ticket_tempo, V3_inicio_tempo in Ht. lia.
Qed.

(** X4 at work: every input HIGH for ever. *)
Lemma V3_ticket_nunca_retirado_exemplo :
  V3.loop 5000 mundo_tudo_ativo (V3_ocioso 0 0) = None.
Proof.
  apply (V3_ticket_nunca_retirado mundo_tudo_ativo (V3_ocioso 0 0) 5000).
  - reflexivity.
  - intros t _. reflexivity.
Defined.

Lemma V3_aguardar_espera (w : Mundo) (k n : nat) (u : Z) (s : V3.Est) :
  (forall j : nat, (j < k)%nat ->
     nivel w V3.PINO_SENSOR_RETIRADA_TICKET (tempo s + 10 * Z.of_nat j) = true) ->
  exists (u' : Z) (sk : V3.Est) (l : list (Z * Evento)),
    enquanto (k + n) (V3.aguardarRetiradaTicket_tique w) (u, s) =
    enquanto n (V3.aguardarRetiradaTicket_tique w) (u', sk) /\
    tempo sk = tempo s + 10 * Z.of_nat k /\
    vars sk = vars s /\
    eeprom (placa sk) = eeprom (placa s) /\
    saidas sk = saidas s ++ l /\ V3_so_lembretes l.
Proof.
  revert u s. induction k as [|k IH]; intros u s Hp.
  - exists u, s, []. rewrite app_nil_r. simpl.
    repeat split; try lia. constructor.
  - cbn [Nat.add enquanto].
    unfold V3.aguardarRetiradaTicket_tique at 1, digitalRead.
    pose proof (Hp 0%nat ltac:(lia)) as H0.
    rewrite Z.mul_0_r, Z.add_0_r in H0. rewrite H0. cbn [Bool.eqb HIGH].
    destruct (V3.INTERVALO_MENSAGEM_STATUS <? menos_ul (millis s) u).
    + destruct (IH (millis s)
                  (delay 10 (println "[AGUARDANDO] Por favor, retire o ticket." s)))
        as (u' & sk & l & He & Ht & Hv & Hee & Hs & Hl).
      { intros j Hj. rewrite tempo_delay. unfold println. rewrite tempo_emite.
        replace (tempo s + 10 + 10 * Z.of_nat j)
          with (tempo s + 10 * Z.of_nat (S j)) by lia.
        apply Hp. lia. }
      exists u', sk,
        ((tempo s, SerialPrintln "[AGUARDANDO] Por favor, retire o ticket.") :: l).
      split; [exact He|].
      rewrite tempo_delay in Ht. unfold println in Ht, Hs. rewrite tempo_emite in Ht.
      rewrite saidas_delay, saidas_emite, <- app_assoc in Hs.
      split; [lia|]. split; [exact Hv|]. split; [exact Hee|].
      split; [exact Hs|]. constructor; [reflexivity | exact Hl].
    + destruct (IH u (delay 10 s)) as (u' & sk & l & He & Ht & Hv & Hee & Hs & Hl).
      { intros j Hj. rewrite tempo_delay.
        replace (tempo s + 10 + 10 * Z.of_nat j)
          with (tempo s + 10 * Z.of_nat (S j)) by lia.
        apply Hp. lia. }
      exists u', sk, l.
      split; [exact He|]. rewrite tempo_delay in Ht.
      split; [lia|]. auto.
Qed.

(** X5.  [aguardarRetiradaTicket] of V3.ino polls the ticket slot every 10 ms
    and returns on the first poll that finds it LOW.  Until then it touches
    neither the gate nor the counter nor the EEPROM: all it writes are
    reminders on the serial port, and then that the ticket was taken. *)
Theorem V3_aguardarRetiradaTicket_retirado (w : Mundo) (k n : nat) (s : V3.Est) :
  (forall j : nat, (j < k)%nat ->
     nivel w V3.PINO_SENSOR_RETIRADA_TICKET (tempo s + 10 * Z.of_nat j) = true) ->
  nivel w V3.PINO_SENSOR_RETIRADA_TICKET (tempo s + 10 * Z.of_nat k) = false ->
  exists (s2 : V3.Est) (l : list (Z * Evento)),
    V3.aguardarRetiradaTicket (k + S n) w s = Some s2 /\
    tempo s2 = tempo s + 10 * Z.of_nat k /\
    vars s2 = vars s /\
    eeprom (placa s2) = eeprom (placa s) /\
    saidas s2 = saidas s ++ l
                ++ [(tempo s + 10 * Z.of_nat k, SerialPrintln "[INFO] Ticket retirado.")] /\
    V3_so_lembretes l.
Proof.
  intros Hp Hk. unfold V3.aguardarRetiradaTicket.
  destruct (V3_aguardar_espera w k (S n) (millis s) s Hp)
    as (u' & sk & l & He & Ht & Hv & Hee & Hs & Hl).
  rewrite He. cbn [enquanto].
  unfold V3.aguardarRetiradaTicket_tique, digitalRead.
  rewrite Ht, Hk. cbn [Bool.eqb HIGH liga].
  exists (println "[INFO] Ticket retirado." sk), l.
  split; [reflexivity|]. unfold println.
  rewrite tempo_emite, saidas_emite, Hs, Ht, <- app_assoc. auto.
Qed.

(** X5 at work: the ticket is taken 4 s after it was printed. *)
Lemma V3_aguardarRetiradaTicket_retirado_exemplo :
  exists (s2 : V3.Est) (l : list (Z * Evento)),
    V3.aguardarRetiradaTicket (400 + 1) (mundo_ticket 4000) (V3_ocioso 0 7) = Some s2 /\
    tempo s2 = tempo (V3_ocioso 0 7) + 10 * Z.of_nat 400 /\
    vars s2 = vars (V3_ocioso 0 7) /\
    eeprom (placa s2) = eeprom (placa (V3_ocioso 0 7)) /\
    saidas s2 = saidas (V3_ocioso 0 7) ++ l
                ++ [(tempo (V3_ocioso 0 7) + 10 * Z.of_nat 400,
                     SerialPrintln "[INFO] Ticket retirado.")] /\
    V3_so_lembretes l.
Proof.
  apply (V3_aguardarRetiradaTicket_retirado (mundo_ticket 4000) 400 0 (V3_ocioso 0 7)).
  - intros j Hj. unfold mundo_ticket, mundoDe, nivel, V3_ocioso, tempo.
    cbn [placa agora]. rewrite Z.eqb_refl. cbn [andb].
    apply Z.ltb_lt. lia.
  - reflexivity.
Defined.

(** X6.  A pass of [loop] of V3.ino that admits a vehicle returns as soon as
    the ticket is taken and the passage is resolved: if the ticket slot is
    found LOW on its poll number [k], [loop] returns between 4000 + 10 k and
    69020 + 10 k ms after it was entered (3 s for the ticket, 10 k ms for its
    removal, 0.5 s to open, at most 30.01 s at the entry sensor and at most
    35.51 s until the exit supervisor has closed the gate). *)
Theorem V3_loop_retorna (w : Mundo) (k n : nat) (s : V3.Est) :
  V3.admite w (V3.verificarResetDiarioContador w (V3.atualizarRelogio w s)) = true ->
  (forall j : nat, (j < k)%nat ->
     nivel w V3.PINO_SENSOR_RETIRADA_TICKET (tempo s + 3000 + 10 * Z.of_nat j) = true) ->
  nivel w V3.PINO_SENSOR_RETIRADA_TICKET (tempo s + 3000 + 10 * Z.of_nat k) = false ->
  (k < n)%nat -> (3002 <= n)%nat ->
  exists s' : V3.Est,
    V3.loop n w s = Some s' /\
    tempo s + 4000 + 10 * Z.of_nat k <= tempo s' <= tempo s + 69020 + 10 * Z.of_nat k.
Proof.
  intros Ha Hp Hk Hkn Hn. unfold V3.loop. rewrite Ha.
  set (s0 := V3.verificarResetDiarioContador w (V3.atualizarRelogio w s)) in *.
  set (sT := V3.simularImpressaoTicket w _).
  assert (HT : tempo sT = tempo s + 3000)
    by (unfold sT, s0; now rewrite V3_ticket_tempo, V3_inicio_tempo).
  rewrite <- HT in Hp, Hk.
  assert (Hag : exists sR, V3.aguardarRetiradaTicket n w sT = Some sR /\
                           tempo sR = tempo sT + 10 * Z.of_nat k).
  { replace n with (k + S (n - k - 1))%nat by lia.
    unfold V3.aguardarRetiradaTicket.
    destruct (V3_aguardar_espera w k (S (n - k - 1)) (millis sT) sT Hp)
      as (u' & sk & l & He & Ht & _).
    rewrite He. cbn [enquanto].
    unfold V3.aguardarRetiradaTicket_tique, digitalRead.
    rewrite Ht, Hk. cbn [Bool.eqb HIGH liga].
    eexists. split; [reflexivity | exact Ht]. }
  destruct Hag as (sR & -> & Ht). cbn [liga].
  set (sA := V3.abrirCancela _).
  assert (HA : tempo sA = tempo s + 3500 + 10 * Z.of_nat k).
  { change (tempo sR + V3.DELAY_MOVIMENTO_CANCELA = tempo s + 3500 + 10 * Z.of_nat k).
    unfold V3.DELAY_MOVIMENTO_CANCELA. lia. }
  destruct (V3_monitorarPassagemEntrada_total n w sA Hn) as (b1 & s1 & H1).
  rewrite H1. cbn [liga].
  apply V3_entrada_limites in H1. destruct H1 as (d1 & Hd1 & H1).
  destruct b1; subst s1.
  - eexists. split; [reflexivity|].
    rewrite !tempo_println, !V3_resolve_tempo, !tempo_delay. lia.
  - set (sE := println _ (delay d1 sA)).
    assert (HE : tempo sE = tempo sA + d1) by reflexivity.
    destruct (V3_monitorarPassagemSaida_total n w sE Hn) as (b2 & s2 & H2).
    rewrite H2. cbn [liga].
    apply V3_saida_limites in H2. destruct H2 as (d2 & r & Hd2 & -> & ->).
    assert (HR : tempo s + 4000 + 10 * Z.of_nat k
                 <= tempo (V3_resolve r (delay d2 sE))
                 <= tempo s + 69020 + 10 * Z.of_nat k).
    { rewrite V3_resolve_tempo, tempo_delay. destruct r; lia. }
    destruct (falhou r); eexists; (split; [reflexivity|]); exact HR.
Qed.

(** X6 at work: the ticket is taken at once and nothing else changes, so the
    entry wait runs out. *)
Lemma V3_loop_retorna_exemplo :
  exists s' : V3.Est,
    V3.loop 3002 (mundo_passagem_V3 100000 200000) (V3_ocioso 0 7) = Some s' /\
    tempo (V3_ocioso 0 7) + 4000 + 10 * Z.of_nat 0 <= tempo s'
    <= tempo (V3_ocioso 0 7) + 69020 + 10 * Z.of_nat 0.
Proof.
  apply (V3_loop_retorna (mundo_passagem_V3 100000 200000) 0 3002 (V3_ocioso 0 7)).
  - reflexivity.
  - intros j Hj. lia.
  - reflexivity.
  - lia.
  - lia.
Defined.

(** ** Beyond the claims: the count of V3.ino and its copy in the EEPROM *)

Lemma V3_inicio_persistido (w : Mundo) (s : V3.Est) :
  V3_persistido s ->
  V3_persistido (V3.verificarResetDiarioContador w (V3.atualizarRelogio w s)).
Proof.
  unfold V3_persistido, V3.verificarResetDiarioContador, V3.atualizarRelogio.
  intros H.
  destruct (V3.ultimaDataReset (vars s) =? EmptyString)%string;
    destruct (negb _ && negb _); first [exact H | reflexivity].
Qed.

Lemma V3_aguardar_percorre_eeprom (w : Mundo) (e ek : Z * V3.Est) :
  percorre (V3.aguardarRetiradaTicket_tique w) e ek ->
  eeprom (placa (snd ek)) = eeprom (placa (snd e)).
Proof.
  induction 1 as [e|[u s] e1 e2 Hs _ IH]; [reflexivity|].
  rewrite IH. unfold V3.aguardarRetiradaTicket_tique in Hs.
  destruct (Bool.eqb _ HIGH); [|discriminate].
  destruct (V3.INTERVALO_MENSAGEM_STATUS <? menos_ul (millis s) u);
    inversion Hs; reflexivity.
Qed.

Lemma V3_aguardarRetiradaTicket_eeprom (n : nat) (w : Mundo) (s s' : V3.Est) :
  V3.aguardarRetiradaTicket n w s = Some s' ->
  eeprom (placa s') = eeprom (placa s).
Proof.
  unfold V3.aguardarRetiradaTicket, liga.
  destruct (enquanto n _ _) as [[r [u s1]]|] eqn:El; [|discriminate].
  apply enquanto_inv in El. destruct El as ([uk sk] & Hp & Hk).
  apply V3_aguardar_percorre_eeprom in Hp. simpl in Hp.
  intros H. inversion H; subst. unfold println. rewrite eeprom_emite.
  unfold V3.aguardarRetiradaTicket_tique in Hk.
  destruct (Bool.eqb _ HIGH).
  - destruct (V3.INTERVALO_MENSAGEM_STATUS <? menos_ul (millis sk) uk);
      destruct r; discriminate.
  - destruct r; [discriminate|]. inversion Hk; subst. exact Hp.
Qed.

Lemma V3_resolve_persistido (r : Resolucao) (s : V3.Est) :
  V3_persistido s -> V3_persistido (V3_resolve r s).
Proof.
  unfold V3_persistido. now rewrite V3_resolve_eeprom, V3_resolve_contador.
Qed.

Lemma V3_println_persistido (texto : string) (s : V3.Est) :
  V3_persistido s -> V3_persistido (println texto s).
Proof. exact (fun H => H). Qed.

Lemma V3_gerenciarStatusOcioso_persistido (w : Mundo) (s : V3.Est) :
  V3_persistido s -> V3_persistido (V3.gerenciarStatusOcioso w s).
Proof.
  unfold V3_persistido, V3.gerenciarStatusOcioso. intros H.
  destruct (_ <? _); [|exact H].
  destruct (_ && negb _); [exact H|].
  destruct (negb _ && _); exact H.
Qed.

Lemma V3_loop_persistido (n : nat) (w : Mundo) (s s' : V3.Est) :
  V3.loop n w s = Some s' -> V3_persistido s -> V3_persistido s'.
Proof.
  intros H Hi. apply (V3_inicio_persistido w) in Hi.
  unfold V3.loop in H.
  set (s0 := V3.verificarResetDiarioContador w (V3.atualizarRelogio w s)) in *.
  destruct (V3.admite w s0).
  - unfold liga in H.
    destruct (V3.aguardarRetiradaTicket n w _) as [sR|] eqn:Eag; [|discriminate].
    assert (HR : V3_persistido sR).
    { unfold V3_persistido.
      rewrite (V3_aguardarRetiradaTicket_eeprom _ _ _ _ Eag),
              (V3_aguardarRetiradaTicket_vars _ _ _ _ Eag).
      exact Hi. }
    destruct (V3.monitorarPassagemEntrada n w _) as [[b1 s1]|] eqn:E1; [|discriminate].
    apply V3_entrada_limites in E1. destruct E1 as (d1 & _ & E1).
    destruct b1; subst s1.
    + injection H as <-.
      apply V3_println_persistido.
      apply (V3_resolve_persistido RESOLVED_TIMEOUT (delay d1 (V3.abrirCancela sR))).
      exact HR.
    + destruct (V3.monitorarPassagemSaida n w _) as [[b2 s2]|] eqn:E2; [|discriminate].
      apply V3_saida_limites in E2. destruct E2 as (d2 & r & _ & -> & ->).
      assert (H2 : V3_persistido
                     (V3_resolve r
                        (delay d2 (println "[INFO] Veículo liberou o sensor de entrada."
                                     (delay d1 (V3.abrirCancela sR))))))
        by (apply V3_resolve_persistido; exact HR).
      destruct (falhou r); injection H as <-;
        [apply V3_println_persistido; exact H2|].
      unfold V3_persistido. reflexivity.
  - injection H as <-. now apply V3_gerenciarStatusOcioso_persistido.
Qed.

(** X7.  V3.ino never lets its count and the copy in the EEPROM drift apart:
    after [setup], and after every return of [loop] from then on, whatever
    the sensors did, the cell at [ENDERECO_CONTADOR] holds the value of
    [contadorVeiculos].  A power cut between two passes of [loop] loses no
    vehicle. *)
Theorem V3_contador_persistido (s : V3.Est) :
  V3_alcancavel s -> eeprom (placa s) = V3.contadorVeiculos (vars s).
Proof.
  induction 1 as [n w s H|n w s s' _ IH H].
  - unfold V3.setup, liga in H.
    destruct (V3.conectarWiFi n w _); [|discriminate].
    injection H as <-. reflexivity.
  - exact (V3_loop_persistido _ _ _ _ H IH).
Qed.

(** X7 at work: a board that booted with 2^32 - 1 in the cell and then let one
    vehicle through. *)
Lemma V3_contador_persistido_exemplo :
  eeprom (placa (resultado (V3.loop 400 mundo_eeprom_cheia V3_apos_setup_cheia)
                           V3_apos_setup_cheia))
  = V3.contadorVeiculos
      (vars (resultado (V3.loop 400 mundo_eeprom_cheia V3_apos_setup_cheia)
                       V3_apos_setup_cheia)).
Proof.
  apply V3_contador_persistido.
  apply (V3_alcancavel_loop 400 mundo_eeprom_cheia V3_apos_setup_cheia).
  - apply (V3_alcancavel_setup 40 mundo_eeprom_cheia). vm_compute. reflexivity.
  - vm_compute. reflexivity.
Defined.

(** ** Beyond the claims: [setup] and the idle messages of V3.ino *)

Lemma V3_wifi_tique_segue (w : Mundo) (t0 : Z) (s s1 : V3.Est) :
  V3.conectarWiFi_tique w t0 s = Segue s1 ->
  s1 = delay 500 (print "." s) /\ menos_ul (millis s) t0 < 15000.
Proof.
  unfold V3.conectarWiFi_tique.
  destruct (negb (wifiConectado w (tempo s))); cbn [andb]; [|discriminate].
  destruct (menos_ul (millis s) t0 <? 15000) eqn:Ht; [|discriminate].
  apply Z.ltb_lt in Ht. intros H. injection H as <-. auto.
Qed.

Lemma V3_wifi_termina (w : Mundo) (t0 : Z) (n : nat) (s : V3.Est) :
  15000 - menos_ul (millis s) t0 <= 500 * Z.of_nat n ->
  exists r, enquanto (S n) (V3.conectarWiFi_tique w t0) s = Some r.
Proof.
  revert s. induction n as [|n IH]; intros s He; cbn [enquanto];
    destruct (V3.conectarWiFi_tique w t0 s) as [s1|s1|x s1] eqn:Et; eauto;
    apply V3_wifi_tique_segue in Et; destruct Et as (-> & Hlt).
  - lia.
  - apply IH. rewrite menos_ul_delay_pequeno;
      change (millis (print "." s)) with (millis s);
      unfold ULONG_MAX_1; lia.
Qed.

Lemma V3_wifi_percorre (w : Mundo) (t0 : Z) (s sk : V3.Est) :
  percorre (V3.conectarWiFi_tique w t0) s sk ->
  exists k : nat,
    tempo sk = tempo s + 500 * Z.of_nat k /\
    vars sk = vars s /\
    eeprom (placa sk) = eeprom (placa s) /\
    (k = 0%nat \/ menos_ul (millis s) t0 + 500 * Z.of_nat k < 15500).
Proof.
  induction 1 as [s|s s1 s2 Hs _ (k & Ht & Hv & He & Hb)].
  - exists 0%nat. repeat split; lia.
  - apply V3_wifi_tique_segue in Hs. destruct Hs as (-> & Hlt).
    exists (S k). rewrite Ht, Hv, He.
    split; [rewrite tempo_delay; change (tempo (print "." s)) with (tempo s); lia|].
    split; [reflexivity|]. split; [reflexivity|].
    right. destruct Hb as [-> | Hb]; [lia|].
    rewrite menos_ul_delay_pequeno in Hb;
      change (millis (print "." s)) with (millis s) in *;
      unfold ULONG_MAX_1; lia.
Qed.

(** X8.  [setup] of V3.ino always returns, between 0.5 and 15.5 s after boot:
    the wait for the Wi-Fi gives up after 15 s.  It leaves the count at what
    the EEPROM held at boot, whatever that is, the EEPROM untouched and the
    gate closed. *)
Theorem V3_setup_retorna (n : nat) (w : Mundo) :
  (31 <= n)%nat ->
  exists s : V3.Est,
    V3.setup n w = Some s /\
    500 <= tempo s <= 15500 /\
    V3.contadorVeiculos (vars s) = eepromInicial w /\
    eeprom (placa s) = eepromInicial w /\
    V3.estadoCancelaAberta (vars s) = false /\
    ultimoServo (saidas s) = Some V3.SERVO_POSICAO_FECHADA.
Proof.
  intros Hn. unfold V3.setup, V3.conectarWiFi.
  set (s0 := print "Conectando ao Wi-Fi " (V3.estadoInicial w)).
  destruct (V3_wifi_termina w (millis s0) 30 s0) as ([r s1] & Hr).
  { rewrite menos_ul_inicio. lia. }
  apply (enquanto_le _ _ n) in Hr; [|lia].
  rewrite Hr. cbn [liga].
  apply enquanto_inv in Hr. destruct Hr as (sk & Hp & Hk).
  apply V3_wifi_percorre in Hp. destruct Hp as (k & Ht & Hv & He & Hb).
  rewrite menos_ul_inicio in Hb.
  assert (Hs1 : s1 = sk).
  { unfold V3.conectarWiFi_tique in Hk.
    destruct (negb _ && _); destruct r; congruence. }
  subst s1. clear Hk.
  assert (Hfim : forall y : V3.Est,
             tempo y = tempo sk -> eeprom (placa y) = eeprom (placa sk) ->
             let s := println "=============================================\n"
                        (println "Sistema de Controle de Cancela Iniciado."
                           (println "\n============================================="
                              (V3.fecharCancela
                                 (V3.set_contadorVeiculos
                                    (eeprom (placa (V3.atualizarRelogio w y)))
                                    (V3.atualizarRelogio w y))))) in
             500 <= tempo s <= 15500 /\
             V3.contadorVeiculos (vars s) = eepromInicial w /\
             eeprom (placa s) = eepromInicial w /\
             V3.estadoCancelaAberta (vars s) = false /\
             ultimoServo (saidas s) = Some V3.SERVO_POSICAO_FECHADA).
  { intros y Hy Hey. cbn zeta.
    set (y1 := V3.set_contadorVeiculos _ _).
    assert (Hy1 : tempo y1 = tempo y /\ eeprom (placa y1) = eeprom (placa y) /\
                  V3.contadorVeiculos (vars y1) = eeprom (placa y)).
    { unfold y1, V3.atualizarRelogio.
      destruct (V3.ultimaDataReset (vars y) =? EmptyString)%string; auto. }
    destruct Hy1 as (Hy1t & Hy1e & Hy1c).
    rewrite !tempo_println, V3_fecharCancela_tempo, Hy1t, Hy, Ht.
    change (tempo s0) with 0.
    split; [lia|].
    split; [change (V3.contadorVeiculos (vars y1) = eepromInicial w);
            rewrite Hy1c, Hey, He; reflexivity|].
    split; [change (eeprom (placa y1) = eepromInicial w);
            rewrite Hy1e, Hey, He; reflexivity|].
    split; [reflexivity|].
    unfold println. rewrite !saidas_emite, V3_fecharCancela_saidas.
    rewrite !ultimoServo_app. reflexivity. }
  destruct (wifiConectado w (tempo sk)); eexists; (split; [reflexivity|]).
  - apply (Hfim (println "\nWiFi conectado!" sk)); reflexivity.
  - apply (Hfim (println "\nFalha ao conectar ao Wi-Fi. Usando tempo de compilação." sk));
      reflexivity.
Qed.

(** X8 at work: a board that never reaches the Wi-Fi. *)
Lemma V3_setup_retorna_exemplo :
  exists s : V3.Est,
    V3.setup 31 mundo_eeprom_cheia = Some s /\
    500 <= tempo s <= 15500 /\
    V3.contadorVeiculos (vars s) = eepromInicial mundo_eeprom_cheia /\
    eeprom (placa s) = eepromInicial mundo_eeprom_cheia /\
    V3.estadoCancelaAberta (vars s) = false /\
    ultimoServo (saidas s) = Some V3.SERVO_POSICAO_FECHADA.
Proof. exact (V3_setup_retorna 31 mundo_eeprom_cheia (le_n _)). Defined.

(** X9.  The idle messages of V3.ino come at most once every 5 s, also across
    an overflow of [millis]: when a pass of [gerenciarStatusOcioso] is due it
    prints its two lines, naming the state of the gate, and every call during
    the following 5000 ms, whatever the sensors say, does nothing. *)
Theorem V3_status_espacado (w w' : Mundo) (s : V3.Est) (d : Z) :
  V3.INTERVALO_MENSAGEM_STATUS
  < menos_ul (millis s) (V3.ultimoTempoStatus (vars s)) ->
  0 <= d <= V3.INTERVALO_MENSAGEM_STATUS ->
  let s1 := V3.gerenciarStatusOcioso w s in
  (exists linha : string,
     saidas s1 =
     saidas s ++
     [(tempo s, SerialPrintln linha);
      (tempo s,
       SerialPrintln ("           (Status da Cancela: "
                      ++ (if V3.estadoCancelaAberta (vars s)
                          then "Aberta" else "Fechada") ++ ")")%string)]) /\
  V3.gerenciarStatusOcioso w' (delay d s1) = delay d s1.
Proof.
  intros Hdue Hd s1.
  assert (Hu : V3.ultimoTempoStatus (vars s1) = millis s1 /\
               exists linha : string,
                 saidas s1 =
                 saidas s ++
                 [(tempo s, SerialPrintln linha);
                  (tempo s,
                   SerialPrintln ("           (Status da Cancela: "
                                  ++ (if V3.estadoCancelaAberta (vars s)
                                      then "Aberta" else "Fechada") ++ ")")%string)]).
  { unfold s1, V3.gerenciarStatusOcioso.
    apply Z.ltb_lt in Hdue. rewrite Hdue.
    destruct (_ && negb _); [|destruct (negb _ && _)];
      (split; [reflexivity|]); eexists;
      unfold saidas, println, emite, V3.set_ultimoTempoStatus, com_vars;
      cbn [placa traco vars agora]; rewrite <- app_assoc; reflexivity. }
  destruct Hu as (Hu & Hl). split; [exact Hl|].
  unfold V3.gerenciarStatusOcioso at 1.
  replace (V3.INTERVALO_MENSAGEM_STATUS
           <? menos_ul (millis (delay d s1)) (V3.ultimoTempoStatus (vars (delay d s1))))
    with false; [reflexivity|].
  symmetry. apply Z.ltb_ge.
  rewrite vars_delay, Hu, menos_ul_delay_pequeno, menos_ul_inicio;
    rewrite ?menos_ul_inicio; unfold V3.INTERVALO_MENSAGEM_STATUS, ULONG_MAX_1 in *; lia.
Qed.

(** X9 at work: an idle board 6 s after boot. *)
Lemma V3_status_espacado_exemplo :
  let s1 := V3.gerenciarStatusOcioso mundo_tudo_ativo (V3_ocioso 6000 7) in
  (exists linha : string,
     saidas s1 =
     saidas (V3_ocioso 6000 7) ++
     [(tempo (V3_ocioso 6000 7), SerialPrintln linha);
      (tempo (V3_ocioso 6000 7),
       SerialPrintln ("           (Status da Cancela: "
                      ++ (if V3.estadoCancelaAberta (vars (V3_ocioso 6000 7))
                          then "Aberta" else "Fechada") ++ ")")%string)]) /\
  V3.gerenciarStatusOcioso (mundo_so_pino 0) (delay 5000 s1) = delay 5000 s1.
Proof.
  apply (V3_status_espacado mundo_tudo_ativo (mundo_so_pino 0) (V3_ocioso 6000 7) 5000).
  - reflexivity.
  - unfold V3.INTERVALO_MENSAGEM_STATUS. lia.
Defined.

(** ** Beyond the claims: a whole pass of [loop] of V4.ino *)

Lemma menos_ul_avanca {G : Type} (d t0 : Z) (s x : Estado G) :
  tempo x = tempo s + d -> 0 <= d -> menos_ul (millis s) t0 + d < ULONG_MAX_1 ->
  menos_ul (millis x) t0 = menos_ul (millis s) t0 + d.
Proof.
  intros Ht Hd Hlt. rewrite <- (menos_ul_delay_pequeno d t0 s Hd Hlt).
  unfold millis. now rewrite Ht, tempo_delay.
Qed.

Lemma V4_fecharCancela_tempo (s : V4.Est) :
  tempo (V4.fecharCancela s) = tempo s + 500.
Proof. reflexivity. Qed.

Lemma V4_fecharCancela_eeprom (s : V4.Est) :
  eeprom (placa (V4.fecharCancela s)) = eeprom (placa s).
Proof. reflexivity. Qed.

Lemma V4_beeps_tempo (n : nat) (s : V4.Est) :
  tempo (repete n V4.beep s) = tempo s + 500 * Z.of_nat n.
Proof.
  revert s. induction n as [|n IH]; intros s.
  - simpl. lia.
  - cbn [repete]. rewrite IH.
    change (tempo (V4.beep s))
      with (tempo s + V4.DURACAO_BEEP_BUZZER / 2 + V4.DURACAO_BEEP_BUZZER / 2).
    change (V4.DURACAO_BEEP_BUZZER / 2) with 250. lia.
Qed.

Lemma V4_beeps_eeprom (n : nat) (s : V4.Est) :
  eeprom (placa (repete n V4.beep s)) = eeprom (placa s).
Proof.
  revert s. induction n as [|n IH]; intros s; simpl; [reflexivity|].
  now rewrite IH.
Qed.

Lemma V4_emitirAviso_tempo (s : V4.Est) :
  tempo (V4.emitirAvisoSonoroFechamento s) = tempo s + 3000.
Proof.
  unfold V4.emitirAvisoSonoroFechamento.
  rewrite V4_fecharCancela_tempo, V4_beeps_tempo, tempo_println.
  change (Z.of_nat (Z.to_nat V4.QTD_AVISOS_SONOROS)) with 5. lia.
Qed.

Lemma V4_emitirAviso_eeprom (s : V4.Est) :
  eeprom (placa (V4.emitirAvisoSonoroFechamento s)) = eeprom (placa s).
Proof.
  unfold V4.emitirAvisoSonoroFechamento.
  rewrite V4_fecharCancela_eeprom, V4_beeps_eeprom. reflexivity.
Qed.

Lemma V4_resolve_tempo (r : Resolucao) (s : V4.Est) :
  tempo (V4_resolve r s) =
  tempo s + match r with
            | RESOLVED_SUCCESS => 2500
            | RESOLVED_TIMEOUT => 3000
            | RESOLVED_FRAUD => 500
            end.
Proof.
  destruct r; unfold V4_resolve, V4.set_timeoutSaidaOcorrido;
    rewrite ?tempo_com_vars, ?V4_fecharCancela_tempo, ?V4_emitirAviso_tempo,
            ?tempo_delay, ?tempo_println;
    unfold V4.ATRASO_FECHAMENTO; lia.
Qed.

Lemma V4_resolve_eeprom (r : Resolucao) (s : V4.Est) :
  eeprom (placa (V4_resolve r s)) = eeprom (placa s).
Proof.
  destruct r; unfold V4_resolve, V4.set_timeoutSaidaOcorrido;
    rewrite ?eeprom_com_vars, ?V4_fecharCancela_eeprom, ?V4_emitirAviso_eeprom;
    reflexivity.
Qed.

Lemma V4_resolve_fechada (r : Resolucao) (s : V4.Est) :
  V4.estadoCancelaAberta (vars (V4_resolve r s)) = false.
Proof.
  destruct r; [reflexivity| |reflexivity].
  unfold V4_resolve, V4.set_timeoutSaidaOcorrido, com_vars. cbn [vars].
  now rewrite V4_emitirAviso_vars.
Qed.

Lemma V4_timeout_entrada_tempo (s : V4.Est) :
  tempo (V4_timeout_entrada s) = tempo s + 3000.
Proof.
  unfold V4_timeout_entrada, V4.set_timeoutEntradaOcorrido.
  now rewrite tempo_com_vars, V4_emitirAviso_tempo, tempo_println.
Qed.

Lemma V4_timeout_entrada_eeprom (s : V4.Est) :
  eeprom (placa (V4_timeout_entrada s)) = eeprom (placa s).
Proof.
  unfold V4_timeout_entrada, V4.set_timeoutEntradaOcorrido.
  now rewrite eeprom_com_vars, V4_emitirAviso_eeprom.
Qed.

(** One more round of a wait of V4.ino: 10 ms later, nothing else changed but
    the serial output. *)
Lemma V4_entrada_tique_segue (w : Mundo) (t0 u : Z) (s : V4.Est) (e1 : Z * V4.Est) :
  V4.gerenciarSegurancaEntrada_tique w t0 (u, s) = Segue e1 ->
  tempo (snd e1) = tempo s + 10 /\
  vars (snd e1) = vars s /\
  eeprom (placa (snd e1)) = eeprom (placa s) /\
  menos_ul (millis s) t0 <= V4.TIMEOUT_OPERACAO.
Proof.
  rewrite V4_entrada_tique_casos.
  destruct (V4.veiculoNaEntrada w s); [|discriminate].
  destruct (V4.TIMEOUT_OPERACAO <? menos_ul (millis s) t0) eqn:Ht; [discriminate|].
  apply Z.ltb_ge in Ht. intros H. injection H as <-.
  destruct (V4.INTERVALO_MSG_STATUS <? menos_ul (millis s) u); auto.
Qed.

Lemma V4_saida_tique_segue (w : Mundo) (t0 u : Z) (s : V4.Est) (e1 : Z * V4.Est) :
  V4.gerenciarSegurancaSaida_tique w t0 (u, s) = Segue e1 ->
  tempo (snd e1) = tempo s + 10 /\
  vars (snd e1) = vars s /\
  eeprom (placa (snd e1)) = eeprom (placa s) /\
  menos_ul (millis s) t0 <= V4.TIMEOUT_OPERACAO.
Proof.
  rewrite V4_saida_tique_casos.
  destruct (digitalRead w V4.pinoSensorSaida s); [discriminate|].
  destruct (V4.TIMEOUT_OPERACAO <? menos_ul (millis s) t0) eqn:Ht; [discriminate|].
  destruct (V4.veiculoNaEntrada w s); [discriminate|].
  apply Z.ltb_ge in Ht. intros H. injection H as <-.
  destruct (V4.INTERVALO_MSG_STATUS <? menos_ul (millis s) u); auto.
Qed.

Section V4_esperas.
Variable tique : Z -> Z * V4.Est -> Controle (Z * V4.Est) unit.
Hypothesis tique_segue : forall (t0 u : Z) (s : V4.Est) (e1 : Z * V4.Est),
  tique t0 (u, s) = Segue e1 ->
  tempo (snd e1) = tempo s + 10 /\
  vars (snd e1) = vars s /\
  eeprom (placa (snd e1)) = eeprom (placa s) /\
  menos_ul (millis s) t0 <= V4.TIMEOUT_OPERACAO.

Lemma V4_espera_percorre (t0 : Z) (e ek : Z * V4.Est) :
  percorre (tique t0) e ek ->
  exists k : nat,
    tempo (snd ek) = tempo (snd e) + 10 * Z.of_nat k /\
    vars (snd ek) = vars (snd e) /\
    eeprom (placa (snd ek)) = eeprom (placa (snd e)) /\
    (k = 0%nat \/
     menos_ul (millis (snd e)) t0 + 10 * Z.of_nat k <= V4.TIMEOUT_OPERACAO + 10).
Proof.
  induction 1 as [e|[u s] e1 e2 Hs _ (k & Ht & Hv & He & Hb)].
  - exists 0%nat. repeat split; lia.
  - apply tique_segue in Hs. destruct Hs as (Ht1 & Hv1 & He1 & Hle).
    exists (S k). cbn [snd]. rewrite Ht, Hv, He, Ht1, Hv1, He1.
    split; [lia|]. split; [reflexivity|]. split; [reflexivity|].
    right. destruct Hb as [-> | Hb]; [lia|].
    rewrite (menos_ul_avanca 10 t0 s (snd e1)) in Hb;
      unfold V4.TIMEOUT_OPERACAO, ULONG_MAX_1 in *; lia.
Qed.

Lemma V4_espera_termina (t0 : Z) (n : nat) (e : Z * V4.Est) :
  V4.TIMEOUT_OPERACAO - menos_ul (millis (snd e)) t0 < 10 * Z.of_nat n ->
  exists r, enquanto (S n) (tique t0) e = Some r.
Proof.
  revert e. induction n as [|n IH]; intros [u s] He; cbn [enquanto];
    destruct (tique t0 (u, s)) as [e1|e1|x e1] eqn:Et; eauto;
    apply tique_segue in Et; destruct Et as (Ht1 & _ & _ & Hle); cbn [snd] in He.
  - unfold V4.TIMEOUT_OPERACAO in *. lia.
  - apply IH. rewrite (menos_ul_avanca 10 t0 s (snd e1));
      unfold V4.TIMEOUT_OPERACAO, ULONG_MAX_1 in *; lia.
Qed.
End V4_esperas.

(** Whenever [gerenciarSegurancaEntrada] returns: on a tick at most 30010 ms
    after it was called, with the flag of the entry set and the gate closed
    3 s later, or with the flag clear and the gate as it was. *)
Lemma V4_entrada_limites (n : nat) (w : Mundo) (s x : V4.Est) :
  V4.gerenciarSegurancaEntrada n w s = Some x ->
  exists (d : Z) (sk : V4.Est),
    0 <= d <= 30010 /\
    tempo sk = tempo s + d /\
    vars sk = vars (V4.set_timeoutEntradaOcorrido false s) /\
    eeprom (placa sk) = eeprom (placa s) /\
    (x = V4_timeout_entrada sk \/
     x = println "Veículo liberou a área de entrada.\n" sk).
Proof.
  unfold V4.gerenciarSegurancaEntrada, liga.
  destruct (enquanto n _ _) as [[r [u s1]]|] eqn:El; [|discriminate].
  apply enquanto_inv in El. destruct El as ([uk sk] & Hp & Hk).
  apply (V4_espera_percorre _ (V4_entrada_tique_segue w)) in Hp.
  destruct Hp as (k & Ht & Hv & He & Hb). cbn [snd] in *.
  change (millis (V4.set_timeoutEntradaOcorrido false s)) with (millis s) in Hb.
  rewrite menos_ul_inicio in Hb.
  intros H. exists (10 * Z.of_nat k), sk.
  split; [unfold V4.TIMEOUT_OPERACAO in Hb; lia|].
  split; [exact Ht|]. split; [exact Hv|]. split; [exact He|].
  rewrite V4_entrada_tique_casos in Hk.
  destruct (V4.veiculoNaEntrada w sk).
  - destruct (V4.TIMEOUT_OPERACAO <? menos_ul _ _).
    + destruct r as [[]|]; [|discriminate]. inversion Hk; subst.
      inversion H; subst. now left.
    + destruct r; discriminate.
  - destruct r; [discriminate|]. inversion Hk; subst. inversion H; subst. now right.
Qed.

Lemma V4_saida_limites (n : nat) (w : Mundo) (s x : V4.Est) :
  V4.timeoutEntradaOcorrido (vars s) = false ->
  V4.gerenciarSegurancaSaida n w s = Some x ->
  exists (d : Z) (r : Resolucao) (sk : V4.Est),
    0 <= d <= 30010 /\
    tempo sk = tempo s + d /\
    vars sk = vars (V4.set_timeoutSaidaOcorrido false s) /\
    eeprom (placa sk) = eeprom (placa s) /\
    x = V4_resolve r sk.
Proof.
  intros HtE. unfold V4.gerenciarSegurancaSaida, liga. rewrite HtE.
  destruct (enquanto n _ _) as [[r [u s1]]|] eqn:El; [|discriminate].
  apply enquanto_inv in El. destruct El as ([uk sk] & Hp & Hk).
  apply (V4_espera_percorre _ (V4_saida_tique_segue w)) in Hp.
  destruct Hp as (k & Ht & Hv & He & Hb). cbn [snd] in *.
  change (millis (V4.set_timeoutSaidaOcorrido false s)) with (millis s) in Hb, Hk.
  rewrite menos_ul_inicio in Hb.
  intros H. exists (10 * Z.of_nat k).
  destruct (V4_saida_tique_para w (millis s) uk sk) as [(e' & He' & _)|(r' & Hc)].
  - rewrite He' in Hk. destruct r; discriminate.
  - exists r', sk.
    split; [unfold V4.TIMEOUT_OPERACAO in Hb; lia|].
    split; [exact Ht|]. split; [exact Hv|]. split; [exact He|].
    rewrite (V4_saida_tique_resolve _ _ _ _ _ Hc) in Hk.
    destruct r as [[]|]; destruct r'; try discriminate;
      inversion Hk; subst; inversion H; subst; reflexivity.
Qed.

Lemma V4_gerenciarSegurancaEntrada_total (n : nat) (w : Mundo) (s : V4.Est) :
  (3002 <= n)%nat -> exists x, V4.gerenciarSegurancaEntrada n w s = Some x.
Proof.
  intros Hn. unfold V4.gerenciarSegurancaEntrada, liga.
  set (s1 := V4.set_timeoutEntradaOcorrido false s).
  destruct (V4_espera_termina _ (V4_entrada_tique_segue w) (millis s1) 3001 (0, s1))
    as ([r [u x]] & Hr).
  { cbn [snd]. rewrite menos_ul_inicio. unfold V4.TIMEOUT_OPERACAO. lia. }
  apply (enquanto_le _ _ n) in Hr; [|lia].
  rewrite Hr. destruct r; eauto.
Qed.

Lemma V4_gerenciarSegurancaSaida_total (n : nat) (w : Mundo) (s : V4.Est) :
  (3002 <= n)%nat -> exists x, V4.gerenciarSegurancaSaida n w s = Some x.
Proof.
  intros Hn. unfold V4.gerenciarSegurancaSaida, liga.
  destruct (V4.timeoutEntradaOcorrido (vars s)); [eauto|].
  set (s1 := V4.set_timeoutSaidaOcorrido false s).
  destruct (V4_espera_termina _ (V4_saida_tique_segue w) (millis s1) 3001 (0, s1))
    as ([r [u x]] & Hr).
  { cbn [snd]. rewrite menos_ul_inicio. unfold V4.TIMEOUT_OPERACAO. lia. }
  apply (enquanto_le _ _ n) in Hr; [|lia].
  rewrite Hr. destruct r; eauto.
Qed.

Lemma V4_sincronizarDataHora_placa (w : Mundo) (s : V4.Est) :
  placa (V4.sincronizarDataHora w s) = placa s.
Proof.
  unfold V4.sincronizarDataHora. cbv zeta.
  match goal with |- context [if ?b then _ else _] => destruct b end; reflexivity.
Qed.

Lemma V4_inicio_tempo (w : Mundo) (s : V4.Est) :
  tempo (V4.verificacaoResetDiario (V4.sincronizarDataHora w s)) = tempo s.
Proof.
  unfold V4.verificacaoResetDiario.
  destruct (negb _).
  - change (tempo (V4.sincronizarDataHora w s) = tempo s).
    unfold tempo. now rewrite V4_sincronizarDataHora_placa.
  - unfold tempo. now rewrite V4_sincronizarDataHora_placa.
Qed.

Lemma V4_emitirTicket_tempo (w : Mundo) (s : V4.Est) :
  tempo (V4.emitirTicket w s) = tempo s + 3000.
Proof.
  change (tempo (V4.sincronizarDataHora w s)
          + V4.DURACAO_EMISSAO_TICKET + V4.DURACAO_EMISSAO_TICKET = tempo s + 3000).
  unfold tempo. rewrite V4_sincronizarDataHora_placa.
  unfold V4.DURACAO_EMISSAO_TICKET. lia.
Qed.

Lemma V4_abrirCancela_tempo (s : V4.Est) :
  tempo (V4.abrirCancela s) = tempo s + 500.
Proof. reflexivity. Qed.

Lemma V4_registrarOuReverter_fim (x : V4.Est) :
  tempo (V4.registrarOuReverter x) = tempo x /\
  V4.estadoCancelaAberta (vars (V4.registrarOuReverter x))
  = V4.estadoCancelaAberta (vars x) /\
  V4.timeoutEntradaOcorrido (vars (V4.registrarOuReverter x)) = false /\
  V4.timeoutSaidaOcorrido (vars (V4.registrarOuReverter x)) = false.
Proof.
  unfold V4.registrarOuReverter.
  destruct (V4.timeoutEntradaOcorrido (vars x) || V4.timeoutSaidaOcorrido (vars x)).
  - cbn [vars println emite].
    destruct (0 <? V4.contadorVeiculosDia (vars x)); repeat split; reflexivity.
  - repeat split; reflexivity.
Qed.

(** X10.  With the manual switch off, a pass of [loop] of V4.ino always
    returns.  A pass that admits a vehicle returns between 4 and 66.52 s after
    it was entered (3 s for the ticket, 0.5 s to open, at most 30.01 s for each
    of the two waits and at most 3 s of warning and closing), with the gate
    closed and both timeout flags cleared for the next vehicle.  Any other
    pass takes no time and leaves the gate as it was. *)
Theorem V4_loop_retorna (n : nat) (w : Mundo) (s : V4.Est) :
  let s0 := V4.verificacaoResetDiario (V4.sincronizarDataHora w s) in
  (3002 <= n)%nat ->
  digitalRead w V4.pinoChaveManual s0 = false ->
  exists s' : V4.Est,
    V4.loop n w s = Some s' /\
    if V4.veiculoNaEntrada w s0 && Bool.eqb (digitalRead w V4.pinoBotaoTicket s0) HIGH
    then tempo s + 4000 <= tempo s' <= tempo s + 66520 /\
         V4.estadoCancelaAberta (vars s') = false /\
         V4.timeoutEntradaOcorrido (vars s') = false /\
         V4.timeoutSaidaOcorrido (vars s') = false
    else tempo s' = tempo s /\
         V4.estadoCancelaAberta (vars s') = V4.estadoCancelaAberta (vars s0).
Proof.
  intros s0 Hn Hm. unfold V4.loop. fold s0. rewrite Hm. cbn [Bool.eqb].
  pose proof (V4_inicio_tempo w s) as H0. fold s0 in H0.
  destruct (V4.veiculoNaEntrada w s0
            && Bool.eqb (digitalRead w V4.pinoBotaoTicket s0) HIGH).
  - set (sA := V4.abrirCancela _).
    assert (HA : tempo sA = tempo s + 3500).
    { unfold sA. rewrite V4_abrirCancela_tempo, V4_emitirTicket_tempo, tempo_println.
      lia. }
    destruct (V4_gerenciarSegurancaEntrada_total n w sA Hn) as (x1 & E1).
    rewrite E1. cbn [liga].
    apply V4_entrada_limites in E1.
    destruct E1 as (d1 & sk & Hd1 & Ht1 & Hv1 & _ & [-> | ->]).
    + unfold V4.gerenciarSegurancaSaida.
      rewrite V4_timeout_entrada_vars.
      change (V4.timeoutEntradaOcorrido
                (vars (V4.set_timeoutEntradaOcorrido true
                         (V4.set_estadoCancelaAberta false sk)))) with true.
      cbn [liga]. eexists. split; [reflexivity|].
      destruct (V4_registrarOuReverter_fim (V4_timeout_entrada sk))
        as (-> & -> & -> & ->).
      rewrite V4_timeout_entrada_tempo, V4_timeout_entrada_vars.
      split; [lia|]. repeat split; reflexivity.
    + set (sE := println _ sk).
      assert (HE : V4.timeoutEntradaOcorrido (vars sE) = false)
        by (unfold sE; cbn [vars println emite]; now rewrite Hv1).
      destruct (V4_gerenciarSegurancaSaida_total n w sE Hn) as (x2 & E2).
      rewrite E2. cbn [liga].
      apply (V4_saida_limites _ _ _ _ HE) in E2.
      destruct E2 as (d2 & r & sk2 & Hd2 & Ht2 & _ & _ & ->).
      eexists. split; [reflexivity|].
      destruct (V4_registrarOuReverter_fim (V4_resolve r sk2))
        as (-> & -> & -> & ->).
      rewrite V4_resolve_tempo, V4_resolve_fechada, Ht2.
      change (tempo sE) with (tempo sk).
      split; [destruct r; lia|]. repeat split; reflexivity.
  - destruct (V4.INTERVALO_MSG_STATUS <? _); eexists; (split; [reflexivity|]).
    + unfold V4.mensagemStatus.
      destruct (_ && negb _); [|destruct (_ && negb _)];
        (split; [exact H0 | reflexivity]).
    + split; [exact H0 | reflexivity].
Qed.

(** X10 at work: a vehicle that stays in front of the entry sensor, button
    pressed, until the entry wait runs out. *)
Lemma V4_loop_retorna_exemplo :
  exists s' : V4.Est,
    V4.loop 3002 (mundo_passagem_V4 50000 60000) (V4_ocioso 0 7) = Some s' /\
    tempo (V4_ocioso 0 7) + 4000 <= tempo s' <= tempo (V4_ocioso 0 7) + 66520 /\
    V4.estadoCancelaAberta (vars s') = false /\
    V4.timeoutEntradaOcorrido (vars s') = false /\
    V4.timeoutSaidaOcorrido (vars s') = false.
Proof.
  exact (V4_loop_retorna 3002 (mundo_passagem_V4 50000 60000) (V4_ocioso 0 7)
           (le_n _) eq_refl).
Defined.

(** ** Beyond the claims: the manual mode of V4.ino *)

Lemma V4_manual_tique_casos (w : Mundo) (ja : bool) (s : V4.Est) :
  V4.gerenciarModoManual_tique w (ja, s) =
  if digitalRead w V4.pinoChaveManual s
  then Segue (true,
              delay 10
                (V4_mensagem_manual
                   (if ja then s
                    else V4.abrirCancela
                           (println "MODO MANUAL ATIVADO. Abrindo cancela." s))))
  else Fim (ja, s).
Proof.
  unfold V4.gerenciarModoManual_tique, V4_mensagem_manual.
  destruct (digitalRead w V4.pinoChaveManual s); [|reflexivity].
  destruct ja; reflexivity.
Qed.

Lemma V4_salvo_refl (g : V4.Globais) : V4_salvo_cancela_e_status g g.
Proof. repeat split. Qed.

Lemma V4_salvo_trans (g1 g2 g3 : V4.Globais) :
  V4_salvo_cancela_e_status g1 g2 -> V4_salvo_cancela_e_status g2 g3 ->
  V4_salvo_cancela_e_status g1 g3.
Proof.
  unfold V4_salvo_cancela_e_status.
  intros (A1 & A2 & A3 & A4 & A5 & A6 & A7) (B1 & B2 & B3 & B4 & B5 & B6 & B7).
  repeat split; congruence.
Qed.

Lemma V4_mensagem_manual_fatos (s : V4.Est) :
  tempo (V4_mensagem_manual s) = tempo s /\
  eeprom (placa (V4_mensagem_manual s)) = eeprom (placa s) /\
  V4.estadoCancelaAberta (vars (V4_mensagem_manual s))
  = V4.estadoCancelaAberta (vars s) /\
  V4_salvo_cancela_e_status (vars s) (vars (V4_mensagem_manual s)) /\
  ultimoServo (saidas (V4_mensagem_manual s)) = ultimoServo (saidas s).
Proof.
  unfold V4_mensagem_manual.
  destruct (_ <? _).
  - split; [reflexivity|]. split; [reflexivity|]. split; [reflexivity|].
    split; [repeat split|].
    change (ultimoServo (saidas s ++ [(tempo s, SerialPrintln "Sistema em modo de operação manual...")])
            = ultimoServo (saidas s)).
    now rewrite ultimoServo_app.
  - split; [reflexivity|]. split; [reflexivity|]. split; [reflexivity|].
    split; [apply V4_salvo_refl | reflexivity].
Qed.

Lemma V4_fecharCancela_saidas (s : V4.Est) :
  ultimoServo (saidas (V4.fecharCancela s)) = Some V4.SERVO_POSICAO_FECHADA.
Proof.
  change (saidas (V4.fecharCancela s))
    with ((((((saidas s ++ [(tempo s, DigitalWrite V4.pinoLedAmarelo LOW)])
              ++ [(tempo s, DigitalWrite V4.pinoLedVerde LOW)])
             ++ [(tempo s, DigitalWrite V4.pinoLedVermelho HIGH)])
            ++ [(tempo s, ServoWrite V4.SERVO_POSICAO_FECHADA)])
           ++ [(tempo s, SerialPrintln "-> Cancela fechada.\n")])).
  rewrite <- !app_assoc. rewrite ultimoServo_app. reflexivity.
Qed.

(** The manual mode while the switch stays on, once the gate has been opened:
    it goes round every 10 ms and touches nothing but the status line. *)
Lemma V4_manual_espera (w : Mundo) (k n : nat) (s : V4.Est) :
  (forall j : nat, (j < k)%nat ->
     nivel w V4.pinoChaveManual (tempo s + 10 * Z.of_nat j) = true) ->
  exists sk : V4.Est,
    enquanto (k + n) (V4.gerenciarModoManual_tique w) (true, s) =
    enquanto n (V4.gerenciarModoManual_tique w) (true, sk) /\
    tempo sk = tempo s + 10 * Z.of_nat k /\
    eeprom (placa sk) = eeprom (placa s) /\
    V4.estadoCancelaAberta (vars sk) = V4.estadoCancelaAberta (vars s) /\
    V4_salvo_cancela_e_status (vars s) (vars sk) /\
    ultimoServo (saidas sk) = ultimoServo (saidas s).
Proof.
  revert s. induction k as [|k IH]; intros s Hp.
  - exists s. split; [reflexivity|]. split; [simpl; lia|].
    split; [reflexivity|]. split; [reflexivity|].
    split; [apply V4_salvo_refl | reflexivity].
  - cbn [Nat.add enquanto]. rewrite V4_manual_tique_casos. unfold digitalRead.
    pose proof (Hp 0%nat ltac:(lia)) as H0.
    rewrite Z.mul_0_r, Z.add_0_r in H0. rewrite H0.
    destruct (V4_mensagem_manual_fatos s) as (Mt & Me & Mc & Mv & Ms).
    destruct (IH (delay 10 (V4_mensagem_manual s)))
      as (sk & He & Ht & Hee & Hc & Hv & Hs).
    { intros j Hj. rewrite tempo_delay, Mt.
      replace (tempo s + 10 + 10 * Z.of_nat j)
        with (tempo s + 10 * Z.of_nat (S j)) by lia.
      apply Hp. lia. }
    exists sk. split; [exact He|].
    rewrite tempo_delay, Mt in Ht. rewrite eeprom_delay, Me in Hee.
    rewrite vars_delay in Hc, Hv. rewrite saidas_delay, Ms in Hs.
    split; [lia|]. split; [exact Hee|]. split; [congruence|].
    split; [exact (V4_salvo_trans _ _ _ Mv Hv) | exact Hs].
Qed.

Lemma V4_manual_preso (w : Mundo) (n : nat) (e : bool * V4.Est) :
  (forall t : Z, tempo (snd e) <= t -> nivel w V4.pinoChaveManual t = true) ->
  enquanto n (V4.gerenciarModoManual_tique w) e = None.
Proof.
  revert e. induction n as [|n IH]; intros [ja s] Hp; [reflexivity|].
  cbn [enquanto]. rewrite V4_manual_tique_casos. unfold digitalRead.
  rewrite (Hp (tempo s)) by (simpl; lia).
  apply IH. intros t Ht. apply Hp. cbn [snd] in *.
  rewrite tempo_delay in Ht.
  destruct (V4_mensagem_manual_fatos
              (if ja then s
               else V4.abrirCancela
                      (println "MODO MANUAL ATIVADO. Abrindo cancela." s)))
    as (Mt & _).
  rewrite Mt in Ht.
  destruct ja; [lia|].
  rewrite V4_abrirCancela_tempo, tempo_println in Ht. lia.
Qed.

(** X11.  The manual mode of V4.ino, entered from [loop]: with the switch
    found on when [loop] tests it, and found off on the poll number [k]
    after the gate has opened, [loop] returns 1000 + 10 k ms after it was
    entered, with the gate closed again.  Whatever stood at the sensors
    meanwhile, no ticket was issued: the count, its copy in the EEPROM, the
    dates and the timeout flags are those [loop] had before the switch was
    tested. *)
Theorem V4_modo_manual (w : Mundo) (k n : nat) (s : V4.Est) :
  let s0 := V4.verificacaoResetDiario (V4.sincronizarDataHora w s) in
  nivel w V4.pinoChaveManual (tempo s) = true ->
  (forall j : nat, (1 <= j < k)%nat ->
     nivel w V4.pinoChaveManual (tempo s + 500 + 10 * Z.of_nat j) = true) ->
  nivel w V4.pinoChaveManual (tempo s + 500 + 10 * Z.of_nat k) = false ->
  (1 <= k)%nat -> (k < n)%nat ->
  exists s' : V4.Est,
    V4.loop n w s = Some s' /\
    tempo s' = tempo s + 1000 + 10 * Z.of_nat k /\
    V4.estadoCancelaAberta (vars s') = false /\
    ultimoServo (saidas s') = Some V4.SERVO_POSICAO_FECHADA /\
    eeprom (placa s') = eeprom (placa s0) /\
    V4_salvo_cancela_e_status (vars s0) (vars s').
Proof.
  intros s0 H0 Hp Hk Hk1 Hkn.
  pose proof (V4_inicio_tempo w s) as Ht0. fold s0 in Ht0.
  assert (Hrun : exists sk : V4.Est,
             enquanto n (V4.gerenciarModoManual_tique w) (false, s0)
             = Some (None, (true, sk)) /\
             tempo sk = tempo s + 500 + 10 * Z.of_nat k /\
             eeprom (placa sk) = eeprom (placa s0) /\
             V4_salvo_cancela_e_status (vars s0) (vars sk)).
  { replace n with (S ((k - 1) + S (n - k - 1)))%nat by lia.
    cbn [enquanto]. rewrite V4_manual_tique_casos.
    unfold digitalRead. rewrite Ht0, H0. cbv iota.
    set (sA := V4.abrirCancela _).
    destruct (V4_mensagem_manual_fatos sA) as (Mt & Me & Mc & Mv & Ms).
    assert (HA : tempo sA = tempo s + 500)
      by (unfold sA; rewrite V4_abrirCancela_tempo, tempo_println; lia).
    destruct (V4_manual_espera w (k - 1) (S (n - k - 1))
                (delay 10 (V4_mensagem_manual sA)))
      as (sk & He & Ht & Hee & Hc & Hv & Hs).
    { intros j Hj. rewrite tempo_delay, Mt, HA.
      replace (tempo s + 500 + 10 + 10 * Z.of_nat j)
        with (tempo s + 500 + 10 * Z.of_nat (S j)) by lia.
      apply Hp. lia. }
    exists sk.
    rewrite tempo_delay, Mt, HA in Ht.
    assert (Ht' : tempo sk = tempo s + 500 + 10 * Z.of_nat k) by lia.
    split.
    { etransitivity; [exact He|].
      cbn [enquanto]. rewrite V4_manual_tique_casos.
      unfold digitalRead. rewrite Ht', Hk. reflexivity. }
    split; [exact Ht'|].
    split; [rewrite Hee, eeprom_delay, Me; reflexivity|].
    rewrite vars_delay in Hv.
    apply (V4_salvo_trans _ (vars (V4_mensagem_manual sA))); [|exact Hv].
    apply (V4_salvo_trans _ (vars sA)); [repeat split | exact Mv]. }
  destruct Hrun as (sk & Hrun & Ht & Hee & Hv).
  exists (V4.fecharCancela (println "MODO MANUAL DESATIVADO. Fechando cancela." sk)).
  split.
  { unfold V4.loop. fold s0. unfold digitalRead. rewrite Ht0, H0.
    cbn [Bool.eqb HIGH]. unfold V4.gerenciarModoManual.
    rewrite Hrun. reflexivity. }
  rewrite V4_fecharCancela_tempo, tempo_println, Ht.
  split; [lia|]. split; [reflexivity|].
  split; [apply V4_fecharCancela_saidas|].
  split.
  - rewrite V4_fecharCancela_eeprom. exact Hee.
  - apply (V4_salvo_trans _ (vars sk)); [exact Hv | repeat split].
Qed.

(** X11 at work: the switch is turned off 2 s after boot, with a vehicle at
    the entry sensor and the button pressed all the while. *)
Lemma V4_modo_manual_exemplo :
  exists s' : V4.Est,
    V4.loop 200 (mundo_manual 2000) (V4_ocioso 0 7) = Some s' /\
    tempo s' = tempo (V4_ocioso 0 7) + 1000 + 10 * Z.of_nat 150 /\
    V4.estadoCancelaAberta (vars s') = false /\
    ultimoServo (saidas s') = Some V4.SERVO_POSICAO_FECHADA /\
    eeprom (placa s')
    = eeprom (placa (V4.verificacaoResetDiario
                       (V4.sincronizarDataHora (mundo_manual 2000) (V4_ocioso 0 7)))) /\
    V4_salvo_cancela_e_status
      (vars (V4.verificacaoResetDiario
               (V4.sincronizarDataHora (mundo_manual 2000) (V4_ocioso 0 7))))
      (vars s').
Proof.
  apply (V4_modo_manual (mundo_manual 2000) 150 200 (V4_ocioso 0 7)).
  - reflexivity.
  - intros j Hj. unfold mundo_manual, mundoDe, nivel, V4_ocioso, tempo.
    cbn [placa agora]. rewrite Z.eqb_refl. apply Z.ltb_lt. lia.
  - reflexivity.
  - lia.
  - lia.
Defined.

(** X12.  The manual mode of V4.ino has no way out but the switch: while the
    switch stays on, [loop] does not return, however many passes its loop is
    given. *)
Theorem V4_modo_manual_sem_fim (w : Mundo) (n : nat) (s : V4.Est) :
  (forall t : Z, tempo s <= t -> nivel w V4.pinoChaveManual t = true) ->
  V4.loop n w s = None.
Proof.
  intros Hp.
  pose proof (V4_inicio_tempo w s) as Ht0.
  unfold V4.loop, digitalRead. rewrite Ht0, (Hp (tempo s)) by lia.
  cbn [Bool.eqb HIGH]. unfold V4.gerenciarModoManual.
  rewrite V4_manual_preso; [reflexivity|].
  intros t Ht. apply Hp. cbn [snd] in Ht. lia.
Qed.

(** X12 at work: every input HIGH for ever. *)
Lemma V4_modo_manual_sem_fim_exemplo :
  V4.loop 5000 mundo_tudo_ativo (V4_ocioso 0 7) = None.
Proof.
  apply (V4_modo_manual_sem_fim mundo_tudo_ativo 5000 (V4_ocioso 0 7)).
  intros t _. reflexivity.
Defined.

(** ** Beyond the claims: the count of V4.ino and its copy in the EEPROM *)

Lemma V4_manual_percorre (w : Mundo) (e ek : bool * V4.Est) :
  percorre (V4.gerenciarModoManual_tique w) e ek ->
  eeprom (placa (snd ek)) = eeprom (placa (snd e)) /\
  V4_salvo_cancela_e_status (vars (snd e)) (vars (snd ek)).
Proof.
  induction 1 as [e|[ja s] e1 e2 Hs _ (IHe & IHv)].
  - split; [reflexivity | apply V4_salvo_refl].
  - rewrite V4_manual_tique_casos in Hs.
    destruct (digitalRead w V4.pinoChaveManual s); [|discriminate].
    injection Hs as <-. cbn [snd] in *.
    match type of IHe with
    | context [V4_mensagem_manual ?x] =>
        destruct (V4_mensagem_manual_fatos x) as (_ & Me & _ & Mv & _)
    end.
    rewrite eeprom_delay, Me in IHe. rewrite vars_delay in IHv.
    split.
    + rewrite IHe. destruct ja; reflexivity.
    + eapply V4_salvo_trans; [|exact IHv].
      eapply V4_salvo_trans; [|exact Mv].
      destruct ja; repeat split.
Qed.

Lemma V4_gerenciarModoManual_salvo (n : nat) (w : Mundo) (s s' : V4.Est) :
  V4.gerenciarModoManual n w s = Some s' ->
  eeprom (placa s') = eeprom (placa s) /\
  V4_salvo_cancela_e_status (vars s) (vars s').
Proof.
  unfold V4.gerenciarModoManual, liga.
  destruct (enquanto n _ _) as [[r [ja s1]]|] eqn:El; [|discriminate].
  apply enquanto_inv in El. destruct El as ([jk sk] & Hp & Hk).
  apply V4_manual_percorre in Hp. cbn [snd] in Hp. destruct Hp as (He & Hv).
  rewrite V4_manual_tique_casos in Hk.
  destruct (digitalRead w V4.pinoChaveManual sk); [destruct r; discriminate|].
  destruct r; [discriminate|]. injection Hk as <- <-.
  intros H. injection H as <-.
  split; [rewrite V4_fecharCancela_eeprom; exact He|].
  eapply V4_salvo_trans; [exact Hv | repeat split].
Qed.

Lemma V4_set_timeoutEntrada_contador (b : bool) (s : V4.Est) :
  V4.contadorVeiculosDia (vars (V4.set_timeoutEntradaOcorrido b s))
  = V4.contadorVeiculosDia (vars s).
Proof. reflexivity. Qed.

Lemma V4_set_timeoutSaida_contador (b : bool) (s : V4.Est) :
  V4.contadorVeiculosDia (vars (V4.set_timeoutSaidaOcorrido b s))
  = V4.contadorVeiculosDia (vars s).
Proof. reflexivity. Qed.

Lemma V4_admissao_contador (w : Mundo) (s0 : V4.Est) :
  V4.contadorVeiculosDia
    (vars (V4.abrirCancela
             (V4.emitirTicket w
                (println "Veículo na posição e botão pressionado. Iniciando processo de entrada." s0))))
  = mais1_ui (V4.contadorVeiculosDia (vars s0)) /\
  eeprom
    (placa (V4.abrirCancela
              (V4.emitirTicket w
                 (println "Veículo na posição e botão pressionado. Iniciando processo de entrada." s0))))
  = eeprom (placa s0).
Proof.
  split.
  - unfold V4.abrirCancela, V4.emitirTicket, V4.sincronizarDataHora.
    cbn [vars println digitalWrite writeMicroseconds emite delay com_vars
         V4.set_estadoCancelaAberta V4.set_contadorVeiculosDia V4.set_dataAtual
         V4.set_horaAtual V4.primeiraExecucao V4.contadorVeiculosDia].
    destruct (V4.primeiraExecucao (vars s0)); reflexivity.
  - change (eeprom
              (placa (V4.sincronizarDataHora w
                        (println "Veículo na posição e botão pressionado. Iniciando processo de entrada." s0)))
            = eeprom (placa s0)).
    now rewrite V4_sincronizarDataHora_placa.
Qed.

Lemma V4_inicio_persistido (w : Mundo) (s : V4.Est) :
  eeprom (placa s) = V4.contadorVeiculosDia (vars s) ->
  0 <= V4.contadorVeiculosDia (vars s) < UINT_MAX_1 - 1 ->
  let s0 := V4.verificacaoResetDiario (V4.sincronizarDataHora w s) in
  eeprom (placa s0) = V4.contadorVeiculosDia (vars s0) /\
  0 <= V4.contadorVeiculosDia (vars s0) < UINT_MAX_1 - 1.
Proof.
  intros He Hc s0.
  assert (H1 : eeprom (placa (V4.sincronizarDataHora w s))
               = V4.contadorVeiculosDia (vars (V4.sincronizarDataHora w s)) /\
               0 <= V4.contadorVeiculosDia (vars (V4.sincronizarDataHora w s))
                 < UINT_MAX_1 - 1).
  { rewrite V4_sincronizarDataHora_placa.
    replace (V4.contadorVeiculosDia (vars (V4.sincronizarDataHora w s)))
      with (V4.contadorVeiculosDia (vars s)); [auto|].
    unfold V4.sincronizarDataHora. cbv zeta.
    match goal with |- context [if ?b then _ else _] => destruct b end; reflexivity. }
  unfold s0, V4.verificacaoResetDiario.
  destruct (negb _); [|exact H1].
  split; [reflexivity|]. cbn. unfold UINT_MAX_1. lia.
Qed.

Lemma V4_registrarOuReverter_persistido (x : V4.Est) (c : Z) :
  0 <= c < UINT_MAX_1 - 1 ->
  eeprom (placa x) = c ->
  V4.contadorVeiculosDia (vars x) = mais1_ui c ->
  eeprom (placa (V4.registrarOuReverter x))
  = V4.contadorVeiculosDia (vars (V4.registrarOuReverter x)).
Proof.
  intros Hc He Hx. rewrite V4_registrarOuReverter_contador.
  rewrite (mais1_ui_pequeno c Hc) in Hx.
  unfold V4.registrarOuReverter.
  destruct (V4.timeoutEntradaOcorrido (vars x) || V4.timeoutSaidaOcorrido (vars x)).
  - replace (0 <? V4.contadorVeiculosDia (vars x)) with true
      by (symmetry; apply Z.ltb_lt; lia).
    cbn [vars println emite].
    replace (0 <? V4.contadorVeiculosDia (vars x)) with true
      by (symmetry; apply Z.ltb_lt; lia).
    change (eeprom (placa x) = V4.contadorVeiculosDia (vars x) - 1). lia.
  - reflexivity.
Qed.

(** X13.  V4.ino counts a vehicle when its ticket is issued and takes it back
    if the passage fails, and writes the count to the EEPROM only after a
    success.  For a count below 2^32 - 1 the two agree again whenever [loop]
    returns: after a success, after a failure, after the manual mode and
    after an idle pass. *)
Theorem V4_contador_persistido (n : nat) (w : Mundo) (s s' : V4.Est) :
  eeprom (placa s) = V4.contadorVeiculosDia (vars s) ->
  0 <= V4.contadorVeiculosDia (vars s) < UINT_MAX_1 - 1 ->
  V4.loop n w s = Some s' ->
  eeprom (placa s') = V4.contadorVeiculosDia (vars s').
Proof.
  intros He Hc H.
  destruct (V4_inicio_persistido w s He Hc) as (He0 & Hc0).
  unfold V4.loop in H.
  set (s0 := V4.verificacaoResetDiario (V4.sincronizarDataHora w s)) in *.
  destruct (Bool.eqb (digitalRead w V4.pinoChaveManual s0) HIGH).
  - apply V4_gerenciarModoManual_salvo in H. destruct H as (-> & (-> & _)).
    exact He0.
  - destruct (V4.veiculoNaEntrada w s0
              && Bool.eqb (digitalRead w V4.pinoBotaoTicket s0) HIGH).
    + destruct (V4_admissao_contador w s0) as (HAc & HAe).
      set (sA := V4.abrirCancela _) in *.
      unfold liga in H.
      destruct (V4.gerenciarSegurancaEntrada n w sA) as [x1|] eqn:E1; [|discriminate].
      apply V4_entrada_limites in E1.
      destruct E1 as (d1 & sk & _ & _ & Hv1 & Hee1 & [-> | ->]).
      * unfold V4.gerenciarSegurancaSaida in H.
        rewrite V4_timeout_entrada_vars in H.
        change (V4.timeoutEntradaOcorrido
                  (vars (V4.set_timeoutEntradaOcorrido true
                           (V4.set_estadoCancelaAberta false sk)))) with true in H.
        injection H as <-.
        apply (V4_registrarOuReverter_persistido _ _ Hc0).
        -- rewrite V4_timeout_entrada_eeprom. congruence.
        -- rewrite V4_timeout_entrada_vars.
           change (V4.contadorVeiculosDia (vars sk)
                   = mais1_ui (V4.contadorVeiculosDia (vars s0))).
           rewrite Hv1, V4_set_timeoutEntrada_contador. exact HAc.
      * set (sE := println _ sk) in *.
        assert (HE : V4.timeoutEntradaOcorrido (vars sE) = false)
          by (unfold sE; cbn [vars println emite]; now rewrite Hv1).
        destruct (V4.gerenciarSegurancaSaida n w sE) as [x2|] eqn:E2; [|discriminate].
        injection H as <-.
        apply (V4_saida_limites _ _ _ _ HE) in E2.
        destruct E2 as (d2 & r & sk2 & _ & _ & Hv2 & Hee2 & ->).
        apply (V4_registrarOuReverter_persistido _ _ Hc0).
        -- rewrite V4_resolve_eeprom, Hee2.
           change (eeprom (placa sk) = V4.contadorVeiculosDia (vars s0)).
           congruence.
        -- rewrite V4_resolve_contador, Hv2, V4_set_timeoutSaida_contador.
           change (V4.contadorVeiculosDia (vars sk)
                   = mais1_ui (V4.contadorVeiculosDia (vars s0))).
           rewrite Hv1, V4_set_timeoutEntrada_contador. exact HAc.
    + destruct (V4.INTERVALO_MSG_STATUS <? _); injection H as <-; [|exact He0].
      unfold V4.mensagemStatus.
      destruct (_ && negb _); [|destruct (_ && negb _)]; exact He0.
Qed.

(** X13 at work: seven vehicles counted, and an eighth that stays at the
    entry sensor until the wait runs out. *)
Lemma V4_contador_persistido_exemplo :
  eeprom (placa (resultado (V4.loop 3100 (mundo_passagem_V4 50000 60000)
                                   (V4_ocioso 0 7)) (V4_ocioso 0 7)))
  = V4.contadorVeiculosDia
      (vars (resultado (V4.loop 3100 (mundo_passagem_V4 50000 60000)
                               (V4_ocioso 0 7)) (V4_ocioso 0 7))).
Proof.
  apply (V4_contador_persistido 3100 (mundo_passagem_V4 50000 60000) (V4_ocioso 0 7)).
  - reflexivity.
  - cbn. unfold UINT_MAX_1. lia.
  - vm_compute. reflexivity.
Defined.

(** ** Beyond the claims: a whole pass of [loop] of V2.ino *)

Lemma V2_sincronizarRelogio_fatos (w : Mundo) (s : V2.Est) :
  placa (V2.sincronizarRelogio w s) = placa s /\
  V2.contadorVeiculos (vars (V2.sincronizarRelogio w s)) = V2.contadorVeiculos (vars s) /\
  V2.estadoCancelaAberta (vars (V2.sincronizarRelogio w s))
  = V2.estadoCancelaAberta (vars s).
Proof.
  unfold V2.sincronizarRelogio. cbv zeta.
  match goal with |- context [if ?b then _ else _] => destruct b end;
    repeat split; reflexivity.
Qed.

Lemma V2_inicio_tempo (w : Mundo) (s : V2.Est) :
  tempo (V2.resetDiario (V2.sincronizarRelogio w s)) = tempo s.
Proof.
  destruct (V2_sincronizarRelogio_fatos w s) as (Hp & _).
  unfold V2.resetDiario.
  destruct (negb _).
  - change (tempo (V2.sincronizarRelogio w s) = tempo s).
    unfold tempo. now rewrite Hp.
  - unfold tempo. now rewrite Hp.
Qed.

Lemma V2_bips_fatos (n : nat) (s : V2.Est) :
  tempo (repete n V2.bip s) = tempo s + 1000 * Z.of_nat n /\
  vars (repete n V2.bip s) = vars s /\
  eeprom (placa (repete n V2.bip s)) = eeprom (placa s).
Proof.
  revert s. induction n as [|n IH]; intros s.
  - simpl. repeat split; lia.
  - cbn [repete]. destruct (IH (V2.bip s)) as (-> & -> & ->).
    change (tempo (V2.bip s))
      with (tempo s + V2.DURACAO_BIP_BUZZER + V2.DURACAO_BIP_BUZZER).
    unfold V2.DURACAO_BIP_BUZZER. repeat split; lia.
Qed.

Lemma V2_fecharCancela_fatos (y : V2.Est) :
  tempo (V2.fecharCancela y) = tempo y + 500 /\
  V2.estadoCancelaAberta (vars (V2.fecharCancela y)) = false /\
  V2.contadorVeiculos (vars (V2.fecharCancela y)) = V2.contadorVeiculos (vars y) /\
  eeprom (placa (V2.fecharCancela y)) = eeprom (placa y).
Proof. repeat split. Qed.

(** Going round the passage loop of V2.ino once more: 50 ms later, the gate
    still open, nothing else changed but the serial output. *)
Lemma V2_passagem_tique_segue (w : Mundo) (t0 : Z) (p p1 : V2.Passagem) :
  V2.passagem_tique w t0 p = Segue p1 ->
  menos_ul (millis (V2.est p)) t0 <= V2.TIMEOUT_OPERACAO /\
  tempo (V2.est p1) = tempo (V2.est p) + 50 /\
  vars (V2.est p1) = vars (V2.est p) /\
  eeprom (placa (V2.est p1)) = eeprom (placa (V2.est p)) /\
  V2.operacaoCancelada p1 = V2.operacaoCancelada p.
Proof.
  unfold V2.passagem_tique.
  destruct (V2.estadoCancelaAberta (vars (V2.est p))); [|discriminate].
  destruct (V2.TIMEOUT_OPERACAO <? menos_ul (millis (V2.est p)) t0) eqn:Ht;
    [discriminate|].
  apply Z.ltb_ge in Ht.
  destruct (V2.passouPelaEntrada p).
  - destruct (digitalRead w V2.pinoSensorEntrada (V2.est p)); [discriminate|].
    destruct (digitalRead w V2.pinoSensorSaida (V2.est p)); [discriminate|].
    intros H. injection H as <-. auto.
  - destruct (Bool.eqb _ LOW); intros H; injection H as <-; auto.
Qed.

(** Leaving the passage loop of V2.ino with the gate open: through
    [fecharCancela], at most 5 s after the tick, and a cancelled operation
    stays cancelled. *)
Lemma V2_passagem_tique_fim (w : Mundo) (t0 : Z) (p : V2.Passagem) :
  V2.estadoCancelaAberta (vars (V2.est p)) = true ->
  (exists p1, V2.passagem_tique w t0 p = Segue p1) \/
  (exists (c : bool) (y : V2.Est) (d : Z),
     V2.passagem_tique w t0 p
     = Fim (V2.mkPassagem (V2.passouPelaEntrada p) c (V2.fecharCancela y)) /\
     0 <= d <= 5000 /\
     tempo y = tempo (V2.est p) + d /\
     vars y = vars (V2.est p) /\
     eeprom (placa y) = eeprom (placa (V2.est p))).
Proof.
  intros Hg. unfold V2.passagem_tique. rewrite Hg.
  destruct (V2.TIMEOUT_OPERACAO <? menos_ul (millis (V2.est p)) t0).
  - right. unfold V2.acionarAvisoSonoroFechamento.
    eexists _, _, 5000. split; [reflexivity|].
    destruct (V2_bips_fatos (Z.to_nat V2.REPETICOES_AVISO_BUZZER)
                (println ("AVISO: A cancela será fechada em "
                          ++ String_ V2.REPETICOES_AVISO_BUZZER ++ " segundos!\n")%string
                   (println "ERRO: Timeout! O veículo demorou demais para passar."
                      (V2.est p)))) as (-> & -> & ->).
    repeat split; try lia.
  - destruct (V2.passouPelaEntrada p).
    + destruct (digitalRead w V2.pinoSensorEntrada (V2.est p)).
      * right. eexists _, _, 0. split; [reflexivity|].
        repeat split; try lia. unfold println. rewrite tempo_emite. lia.
      * destruct (digitalRead w V2.pinoSensorSaida (V2.est p)).
        -- right. eexists _, _, 2000. split; [reflexivity|].
           repeat split; lia.
        -- left. eauto.
    + destruct (Bool.eqb _ LOW); left; eauto.
Qed.

Lemma V2_passagem_percorre (w : Mundo) (t0 : Z) (p pk : V2.Passagem) :
  percorre (V2.passagem_tique w t0) p pk ->
  exists k : nat,
    tempo (V2.est pk) = tempo (V2.est p) + 50 * Z.of_nat k /\
    vars (V2.est pk) = vars (V2.est p) /\
    eeprom (placa (V2.est pk)) = eeprom (placa (V2.est p)) /\
    V2.operacaoCancelada pk = V2.operacaoCancelada p /\
    (k = 0%nat \/
     menos_ul (millis (V2.est p)) t0 + 50 * Z.of_nat k <= V2.TIMEOUT_OPERACAO + 50).
Proof.
  induction 1 as [p|p p1 p2 Hs _ (k & Ht & Hv & He & Hc & Hb)].
  - exists 0%nat. repeat split; lia.
  - apply V2_passagem_tique_segue in Hs. destruct Hs as (Hle & Ht1 & Hv1 & He1 & Hc1).
    exists (S k). rewrite Ht, Hv, He, Hc, Ht1, Hv1, He1, Hc1.
    split; [lia|]. split; [reflexivity|]. split; [reflexivity|].
    split; [reflexivity|].
    right. destruct Hb as [-> | Hb]; [lia|].
    rewrite (menos_ul_avanca 50 t0 (V2.est p) (V2.est p1)) in Hb;
      unfold V2.TIMEOUT_OPERACAO, ULONG_MAX_1 in *; lia.
Qed.

Lemma V2_passagem_termina (w : Mundo) (t0 : Z) (n : nat) (p : V2.Passagem) :
  V2.TIMEOUT_OPERACAO - menos_ul (millis (V2.est p)) t0 < 50 * Z.of_nat n ->
  exists r, enquanto (S n) (V2.passagem_tique w t0) p = Some r.
Proof.
  revert p. induction n as [|n IH]; intros p He; cbn [enquanto];
    destruct (V2.passagem_tique w t0 p) as [p1|p1|x p1] eqn:Et; eauto;
    apply V2_passagem_tique_segue in Et; destruct Et as (Hle & Ht1 & _).
  - unfold V2.TIMEOUT_OPERACAO in *. lia.
  - apply IH. rewrite (menos_ul_avanca 50 t0 (V2.est p) (V2.est p1));
      unfold V2.TIMEOUT_OPERACAO, ULONG_MAX_1 in *; lia.
Qed.

Lemma V2_admissao_fatos (w : Mundo) (s0 : V2.Est) :
  tempo (V2.abrirCancela (V2.emitirTicket w s0)) = tempo s0 + 3500 /\
  V2.estadoCancelaAberta (vars (V2.abrirCancela (V2.emitirTicket w s0))) = true /\
  V2.contadorVeiculos (vars (V2.abrirCancela (V2.emitirTicket w s0)))
  = V2.contadorVeiculos (vars s0) /\
  eeprom (placa (V2.abrirCancela (V2.emitirTicket w s0))) = eeprom (placa s0).
Proof.
  destruct (V2_sincronizarRelogio_fatos w s0) as (Hp & Hc & _).
  split; [|split; [reflexivity|split]].
  - change (tempo (V2.sincronizarRelogio w s0)
            + V2.DURACAO_IMPRESSAO + V2.TEMPO_MOVIMENTO_CANCELA = tempo s0 + 3500).
    unfold tempo. rewrite Hp.
    unfold V2.DURACAO_IMPRESSAO, V2.TEMPO_MOVIMENTO_CANCELA. lia.
  - change (V2.contadorVeiculos (vars (V2.sincronizarRelogio w s0))
            = V2.contadorVeiculos (vars s0)).
    exact Hc.
  - change (eeprom (placa (V2.sincronizarRelogio w s0)) = eeprom (placa s0)).
    now rewrite Hp.
Qed.

(** X14.  A pass of [loop] of V2.ino always returns.  A pass that admits a
    vehicle returns between 4 and 39.05 s after it was entered (3 s for the
    ticket, 0.5 s to open, at most 30.05 s of passage and at most 5.5 s of
    warning and closing), with the gate closed, and either the count and the
    EEPROM as they were or both one more (modulo 2^32).  Any other pass takes
    no time and leaves the count alone. *)
Theorem V2_loop_retorna (n : nat) (w : Mundo) (s : V2.Est) :
  let s0 := V2.resetDiario (V2.sincronizarRelogio w s) in
  (602 <= n)%nat ->
  exists s' : V2.Est,
    V2.loop n w s = Some s' /\
    if V2.admite w s0
    then tempo s + 4000 <= tempo s' <= tempo s + 39050 /\
         V2.estadoCancelaAberta (vars s') = false /\
         ((V2.contadorVeiculos (vars s') = V2.contadorVeiculos (vars s0) /\
           eeprom (placa s') = eeprom (placa s0)) \/
          (V2.contadorVeiculos (vars s') = mais1_ui (V2.contadorVeiculos (vars s0)) /\
           eeprom (placa s') = mais1_ui (V2.contadorVeiculos (vars s0))))
    else tempo s' = tempo s /\
         V2.contadorVeiculos (vars s') = V2.contadorVeiculos (vars s0) /\
         eeprom (placa s') = eeprom (placa s0).
Proof.
  intros s0 Hn. unfold V2.loop. fold s0.
  pose proof (V2_inicio_tempo w s) as H0. fold s0 in H0.
  destruct (V2.admite w s0).
  - destruct (V2_admissao_fatos w s0) as (HAt & HAg & HAc & HAe).
    set (sA := V2.abrirCancela _) in *.
    destruct (V2_passagem_termina w (millis sA) 601 (V2.mkPassagem false false sA))
      as ([r pf] & Hr).
    { cbn [V2.est]. rewrite menos_ul_inicio. unfold V2.TIMEOUT_OPERACAO. lia. }
    apply (enquanto_le _ _ n) in Hr; [|lia].
    rewrite Hr. cbn [liga].
    apply enquanto_inv in Hr. destruct Hr as (pk & Hp & Hk).
    apply V2_passagem_percorre in Hp.
    destruct Hp as (k & Ht & Hv & He & Hc & Hb). cbn [V2.est V2.operacaoCancelada] in *.
    rewrite menos_ul_inicio in Hb.
    assert (Hk50 : 0 <= 50 * Z.of_nat k <= 30050)
      by (unfold V2.TIMEOUT_OPERACAO in Hb; lia).
    destruct (V2_passagem_tique_fim w (millis sA) pk) as [(p1 & Hs)|(c & y & d & Hf & Hd & Hty & Hvy & Hey)].
    { now rewrite Hv. }
    { rewrite Hs in Hk. destruct r; discriminate. }
    rewrite Hf in Hk. destruct r; [discriminate|]. injection Hk as <-.
    cbn [V2.est V2.operacaoCancelada].
    eexists. split; [reflexivity|].
    destruct (V2_fecharCancela_fatos y) as (Ft & Fg & Fc & Fe).
    assert (Hc0 : V2.contadorVeiculos (vars (V2.fecharCancela y))
                  = V2.contadorVeiculos (vars s0)) by congruence.
    assert (He0 : eeprom (placa (V2.fecharCancela y)) = eeprom (placa s0)) by congruence.
    assert (Ht0 : tempo s + 4000 <= tempo (V2.fecharCancela y) <= tempo s + 39050) by lia.
    unfold V2.atualizacaoContador.
    destruct c; cbn [negb].
    + split; [exact Ht0|]. split; [exact Fg|]. left. split; [exact Hc0 | exact He0].
    + split; [exact Ht0|]. split; [exact Fg|]. right.
      split; [change (mais1_ui (V2.contadorVeiculos (vars (V2.fecharCancela y)))
                      = mais1_ui (V2.contadorVeiculos (vars s0)))
             |change (mais1_ui (V2.contadorVeiculos (vars (V2.fecharCancela y)))
                      = mais1_ui (V2.contadorVeiculos (vars s0)))];
        now rewrite Hc0.
  - destruct (negb _ && _); eexists; (split; [reflexivity|]).
    + destruct (_ && negb _); [|destruct (negb _ && _)];
        (split; [exact H0 | split; reflexivity]).
    + split; [exact H0 | split; reflexivity].
Qed.

(** X14 at work: a vehicle that never leaves the entry sensor. *)
Lemma V2_loop_retorna_exemplo :
  exists s' : V2.Est,
    V2.loop 602 mundo_tudo_ativo (V2_ocioso 0 7) = Some s' /\
    tempo (V2_ocioso 0 7) + 4000 <= tempo s' <= tempo (V2_ocioso 0 7) + 39050 /\
    V2.estadoCancelaAberta (vars s') = false /\
    ((V2.contadorVeiculos (vars s')
      = V2.contadorVeiculos
          (vars (V2.resetDiario (V2.sincronizarRelogio mundo_tudo_ativo (V2_ocioso 0 7)))) /\
      eeprom (placa s')
      = eeprom
          (placa (V2.resetDiario (V2.sincronizarRelogio mundo_tudo_ativo (V2_ocioso 0 7))))) \/
     (V2.contadorVeiculos (vars s')
      = mais1_ui
          (V2.contadorVeiculos
             (vars (V2.resetDiario (V2.sincronizarRelogio mundo_tudo_ativo (V2_ocioso 0 7))))) /\
      eeprom (placa s')
      = mais1_ui
          (V2.contadorVeiculos
             (vars (V2.resetDiario (V2.sincronizarRelogio mundo_tudo_ativo (V2_ocioso 0 7))))))).
Proof.
  exact (V2_loop_retorna 602 mundo_tudo_ativo (V2_ocioso 0 7) (le_n _)).
Defined.

(** ** Beyond the claims: waits that poll at a fixed pace *)

Section Esperas.
Context {G R : Type}.
Variable tique : Z -> Estado G -> Controle (Estado G) R.
Variables passo limite : Z.
Hypothesis passo_positivo : 0 < passo.
Hypothesis limite_pequeno : 0 <= limite /\ limite + passo < ULONG_MAX_1.
Hypothesis tique_segue : forall (t0 : Z) (s s1 : Estado G),
  tique t0 s = Segue s1 -> s1 = delay passo s /\ menos_ul (millis s) t0 <= limite.

Lemma espera_percorre (t0 : Z) (s sk : Estado G) :
  percorre (tique t0) s sk ->
  exists k : nat,
    sk = delay (passo * Z.of_nat k) s /\
    (k = 0%nat \/ menos_ul (millis s) t0 + passo * Z.of_nat k <= limite + passo).
Proof.
  induction 1 as [s|s s1 s2 Hs _ (k & Hk & Hb)].
  - exists 0%nat. split; [now rewrite Z.mul_0_r, delay_0 | now left].
  - apply tique_segue in Hs. destruct Hs as (-> & Hle).
    exists (S k). split.
    + rewrite Hk, delay_delay. f_equal. lia.
    + right. destruct Hb as [-> | Hb]; [lia|].
      rewrite menos_ul_delay_pequeno in Hb; lia.
Qed.

Lemma espera_termina (t0 : Z) (n : nat) (s : Estado G) :
  limite - menos_ul (millis s) t0 < passo * Z.of_nat n ->
  exists r, enquanto (S n) (tique t0) s = Some r.
Proof.
  revert s. induction n as [|n IH]; intros s He; cbn [enquanto];
    destruct (tique t0 s) as [s1|s1|x s1] eqn:Et; eauto;
    apply tique_segue in Et; destruct Et as (-> & Hle).
  - lia.
  - apply IH. rewrite menos_ul_delay_pequeno; lia.
Qed.
End Esperas.

(** ** Beyond the claims: a whole passage of V5 *)

Lemma V5_entrada_tique_segue (w : Mundo) (t0 : Z) (s s1 : V5.Est) :
  V5.monitorarPassagemEntrada_tique w t0 s = Segue s1 ->
  s1 = delay 100 s /\ menos_ul (millis s) t0 <= 30000.
Proof.
  rewrite V5_entrada_tique_casos.
  destruct (_ <=? _); [|discriminate].
  destruct (V5.TIMEOUT_PASSAGEM_VEICULO <? menos_ul (millis s) t0) eqn:Ht;
    [discriminate|].
  apply Z.ltb_ge in Ht. intros H. injection H as <-.
  unfold V5.TIMEOUT_PASSAGEM_VEICULO in Ht. auto.
Qed.

Lemma V5_saida_tique_segue (w : Mundo) (t0 : Z) (s s1 : V5.Est) :
  V5.monitorarSaidaEAntifraude_tique w t0 s = Segue s1 ->
  s1 = delay 100 s /\ menos_ul (millis s) t0 <= 30000.
Proof.
  rewrite V5_saida_tique_casos.
  destruct (V5.DISTANCIA_DETECCAO_CM <? _); [|discriminate].
  destruct (_ <=? _); [discriminate|].
  destruct (V5.TIMEOUT_PASSAGEM_VEICULO <? menos_ul (millis s) t0) eqn:Ht;
    [discriminate|].
  apply Z.ltb_ge in Ht. intros H. injection H as <-.
  unfold V5.TIMEOUT_PASSAGEM_VEICULO in Ht. auto.
Qed.

Lemma V5_piscas_fatos (n : nat) (s : V5.Est) :
  tempo (repete n V5.pisca s) = tempo s + 500 * Z.of_nat n /\
  vars (repete n V5.pisca s) = vars s /\
  eeprom (placa (repete n V5.pisca s)) = eeprom (placa s).
Proof.
  revert s. induction n as [|n IH]; intros s.
  - simpl. repeat split; lia.
  - cbn [repete]. destruct (IH (V5.pisca s)) as (-> & -> & ->).
    change (tempo (V5.pisca s))
      with (tempo s + V5.PERIODO_PISCA_BUZZER_MS / 2 + V5.PERIODO_PISCA_BUZZER_MS / 2).
    change (V5.PERIODO_PISCA_BUZZER_MS / 2) with 250. repeat split; lia.
Qed.

Lemma V5_fecharCancela_fatos (y : V5.Est) :
  tempo (V5.fecharCancela y) = tempo y /\
  V5.contadorVeiculos (vars (V5.fecharCancela y)) = V5.contadorVeiculos (vars y) /\
  eeprom (placa (V5.fecharCancela y)) = eeprom (placa y).
Proof. repeat split. Qed.

Lemma V5_emitirAviso_fatos (s : V5.Est) :
  tempo (V5.emitirAvisoSonoroEFechar s) = tempo s + 5000 /\
  V5.contadorVeiculos (vars (V5.emitirAvisoSonoroEFechar s))
  = V5.contadorVeiculos (vars s) /\
  eeprom (placa (V5.emitirAvisoSonoroEFechar s)) = eeprom (placa s).
Proof.
  unfold V5.emitirAvisoSonoroEFechar.
  match goal with
  | |- context [V5.fecharCancela ?y] =>
      destruct (V5_fecharCancela_fatos y) as (-> & -> & ->)
  end.
  match goal with
  | |- context [repete ?n V5.pisca ?y] =>
      destruct (V5_piscas_fatos n y) as (-> & -> & ->)
  end.
  rewrite tempo_println.
  change (Z.of_nat (Z.to_nat (V5.DURACAO_AVISO_SONORO_S * 2))) with 10.
  split; [lia|]. split; reflexivity.
Qed.

Lemma V5_entrada_tique_dobrado (w : Mundo) (t0 : Z) (s : V5.Est) :
  V5.monitorarPassagemEntrada_tique w t0 s =
  if ultrasonicRead w V5.pinoTrigSensorEntrada s <=? V5.DISTANCIA_DETECCAO_CM then
    if V5.TIMEOUT_PASSAGEM_VEICULO <? menos_ul (millis s) t0
    then Devolve false
           (V5.emitirAvisoSonoroEFechar
              (println "ERRO: Tempo limite de passagem na entrada excedido!" s))
    else Segue (delay 100 s)
  else Fim s.
Proof. reflexivity. Qed.

Lemma V5_saida_tique_dobrado (w : Mundo) (t0 : Z) (s : V5.Est) :
  V5.monitorarSaidaEAntifraude_tique w t0 s =
  if V5.DISTANCIA_DETECCAO_CM <? ultrasonicRead w V5.pinoTrigSensorSaida s then
    if ultrasonicRead w V5.pinoTrigSensorEntrada s <=? V5.DISTANCIA_DETECCAO_CM
    then Devolve false
           (V5.fecharCancela
              (println "ALERTA: Segundo veículo detectado na entrada! Fechando cancela imediatamente." s))
    else if V5.TIMEOUT_PASSAGEM_VEICULO <? menos_ul (millis s) t0
    then Devolve false
           (V5.emitirAvisoSonoroEFechar
              (println "ERRO: Tempo limite de passagem na saída excedido!" s))
    else Segue (delay 100 s)
  else Fim s.
Proof. reflexivity. Qed.

Lemma V5_entrada_limites (n : nat) (w : Mundo) (s s2 : V5.Est) (b : bool) :
  V5.monitorarPassagemEntrada n w s = Some (b, s2) ->
  exists d : Z,
    0 <= d <= 30100 /\
    tempo s2 = tempo s + d + (if b then 0 else 5000) /\
    V5.contadorVeiculos (vars s2) = V5.contadorVeiculos (vars s) /\
    eeprom (placa s2) = eeprom (placa s).
Proof.
  unfold V5.monitorarPassagemEntrada, liga.
  set (sB := println _ s).
  destruct (enquanto n _ _) as [[r s1]|] eqn:El; [|discriminate].
  apply enquanto_inv in El. destruct El as (sk & Hp & Hk).
  apply (espera_percorre _ 100 30000 ltac:(lia)
           ltac:(unfold ULONG_MAX_1; lia) (V5_entrada_tique_segue w)) in Hp.
  destruct Hp as (k & -> & Hb). rewrite menos_ul_inicio in Hb.
  assert (Hd : 0 <= 100 * Z.of_nat k <= 30100) by lia.
  remember (100 * Z.of_nat k) as d eqn:Ed. clear Ed Hb.
  intros H. exists d. split; [lia|].
  rewrite V5_entrada_tique_dobrado in Hk.
  destruct (_ <=? _).
  - destruct (_ <? _).
    + destruct r as [x|]; [|discriminate].
      injection Hk as <- <-. injection H as <- <-.
      destruct (V5_emitirAviso_fatos
                  (println "ERRO: Tempo limite de passagem na entrada excedido!"
                     (delay (d) sB))) as (-> & -> & ->).
      rewrite tempo_println, tempo_delay.
      split; [reflexivity|]. split; reflexivity.
    + destruct r; discriminate.
  - destruct r as [x|]; [discriminate|].
    injection Hk as <-. injection H as <- <-.
    rewrite tempo_println, tempo_delay.
    split; [unfold sB; rewrite tempo_println; lia|]. split; reflexivity.
Qed.

Lemma V5_saida_limites (n : nat) (w : Mundo) (s s2 : V5.Est) (b : bool) :
  V5.monitorarSaidaEAntifraude n w s = Some (b, s2) ->
  exists d : Z,
    0 <= d <= 35100 /\
    tempo s2 = tempo s + d /\
    V5.contadorVeiculos (vars s2) = V5.contadorVeiculos (vars s) /\
    eeprom (placa s2) = eeprom (placa s).
Proof.
  unfold V5.monitorarSaidaEAntifraude, liga.
  set (sB := println _ s).
  destruct (enquanto n _ _) as [[r s1]|] eqn:El; [|discriminate].
  apply enquanto_inv in El. destruct El as (sk & Hp & Hk).
  apply (espera_percorre _ 100 30000 ltac:(lia)
           ltac:(unfold ULONG_MAX_1; lia) (V5_saida_tique_segue w)) in Hp.
  destruct Hp as (k & -> & Hb). rewrite menos_ul_inicio in Hb.
  assert (Hd : 0 <= 100 * Z.of_nat k <= 30100) by lia.
  remember (100 * Z.of_nat k) as d eqn:Ed. clear Ed Hb.
  intros H.
  rewrite V5_saida_tique_dobrado in Hk.
  destruct (V5.DISTANCIA_DETECCAO_CM <? _).
  - destruct (_ <=? _); [|destruct (_ <? _)].
    + destruct r as [x|]; [|discriminate].
      injection Hk as <- <-. injection H as <- <-.
      exists (d). split; [lia|].
      split; [reflexivity|]. split; reflexivity.
    + destruct r as [x|]; [|discriminate].
      injection Hk as <- <-. injection H as <- <-.
      exists (d + 5000). split; [lia|].
      destruct (V5_emitirAviso_fatos
                  (println "ERRO: Tempo limite de passagem na saída excedido!"
                     (delay (d) sB))) as (-> & -> & ->).
      rewrite tempo_println, tempo_delay.
      split; [unfold sB; rewrite tempo_println; lia|]. split; reflexivity.
    + destruct r; discriminate.
  - destruct r as [x|]; [discriminate|].
    injection Hk as <-. injection H as <- <-.
    exists (d + 2000). split; [lia|].
    split; [|split; reflexivity].
    change (tempo sB + d + V5.ATRASO_FECHAMENTO_APOS_SAIDA
            = tempo s + (d + 2000)).
    unfold sB, V5.ATRASO_FECHAMENTO_APOS_SAIDA. rewrite tempo_println. lia.
Qed.

(** Whenever [iniciarProcessoEntradaVeiculo] returns. *)
Lemma V5_iniciarProcesso_limites (n : nat) (w : Mundo) (s s' : V5.Est) :
  V5.iniciarProcessoEntradaVeiculo n w s = Some s' ->
  tempo s + 3000 <= tempo s' <= tempo s + 68200 /\
  eeprom (placa s') = eeprom (placa s) /\
  (V5.contadorVeiculos (vars s') = V5.contadorVeiculos (vars s) \/
   V5.contadorVeiculos (vars s') = mais1_ui (V5.contadorVeiculos (vars s))).
Proof.
  intros H.
  unfold V5.iniciarProcessoEntradaVeiculo in H.
  set (sA := V5.abrirCancela _) in H.
  assert (HA : tempo sA = tempo s + 3000 /\
               V5.contadorVeiculos (vars sA) = V5.contadorVeiculos (vars s) /\
               eeprom (placa sA) = eeprom (placa s)).
  { split; [|split; reflexivity].
    change (tempo s + V5.DURACAO_SIMULACAO_IMPRESSAO / 2
            + V5.DURACAO_SIMULACAO_IMPRESSAO / 2 = tempo s + 3000).
    change (V5.DURACAO_SIMULACAO_IMPRESSAO / 2) with 1500. lia. }
  destruct HA as (HAt & HAc & HAe).
  unfold liga at 1 in H.
  destruct (V5.monitorarPassagemEntrada n w sA) as [[b1 s1]|] eqn:E1; [|discriminate].
  apply V5_entrada_limites in E1. destruct E1 as (d1 & Hd1 & Ht1 & Hc1 & He1).
  destruct b1.
  - unfold liga at 2 in H.
    destruct (V5.monitorarSaidaEAntifraude n w s1) as [[b2 s2]|] eqn:E2;
      [|discriminate].
    apply V5_saida_limites in E2. destruct E2 as (d2 & Hd2 & Ht2 & Hc2 & He2).
    destruct b2; cbn [liga] in H; injection H as <-.
    + rewrite !tempo_println.
      change (tempo (V5.set_contadorVeiculos (mais1_ui (V5.contadorVeiculos (vars s2))) s2))
        with (tempo s2).
      split; [lia|]. split; [change (eeprom (placa s2) = eeprom (placa s)); congruence|].
      right.
      change (mais1_ui (V5.contadorVeiculos (vars s2))
              = mais1_ui (V5.contadorVeiculos (vars s))).
      congruence.
    + rewrite !tempo_println.
      split; [lia|]. split; [change (eeprom (placa s2) = eeprom (placa s)); congruence|].
      left. change (V5.contadorVeiculos (vars s2) = V5.contadorVeiculos (vars s)).
      congruence.
  - cbn [liga] in H. injection H as <-.
    rewrite !tempo_println.
    split; [lia|]. split; [change (eeprom (placa s1) = eeprom (placa s)); congruence|].
    left. change (V5.contadorVeiculos (vars s1) = V5.contadorVeiculos (vars s)).
    congruence.
Qed.

(** X15.  [iniciarProcessoEntradaVeiculo] of V5 always returns, between 3 and
    68.2 s after it was called (3 s for the ticket, at most 30.1 s at each
    sensor, at most 5 s of warning).  The count is then what it was, or one
    more (modulo 2^32); V5 keeps it in RAM only, the EEPROM is not written. *)
Theorem V5_iniciarProcesso_resultado (n : nat) (w : Mundo) (s : V5.Est) :
  (302 <= n)%nat ->
  exists s' : V5.Est,
    V5.iniciarProcessoEntradaVeiculo n w s = Some s' /\
    tempo s + 3000 <= tempo s' <= tempo s + 68200 /\
    eeprom (placa s') = eeprom (placa s) /\
    (V5.contadorVeiculos (vars s') = V5.contadorVeiculos (vars s) \/
     V5.contadorVeiculos (vars s') = mais1_ui (V5.contadorVeiculos (vars s))).
Proof.
  intros Hn.
  destruct (V5_iniciarProcesso_total n w s Hn) as (s' & H).
  exists s'. split; [exact H|].
  exact (V5_iniciarProcesso_limites _ _ _ _ H).
Qed.

(** X15 at work: a vehicle that stays in front of the entry sensor. *)
Lemma V5_iniciarProcesso_resultado_exemplo :
  exists s' : V5.Est,
    V5.iniciarProcessoEntradaVeiculo 302 mundo_so_ultrassom (V5_ocioso 0 7) = Some s' /\
    tempo (V5_ocioso 0 7) + 3000 <= tempo s' <= tempo (V5_ocioso 0 7) + 68200 /\
    eeprom (placa s') = eeprom (placa (V5_ocioso 0 7)) /\
    (V5.contadorVeiculos (vars s') = V5.contadorVeiculos (vars (V5_ocioso 0 7)) \/
     V5.contadorVeiculos (vars s')
     = mais1_ui (V5.contadorVeiculos (vars (V5_ocioso 0 7)))).
Proof.
  exact (V5_iniciarProcesso_resultado 302 mundo_so_ultrassom (V5_ocioso 0 7) (le_n _)).
Defined.

(** ** Beyond the claims: a whole pass of [loop] of V1.ino *)

Lemma V1_saida_tique_casos (w : Mundo) (t0 : Z) (s : V1.Est) :
  V1.gerenciarSaidaVeiculo_tique w t0 s =
  if digitalRead w V1.PINO_SENSOR_SAIDA s then Fim s
  else if digitalRead w V1.PINO_SENSOR_ENTRADA s
  then Devolve false
         (V1.fecharCancela
            (println "ALERTA: Segundo veiculo detectado na entrada! Fechamento imediato!" s))
  else if V1.TIMEOUT_SAIDA_MS <=? menos_ul (millis s) t0
  then Devolve false
         (V1.acionarAlertaEFechar
            (println "ERRO: Timeout na saida. Cancelando operacao." s))
  else Segue (delay 50 s).
Proof.
  unfold V1.gerenciarSaidaVeiculo_tique.
  destruct (digitalRead w V1.PINO_SENSOR_SAIDA s); reflexivity.
Qed.

Lemma V1_entrada_tique_segue (w : Mundo) (t0 : Z) (s s1 : V1.Est) :
  V1.gerenciarEntradaVeiculo_tique w t0 s = Segue s1 ->
  s1 = delay 50 s /\ menos_ul (millis s) t0 <= 29999.
Proof.
  rewrite V1_entrada_tique_casos.
  destruct (digitalRead w V1.PINO_SENSOR_ENTRADA s); [|discriminate].
  destruct (V1.TIMEOUT_ENTRADA_MS <=? menos_ul (millis s) t0) eqn:Ht; [discriminate|].
  apply Z.leb_gt in Ht. intros H. injection H as <-.
  unfold V1.TIMEOUT_ENTRADA_MS in Ht. split; [reflexivity | lia].
Qed.

Lemma V1_saida_tique_segue (w : Mundo) (t0 : Z) (s s1 : V1.Est) :
  V1.gerenciarSaidaVeiculo_tique w t0 s = Segue s1 ->
  s1 = delay 50 s /\ menos_ul (millis s) t0 <= 29999.
Proof.
  rewrite V1_saida_tique_casos.
  destruct (digitalRead w V1.PINO_SENSOR_SAIDA s); [discriminate|].
  destruct (digitalRead w V1.PINO_SENSOR_ENTRADA s); [discriminate|].
  destruct (V1.TIMEOUT_SAIDA_MS <=? menos_ul (millis s) t0) eqn:Ht; [discriminate|].
  apply Z.leb_gt in Ht. intros H. injection H as <-.
  unfold V1.TIMEOUT_SAIDA_MS in Ht. split; [reflexivity | lia].
Qed.

Lemma V1_bips_fatos (n : nat) (s : V1.Est) :
  tempo (repete n V1.bip s) = tempo s + 500 * Z.of_nat n /\
  vars (repete n V1.bip s) = vars s.
Proof.
  revert s. induction n as [|n IH]; intros s.
  - simpl. split; [lia | reflexivity].
  - cbn [repete]. destruct (IH (V1.bip s)) as (-> & ->).
    change (tempo (V1.bip s))
      with (tempo s + V1.INTERVALO_BEEP_BUZZER_MS / 2 + V1.INTERVALO_BEEP_BUZZER_MS / 2).
    change (V1.INTERVALO_BEEP_BUZZER_MS / 2) with 250. split; [lia | reflexivity].
Qed.

Lemma V1_fecharCancela_fatos (y : V1.Est) :
  tempo (V1.fecharCancela y) = tempo y + 500 /\
  V1.cancelaAberta (vars (V1.fecharCancela y)) = false /\
  V1.contagemVeiculos (vars (V1.fecharCancela y)) = V1.contagemVeiculos (vars y).
Proof. repeat split. Qed.

Lemma V1_acionarAlerta_fatos (s : V1.Est) :
  tempo (V1.acionarAlertaEFechar s) = tempo s + 3000 /\
  V1.cancelaAberta (vars (V1.acionarAlertaEFechar s)) = false /\
  V1.contagemVeiculos (vars (V1.acionarAlertaEFechar s)) = V1.contagemVeiculos (vars s).
Proof.
  unfold V1.acionarAlertaEFechar.
  match goal with
  | |- context [V1.fecharCancela ?y] =>
      destruct (V1_fecharCancela_fatos y) as (-> & -> & ->)
  end.
  match goal with
  | |- context [repete ?n V1.bip ?y] =>
      destruct (V1_bips_fatos n y) as (-> & ->)
  end.
  change (Z.of_nat (Z.to_nat V1.DURACAO_ALERTA_SEGUNDOS)) with 5.
  split; [|split; reflexivity].
  rewrite tempo_println. unfold print. rewrite !tempo_emite. lia.
Qed.

(** Every way out of the two supervisors of V1.ino, with the time they took.
    A failure leaves the gate closed; so does a success of the exit
    supervisor. *)
Lemma V1_entrada_limites (n : nat) (w : Mundo) (s s2 : V1.Est) (b : bool) :
  V1.gerenciarEntradaVeiculo n w s = Some (b, s2) ->
  exists d : Z,
    0 <= d <= 30000 /\
    tempo s2 = tempo s + d + (if b then 0 else 3000) /\
    V1.contagemVeiculos (vars s2) = V1.contagemVeiculos (vars s) /\
    (b = false -> V1.cancelaAberta (vars s2) = false).
Proof.
  unfold V1.gerenciarEntradaVeiculo, liga.
  set (sB := println _ s).
  destruct (enquanto n _ _) as [[r s1]|] eqn:El; [|discriminate].
  apply enquanto_inv in El. destruct El as (sk & Hp & Hk).
  apply (espera_percorre _ 50 29999 ltac:(lia)
           ltac:(unfold ULONG_MAX_1; lia) (V1_entrada_tique_segue w)) in Hp.
  destruct Hp as (k & -> & Hb).
  change (millis s) with (millis sB) in Hb. rewrite menos_ul_inicio in Hb.
  assert (Hd : 0 <= 50 * Z.of_nat k <= 30000) by lia.
  remember (50 * Z.of_nat k) as d eqn:Ed. clear Ed Hb.
  intros H. exists d. split; [lia|].
  rewrite V1_entrada_tique_casos in Hk.
  destruct (digitalRead w V1.PINO_SENSOR_ENTRADA _).
  - destruct (_ <=? _).
    + destruct r as [x|]; [|discriminate].
      injection Hk as <- <-. injection H as <- <-.
      destruct (V1_acionarAlerta_fatos
                  (println "ERRO: Timeout na entrada. Cancelando operacao."
                     (delay d sB))) as (-> & -> & ->).
      rewrite tempo_println, tempo_delay.
      split; [unfold sB; rewrite tempo_println; lia|]. split; [reflexivity | auto].
    + destruct r; discriminate.
  - destruct r as [x|]; [discriminate|].
    injection Hk as <-. injection H as <- <-.
    rewrite tempo_println, tempo_delay.
    split; [unfold sB; rewrite tempo_println; lia|].
    split; [reflexivity | discriminate].
Qed.

Lemma V1_saida_limites (n : nat) (w : Mundo) (s s2 : V1.Est) (b : bool) :
  V1.gerenciarSaidaVeiculo n w s = Some (b, s2) ->
  exists d : Z,
    500 <= d <= 33000 /\
    tempo s2 = tempo s + d /\
    V1.contagemVeiculos (vars s2) = V1.contagemVeiculos (vars s) /\
    V1.cancelaAberta (vars s2) = false.
Proof.
  unfold V1.gerenciarSaidaVeiculo, liga.
  set (sB := println _ s).
  destruct (enquanto n _ _) as [[r s1]|] eqn:El; [|discriminate].
  apply enquanto_inv in El. destruct El as (sk & Hp & Hk).
  apply (espera_percorre _ 50 29999 ltac:(lia)
           ltac:(unfold ULONG_MAX_1; lia) (V1_saida_tique_segue w)) in Hp.
  destruct Hp as (k & -> & Hb).
  change (millis s) with (millis sB) in Hb. rewrite menos_ul_inicio in Hb.
  assert (Hd : 0 <= 50 * Z.of_nat k <= 30000) by lia.
  remember (50 * Z.of_nat k) as d eqn:Ed. clear Ed Hb.
  intros H.
  assert (HB : tempo sB = tempo s) by reflexivity.
  rewrite V1_saida_tique_casos in Hk.
  destruct (digitalRead w V1.PINO_SENSOR_SAIDA _).
  - destruct r as [x|]; [discriminate|].
    injection Hk as <-. injection H as <- <-.
    exists (d + 2500). split; [lia|].
    match goal with
    | |- context [V1.fecharCancela ?y] =>
        destruct (V1_fecharCancela_fatos y) as (-> & -> & ->)
    end.
    rewrite tempo_delay, tempo_println, tempo_delay, HB.
    unfold V1.ATRASO_POS_SAIDA_MS. split; [lia|]. split; reflexivity.
  - destruct (digitalRead w V1.PINO_SENSOR_ENTRADA _); [|destruct (_ <=? _)].
    + destruct r as [x|]; [|discriminate].
      injection Hk as <- <-. injection H as <- <-.
      exists (d + 500). split; [lia|].
      match goal with
      | |- context [V1.fecharCancela ?y] =>
          destruct (V1_fecharCancela_fatos y) as (-> & -> & ->)
      end.
      rewrite tempo_println, tempo_delay, HB. split; [lia|]. split; reflexivity.
    + destruct r as [x|]; [|discriminate].
      injection Hk as <- <-. injection H as <- <-.
      exists (d + 3000). split; [lia|].
      destruct (V1_acionarAlerta_fatos
                  (println "ERRO: Timeout na saida. Cancelando operacao."
                     (delay d sB))) as (-> & -> & ->).
      rewrite tempo_println, tempo_delay, HB. split; [lia|]. split; reflexivity.
    + destruct r; discriminate.
Qed.

Lemma V1_supervisores_total (n : nat) (w : Mundo) (s : V1.Est) :
  (601 <= n)%nat ->
  (exists b s2, V1.gerenciarEntradaVeiculo n w s = Some (b, s2)) /\
  (exists b s2, V1.gerenciarSaidaVeiculo n w s = Some (b, s2)).
Proof.
  intros Hn. split.
  - unfold V1.gerenciarEntradaVeiculo, liga.
    set (sB := println _ s).
    destruct (espera_termina _ 50 29999 ltac:(lia)
                ltac:(unfold ULONG_MAX_1; lia) (V1_entrada_tique_segue w)
                (millis s) 600 sB) as ([r s1] & Hr).
    { change (millis s) with (millis sB). rewrite menos_ul_inicio. lia. }
    apply (enquanto_le _ _ n) in Hr; [|lia].
    unfold V1.Est in *. rewrite Hr. destruct r; eauto.
  - unfold V1.gerenciarSaidaVeiculo, liga.
    set (sB := println _ s).
    destruct (espera_termina _ 50 29999 ltac:(lia)
                ltac:(unfold ULONG_MAX_1; lia) (V1_saida_tique_segue w)
                (millis s) 600 sB) as ([r s1] & Hr).
    { change (millis s) with (millis sB). rewrite menos_ul_inicio. lia. }
    apply (enquanto_le _ _ n) in Hr; [|lia].
    unfold V1.Est in *. rewrite Hr. destruct r; eauto.
Qed.

Lemma V1_reset24h_fatos (s : V1.Est) :
  tempo (V1_reset24h s) = tempo s /\
  V1.cancelaAberta (vars (V1_reset24h s)) = V1.cancelaAberta (vars s).
Proof. unfold V1_reset24h. destruct (_ <=? _); split; reflexivity. Qed.

(** X16.  A pass of [loop] of V1.ino always returns.  A pass that admits a
    vehicle returns between 4 and 66.5 s after it was entered (3 s for the
    ticket, 0.5 s to open, at most 30 s at each sensor, at most 3 s of alert
    and closing), with the gate closed and the count of after the 24 h check
    kept or raised by one (modulo 2^32): raised only if both supervisors
    succeeded.  Any other pass takes no time and leaves gate and count
    alone. *)
Theorem V1_loop_retorna (n : nat) (w : Mundo) (s : V1.Est) :
  let s0 := V1_reset24h s in
  (601 <= n)%nat ->
  exists s' : V1.Est,
    V1.loop n w s = Some s' /\
    if digitalRead w V1.PINO_SENSOR_ENTRADA s0 && digitalRead w V1.PINO_BOTAO s0
    then tempo s + 4000 <= tempo s' <= tempo s + 66500 /\
         V1.cancelaAberta (vars s') = false /\
         (V1.contagemVeiculos (vars s') = V1.contagemVeiculos (vars s0) \/
          V1.contagemVeiculos (vars s') = mais1_ui (V1.contagemVeiculos (vars s0)))
    else tempo s' = tempo s /\
         V1.cancelaAberta (vars s') = V1.cancelaAberta (vars s0) /\
         V1.contagemVeiculos (vars s') = V1.contagemVeiculos (vars s0).
Proof.
  intros s0 Hn.
  change (V1.loop n w s) with
    (if digitalRead w V1.PINO_SENSOR_ENTRADA s0 && digitalRead w V1.PINO_BOTAO s0 then
       let s := println "\n--- INICIO DA SEQUENCIA DE ENTRADA ---" s0 in
       let s := V1.simularImpressaoTicket w s in
       let s := V1.abrirCancela s in
       '(entradaOK, s) <- V1.gerenciarEntradaVeiculo n w s ;;
       '(saidaOK, s) <- (if (entradaOK : bool) then V1.gerenciarSaidaVeiculo n w s
                         else Some (false, s)) ;;
       let s :=
         if entradaOK && saidaOK then
           let s := V1.set_contagemVeiculos (mais1_ui (V1.contagemVeiculos (vars s))) s in
           let s := println "SUCESSO: Veiculo processado e registrado." s in
           let s := print "Total de veiculos hoje: " s in
           println (String_ (V1.contagemVeiculos (vars s))) s
         else println "FALHA: Operacao cancelada ou falhou. Veiculo nao registrado." s in
       let s := println "--- FIM DA SEQUENCIA --- \n\nSistema pronto para o proximo veiculo.\n" s in
       Some (V1.set_ultimoUpdateStatus (millis s) s)
     else if V1.INTERVALO_STATUS_MS
             <=? menos_ul (millis s) (V1.ultimoUpdateStatus (vars s0))
     then Some (V1.exibirStatusOcioso w s0)
     else Some s0).
  destruct (V1_reset24h_fatos s) as (H0 & _). fold s0 in H0.
  destruct (digitalRead w V1.PINO_SENSOR_ENTRADA s0 && digitalRead w V1.PINO_BOTAO s0).
  - cbv zeta.
    set (sA := V1.abrirCancela _).
    assert (HA : tempo sA = tempo s + 3500 /\
                 V1.contagemVeiculos (vars sA) = V1.contagemVeiculos (vars s0)).
    { split; [|reflexivity].
      change (tempo s0 + V1.ATRASO_IMPRESSAO_TICKET_MS + V1.ATRASO_IMPRESSAO_TICKET_MS
              + V1.ATRASO_OPERACAO_CANCELA_MS = tempo s + 3500).
      unfold V1.ATRASO_IMPRESSAO_TICKET_MS, V1.ATRASO_OPERACAO_CANCELA_MS. lia. }
    destruct HA as (HAt & HAc).
    destruct (proj1 (V1_supervisores_total n w sA Hn)) as (b1 & s1 & E1).
    rewrite E1. cbn [liga].
    apply V1_entrada_limites in E1. destruct E1 as (d1 & Hd1 & Ht1 & Hc1 & Hg1).
    destruct b1.
    + destruct (proj2 (V1_supervisores_total n w s1 Hn)) as (b2 & s2 & E2).
      rewrite E2. cbn [liga].
      apply V1_saida_limites in E2. destruct E2 as (d2 & Hd2 & Ht2 & Hc2 & Hg2).
      eexists. split; [reflexivity|].
      destruct b2; cbn [andb].
      * split; [|split; [exact Hg2|]].
        -- change (tempo s + 4000 <= tempo s2 <= tempo s + 66500). lia.
        -- right.
           change (mais1_ui (V1.contagemVeiculos (vars s2))
                   = mais1_ui (V1.contagemVeiculos (vars s0))).
           congruence.
      * split; [|split; [exact Hg2|]].
        -- change (tempo s + 4000 <= tempo s2 <= tempo s + 66500). lia.
        -- left. change (V1.contagemVeiculos (vars s2) = V1.contagemVeiculos (vars s0)).
           congruence.
    + cbn [liga andb]. eexists. split; [reflexivity|].
      split; [|split; [exact (Hg1 eq_refl)|]].
      * change (tempo s + 4000 <= tempo s1 <= tempo s + 66500). lia.
      * left. change (V1.contagemVeiculos (vars s1) = V1.contagemVeiculos (vars s0)).
        congruence.
  - destruct (V1.INTERVALO_STATUS_MS <=? _); eexists; (split; [reflexivity|]).
    + unfold V1.exibirStatusOcioso.
      destruct (negb _ && _); [|destruct (_ && negb _)];
        (split; [exact H0 | split; reflexivity]).
    + split; [exact H0 | split; reflexivity].
Qed.

(** X16 at work: a vehicle that leaves the entry sensor after 5 s and reaches
    the exit sensor 5 s later. *)
Lemma V1_loop_retorna_exemplo :
  exists s' : V1.Est,
    V1.loop 601 (mundo_passagem_V1 5000 10000) (V1_ocioso 0 7) = Some s' /\
    tempo (V1_ocioso 0 7) + 4000 <= tempo s' <= tempo (V1_ocioso 0 7) + 66500 /\
    V1.cancelaAberta (vars s') = false /\
    (V1.contagemVeiculos (vars s')
     = V1.contagemVeiculos (vars (V1_reset24h (V1_ocioso 0 7))) \/
     V1.contagemVeiculos (vars s')
     = mais1_ui (V1.contagemVeiculos (vars (V1_reset24h (V1_ocioso 0 7))))).
Proof.
  exact (V1_loop_retorna 601 (mundo_passagem_V1 5000 10000) (V1_ocioso 0 7) (le_n _)).
Defined.

(** ** Beyond the claims: what V2.ino checks first *)



(** ** Beyond the claims: the manual mode of V5 *)




(** ** Beyond the claims: a whole pass of [loop] of V5, and the 24 h reset *)

Lemma V5_reset24h_fatos (s : V5.Est) :
  tempo (V5_reset24h s) = tempo s /\
  eeprom (placa (V5_reset24h s)) = eeprom (placa s) /\
  V5.cancelaAberta (vars (V5_reset24h s)) = V5.cancelaAberta (vars s).
Proof. unfold V5_reset24h. destruct (_ <=? _); repeat split. Qed.

(** X19.  With the lever off, a pass of [loop] of V5 always returns.  A pass
    that admits a vehicle returns between 3 and 68.2 s after it was entered,
    with the gate closed and the count of after the 24 h check kept or raised
    by one (modulo 2^32).  Any other pass takes no time and changes neither
    gate nor count.  No pass writes the EEPROM. *)
Theorem V5_loop_retorna (n : nat) (w : Mundo) (s : V5.Est) :
  let s0 := V5_reset24h s in
  (302 <= n)%nat ->
  digitalRead w V5.pinoAlavancaManual s = false ->
  exists s' : V5.Est,
    V5.loop n w s = Some s' /\
    eeprom (placa s') = eeprom (placa s) /\
    if V5.admite w s0
    then tempo s + 3000 <= tempo s' <= tempo s + 68200 /\
         V5.cancelaAberta (vars s') = false /\
         (V5.contadorVeiculos (vars s') = V5.contadorVeiculos (vars s0) \/
          V5.contadorVeiculos (vars s') = mais1_ui (V5.contadorVeiculos (vars s0)))
    else tempo s' = tempo s /\
         V5.cancelaAberta (vars s') = V5.cancelaAberta (vars s0) /\
         V5.contadorVeiculos (vars s') = V5.contadorVeiculos (vars s0).
Proof.
  intros s0 Hn Hm.
  change (V5.loop n w s) with
    (if Bool.eqb (digitalRead w V5.pinoAlavancaManual s) HIGH
     then V5.operarModoManual n w s
     else if V5.admite w s0 then V5.iniciarProcessoEntradaVeiculo n w s0
          else Some (V5.exibirStatusPeriodico
                       (ultrasonicRead w V5.pinoTrigSensorEntrada s0
                        <=? V5.DISTANCIA_DETECCAO_CM)
                       (Bool.eqb (digitalRead w V5.pinoBotaoEmissaoTicket s0) HIGH) s0)).
  rewrite Hm. cbn [Bool.eqb HIGH].
  destruct (V5_reset24h_fatos s) as (H0t & H0e & _). fold s0 in H0t, H0e.
  destruct (V5.admite w s0).
  - destruct (V5_iniciarProcesso_total n w s0 Hn) as (s' & H).
    exists s'. split; [exact H|].
    destruct (V5_iniciarProcesso_limites _ _ _ _ H) as (Ht & He & Hc).
    destruct (V5_iniciarProcesso_fechada _ _ _ _ H) as (Hg & _).
    split; [congruence|]. split; [lia|]. split; [exact Hg | exact Hc].
  - eexists. split; [reflexivity|].
    unfold V5.exibirStatusPeriodico.
    destruct (V5.INTERVALO_MENSAGEM_STATUS <? _).
    + destruct (_ && negb _); [|destruct (negb _ && negb _); [|destruct (negb _ && _)]];
        (split; [exact H0e|]); (split; [exact H0t|]); split; reflexivity.
    + split; [exact H0e|]. split; [exact H0t|]. split; reflexivity.
Qed.

(** X19 at work: a vehicle that stays in front of the entry sensor with the
    button pressed, lever off. *)
Lemma V5_loop_retorna_exemplo :
  exists s' : V5.Est,
    V5.loop 302 (mundo_alavanca 0) (V5_ocioso 0 7) = Some s' /\
    eeprom (placa s') = eeprom (placa (V5_ocioso 0 7)) /\
    tempo (V5_ocioso 0 7) + 3000 <= tempo s' <= tempo (V5_ocioso 0 7) + 68200 /\
    V5.cancelaAberta (vars s') = false /\
    (V5.contadorVeiculos (vars s')
     = V5.contadorVeiculos (vars (V5_reset24h (V5_ocioso 0 7))) \/
     V5.contadorVeiculos (vars s')
     = mais1_ui (V5.contadorVeiculos (vars (V5_reset24h (V5_ocioso 0 7))))).
Proof.
  exact (V5_loop_retorna 302 (mundo_alavanca 0) (V5_ocioso 0 7) (le_n _) eq_refl).
Defined.

(** X20.  The daily reset of V1.ino and of V5 is counted in milliseconds since
    the last reset, in 32-bit unsigned arithmetic.  On a pass entered 24 h
    or more after the last reset the count becomes zero and the 24 h start
    again from that pass; on any pass entered less than 24 h after it, also
    across an overflow of [millis], the reset does nothing. *)
Theorem reset_a_cada_24h (s1 : V1.Est) (s5 : V5.Est) (d : Z) :
  0 <= d < 24 * 60 * 60 * 1000 ->
  (V1.INTERVALO_RESET_CONTADOR_MS
   <= menos_ul (millis s1) (V1.ultimoResetContador (vars s1)) ->
   V1.contagemVeiculos (vars (V1_reset24h s1)) = 0 /\
   V1.ultimoResetContador (vars (V1_reset24h s1)) = millis s1 /\
   V1_reset24h (delay d (V1_reset24h s1)) = delay d (V1_reset24h s1))
  /\
  (V5.INTERVALO_RESET_CONTADOR
   <= menos_ul (millis s5) (V5.tempoUltimoResetContador (vars s5)) ->
   V5.contadorVeiculos (vars (V5_reset24h s5)) = 0 /\
   V5.tempoUltimoResetContador (vars (V5_reset24h s5)) = millis s5 /\
   V5_reset24h (delay d (V5_reset24h s5)) = delay d (V5_reset24h s5)).
Proof.
  intros Hd. split; intros Hdue.
  - assert (H1 : V1.contagemVeiculos (vars (V1_reset24h s1)) = 0 /\
                 V1.ultimoResetContador (vars (V1_reset24h s1)) = millis s1 /\
                 tempo (V1_reset24h s1) = tempo s1).
    { unfold V1_reset24h. apply Z.leb_le in Hdue. rewrite Hdue. repeat split. }
    destruct H1 as (Hc & Hu & Ht).
    split; [exact Hc|]. split; [exact Hu|].
    unfold V1_reset24h at 1.
    replace (V1.INTERVALO_RESET_CONTADOR_MS <=? _) with false; [reflexivity|].
    symmetry. apply Z.leb_gt.
    rewrite vars_delay, Hu.
    rewrite (menos_ul_tempo d s1);
      [|rewrite tempo_delay, Ht; reflexivity|unfold ULONG_MAX_1; lia].
    unfold V1.INTERVALO_RESET_CONTADOR_MS. lia.
  - assert (H5 : V5.contadorVeiculos (vars (V5_reset24h s5)) = 0 /\
                 V5.tempoUltimoResetContador (vars (V5_reset24h s5)) = millis s5 /\
                 tempo (V5_reset24h s5) = tempo s5).
    { unfold V5_reset24h. apply Z.leb_le in Hdue. rewrite Hdue. repeat split. }
    destruct H5 as (Hc & Hu & Ht).
    split; [exact Hc|]. split; [exact Hu|].
    unfold V5_reset24h at 1.
    replace (V5.INTERVALO_RESET_CONTADOR <=? _) with false; [reflexivity|].
    symmetry. apply Z.leb_gt.
    rewrite vars_delay, Hu.
    rewrite (menos_ul_tempo d s5);
      [|rewrite tempo_delay, Ht; reflexivity|unfold ULONG_MAX_1; lia].
    unfold V5.INTERVALO_RESET_CONTADOR. lia.
Qed.

(** X20 at work: 24 h and 1 s after the last reset, and then 23 h later. *)
Lemma reset_a_cada_24h_exemplo :
  V1.contagemVeiculos (vars V1_um_dia_depois) = 7 /\
  V1.contagemVeiculos (vars (V1_reset24h V1_um_dia_depois)) = 0 /\
  V1_reset24h (delay 82800000 (V1_reset24h V1_um_dia_depois))
  = delay 82800000 (V1_reset24h V1_um_dia_depois) /\
  V5.contadorVeiculos (vars (V5_reset24h V5_um_dia_depois)) = 0 /\
  V5_reset24h (delay 82800000 (V5_reset24h V5_um_dia_depois))
  = delay 82800000 (V5_reset24h V5_um_dia_depois).
Proof.
  pose proof (reset_a_cada_24h V1_um_dia_depois V5_um_dia_depois 82800000
                ltac:(lia)) as (H1 & H5).
  destruct (H1 ltac:(vm_compute; discriminate)) as (Hc1 & _ & Hr1).
  destruct (H5 ltac:(vm_compute; discriminate)) as (Hc5 & _ & Hr5).
  split; [reflexivity|]. split; [exact Hc1|]. split; [exact Hr1|].
  split; [exact Hc5 | exact Hr5].
Defined.

(** ** Whole waits of V3.ino, from what the sensors say at each poll *)

Lemma vars_println {G : Type} (texto : string) (s : Estado G) :
  vars (println texto s) = vars s.
Proof. reflexivity. Qed.

Lemma V3_saida_percorre_ate (w : Mundo) (t0 : Z) (k : nat) (s : V3.Est) :
  (forall j : nat, (j < k)%nat ->
     nivel w V3.PINO_SENSOR_SAIDA (tempo s + 10 * Z.of_nat j) = false /\
     nivel w V3.PINO_SENSOR_ENTRADA (tempo s + 10 * Z.of_nat j) = false) ->
  menos_ul (millis s) t0 + 10 * Z.of_nat k <= V3.TIMEOUT_OPERACAO + 10 ->
  percorre (V3.monitorarPassagemSaida_tique w t0) s (delay (10 * Z.of_nat k) s).
Proof.
  revert s. induction k as [|k IH]; intros s Hq He.
  - simpl. rewrite delay_0. apply percorre_aqui.
  - assert (Ht : V3.monitorarPassagemSaida_tique w t0 s = Segue (delay 10 s)).
    { unfold V3.monitorarPassagemSaida_tique, digitalRead.
      destruct (Hq 0%nat ltac:(lia)) as (Hs & Hent).
      rewrite Z.mul_0_r, Z.add_0_r in Hs, Hent. rewrite Hs, Hent. simpl.
      replace (V3.TIMEOUT_OPERACAO <? menos_ul (millis s) t0) with false;
        [reflexivity|].
      symmetry. apply Z.ltb_ge. lia. }
    eapply percorre_passo; [exact Ht|].
    replace (delay (10 * Z.of_nat (S k)) s)
      with (delay (10 * Z.of_nat k) (delay 10 s))
      by (rewrite delay_delay; f_equal; lia).
    apply IH.
    + intros j Hj. rewrite tempo_delay.
      replace (tempo s + 10 + 10 * Z.of_nat j)
        with (tempo s + 10 * Z.of_nat (S j)) by lia.
      apply Hq. lia.
    + pose proof (menos_ul_intervalo (millis s) t0).
      rewrite menos_ul_delay_pequeno;
        unfold V3.TIMEOUT_OPERACAO, ULONG_MAX_1 in *; lia.
Qed.

Lemma V3_entrada_percorre_ate (w : Mundo) (t0 : Z) (k : nat) (s : V3.Est) :
  (forall j : nat, (j < k)%nat ->
     nivel w V3.PINO_SENSOR_ENTRADA (tempo s + 10 * Z.of_nat j) = true) ->
  menos_ul (millis s) t0 + 10 * Z.of_nat k <= V3.TIMEOUT_OPERACAO + 10 ->
  percorre (V3.monitorarPassagemEntrada_tique w t0) s (delay (10 * Z.of_nat k) s).
Proof.
  revert s. induction k as [|k IH]; intros s Hq He.
  - simpl. rewrite delay_0. apply percorre_aqui.
  - assert (Ht : V3.monitorarPassagemEntrada_tique w t0 s = Segue (delay 10 s)).
    { rewrite V3_entrada_tique_casos. unfold digitalRead.
      pose proof (Hq 0%nat ltac:(lia)) as Hent.
      rewrite Z.mul_0_r, Z.add_0_r in Hent. rewrite Hent.
      replace (V3.TIMEOUT_OPERACAO <? menos_ul (millis s) t0) with false;
        [reflexivity|].
      symmetry. apply Z.ltb_ge. lia. }
    eapply percorre_passo; [exact Ht|].
    replace (delay (10 * Z.of_nat (S k)) s)
      with (delay (10 * Z.of_nat k) (delay 10 s))
      by (rewrite delay_delay; f_equal; lia).
    apply IH.
    + intros j Hj. rewrite tempo_delay.
      replace (tempo s + 10 + 10 * Z.of_nat j)
        with (tempo s + 10 * Z.of_nat (S j)) by lia.
      apply Hq. lia.
    + pose proof (menos_ul_intervalo (millis s) t0).
      rewrite menos_ul_delay_pequeno;
        unfold V3.TIMEOUT_OPERACAO, ULONG_MAX_1 in *; lia.
Qed.

(** The exit supervisor of V3.ino, run up to a poll on which it resolves. *)
Lemma V3_monitorarPassagemSaida_resolve (w : Mundo) (s sk : V3.Est) (r : Resolucao) :
  percorre (V3.monitorarPassagemSaida_tique w (millis s)) s sk ->
  V3_condicao w (millis s) r sk ->
  exists k : nat, forall n : nat,
    V3.monitorarPassagemSaida (k + S n) w s = Some (falhou r, V3_resolve r sk).
Proof.
  intros Hp Hc.
  destruct (percorre_enquanto _ _ _ Hp) as (k & Hk).
  exists k. intros n.
  unfold V3.monitorarPassagemSaida, liga. rewrite Hk.
  cbn [enquanto]. rewrite (V3_saida_tique_resolve _ _ _ _ Hc).
  destruct r; reflexivity.
Qed.

(** The entry supervisor of V3.ino, run up to the poll on which it gives up. *)
Lemma V3_monitorarPassagemEntrada_desiste (w : Mundo) (s sk : V3.Est) :
  percorre (V3.monitorarPassagemEntrada_tique w (millis s)) s sk ->
  digitalRead w V3.PINO_SENSOR_ENTRADA sk = true ->
  V3.TIMEOUT_OPERACAO < menos_ul (millis sk) (millis s) ->
  exists k : nat, forall n : nat,
    V3.monitorarPassagemEntrada (k + S n) w s
    = Some (true, V3_resolve RESOLVED_TIMEOUT sk).
Proof.
  intros Hp He Ht.
  destruct (percorre_enquanto _ _ _ Hp) as (k & Hk).
  exists k. intros n.
  unfold V3.monitorarPassagemEntrada, liga. rewrite Hk.
  cbn [enquanto]. rewrite V3_entrada_tique_casos, He.
  apply Z.ltb_lt in Ht. rewrite Ht. reflexivity.
Qed.

Lemma V3_resolve_saidas (r : Resolucao) (s : V3.Est) :
  saidas (V3_resolve r s) =
  saidas s ++
  match r with
  | RESOLVED_SUCCESS =>
      (tempo s,
       SerialPrintln ("[INFO] Veículo detectado no sensor de saída. Fechando em "
                      ++ String_ (V3.DELAY_POS_SAIDA / 1000) ++ "s."))
      :: V3_eventos_fechar (tempo s + V3.DELAY_POS_SAIDA)
  | RESOLVED_TIMEOUT =>
      (tempo s, SerialPrintln "[ALERTA] A cancela será fechada em 5 segundos!")
      :: V3_eventos_beeps (Z.to_nat V3.BEEP_AVISO_TIMEOUT) (tempo s)
      ++ V3_eventos_fechar (tempo s + 1000 * V3.BEEP_AVISO_TIMEOUT)
  | RESOLVED_FRAUD =>
      (tempo s,
       SerialPrintln "[ALERTA] Fraude detectada! Veículo não autorizado tentou entrar. Fechando cancela.")
      :: V3_eventos_fechar (tempo s)
  end.
Proof.
  destruct r.
  - unfold V3_resolve. rewrite V3_fecharCancela_saidas.
    unfold saidas, tempo. simpl. now rewrite <- app_assoc.
  - exact (V3_emitirAvisoFechamento_saidas s).
  - unfold V3_resolve. rewrite V3_fecharCancela_saidas.
    unfold saidas, tempo. simpl. now rewrite <- app_assoc.
Qed.

(** ** C6: how the two failures close the gate *)

(** C6.  In V3.ino, when [monitorarPassagemSaida] is run up to a poll [sk] on
    which the passage fails, it returns [true], and what it has written since
    its call is, on a timeout, the warning, [BEEP_AVISO_TIMEOUT] beeps of
    [DURACAO_BEEP] ms, one second apart, and only after the last second the
    close sequence with the servo command; on a fraud, the alert and the close
    sequence stamped with the time of that very poll, without a beep.  The
    timeout of [monitorarPassagemEntrada] closes the gate as the timeout of
    the exit does. *)
Theorem C6_fechamento_assimetrico (w : Mundo) (s sk : V3.Est) (r : Resolucao) :
  (percorre (V3.monitorarPassagemSaida_tique w (millis s)) s sk ->
   V3_condicao w (millis s) r sk ->
   r <> RESOLVED_SUCCESS ->
   exists k : nat, forall n : nat, exists s' : V3.Est,
     V3.monitorarPassagemSaida (k + S n) w s = Some (true, s') /\
     saidas s' =
       saidas s ++
       match r with
       | RESOLVED_TIMEOUT =>
           (tempo sk, SerialPrintln "[ALERTA] A cancela será fechada em 5 segundos!")
           :: V3_eventos_beeps (Z.to_nat V3.BEEP_AVISO_TIMEOUT) (tempo sk)
           ++ V3_eventos_fechar (tempo sk + 1000 * V3.BEEP_AVISO_TIMEOUT)
       | _ =>
           (tempo sk,
            SerialPrintln "[ALERTA] Fraude detectada! Veículo não autorizado tentou entrar. Fechando cancela.")
           :: V3_eventos_fechar (tempo sk)
       end)
  /\
  (percorre (V3.monitorarPassagemEntrada_tique w (millis s)) s sk ->
   digitalRead w V3.PINO_SENSOR_ENTRADA sk = true ->
   V3.TIMEOUT_OPERACAO < menos_ul (millis sk) (millis s) ->
   exists k : nat, forall n : nat, exists s' : V3.Est,
     V3.monitorarPassagemEntrada (k + S n) w s = Some (true, s') /\
     saidas s' =
       saidas s
       ++ (tempo sk, SerialPrintln "[ALERTA] A cancela será fechada em 5 segundos!")
          :: V3_eventos_beeps (Z.to_nat V3.BEEP_AVISO_TIMEOUT) (tempo sk)
       ++ V3_eventos_fechar (tempo sk + 1000 * V3.BEEP_AVISO_TIMEOUT)).
Proof.
  split.
  - intros Hp Hc Hr.
    destruct (V3_monitorarPassagemSaida_resolve _ _ _ _ Hp Hc) as (k & Hk).
    destruct (V3_saida_percorre _ _ _ _ Hp) as (j & Hj).
    exists k. intros n. exists (V3_resolve r sk). split.
    + rewrite Hk. destruct r; [congruence|reflexivity|reflexivity].
    + rewrite V3_resolve_saidas.
      replace (saidas sk) with (saidas s) by (rewrite Hj; reflexivity).
      destruct r; [congruence|reflexivity|reflexivity].
  - intros Hp He Ht.
    destruct (V3_monitorarPassagemEntrada_desiste _ _ _ Hp He Ht) as (k & Hk).
    destruct (V3_entrada_percorre _ _ _ _ Hp) as (j & Hj).
    exists k. intros n. exists (V3_resolve RESOLVED_TIMEOUT sk). split.
    + apply Hk.
    + rewrite V3_resolve_saidas.
      replace (saidas sk) with (saidas s) by (rewrite Hj; reflexivity).
      reflexivity.
Qed.

(** C6 at work, on a board whose gate opened at time 0.  Nobody ever reaches
    the exit: the wait gives up on the poll at 30010 ms, the buzzer is switched
    on at 30010, 31010, .., 34010 and the servo closes at 35010.  A second
    vehicle is at the entry sensor on the first poll of the exit wait: the
    servo closes at once, without the buzzer.  The vehicle never leaves the
    entry sensor: as the first case. *)
Lemma C6_fechamento_assimetrico_exemplo :
  (exists k : nat, forall n : nat, exists s' : V3.Est,
     V3.monitorarPassagemSaida (k + S n) (mundo_so_pino 0) (V3_em_passagem 0)
     = Some (true, s') /\
     saidas s' =
       [ (30010, SerialPrintln "[ALERTA] A cancela será fechada em 5 segundos!");
         (30010, DigitalWrite 12 true); (30210, DigitalWrite 12 false);
         (31010, DigitalWrite 12 true); (31210, DigitalWrite 12 false);
         (32010, DigitalWrite 12 true); (32210, DigitalWrite 12 false);
         (33010, DigitalWrite 12 true); (33210, DigitalWrite 12 false);
         (34010, DigitalWrite 12 true); (34210, DigitalWrite 12 false);
         (35010, DigitalWrite 14 false); (35010, DigitalWrite 27 false);
         (35010, DigitalWrite 26 true); (35010, ServoWrite 1495);
         (35010, SerialPrintln "[AÇÃO] Cancela Fechada.") ])
  /\
  (exists k : nat, forall n : nat, exists s' : V3.Est,
     V3.monitorarPassagemSaida (k + S n) (mundo_so_pino V3.PINO_SENSOR_ENTRADA)
                               (V3_em_passagem 1000)
     = Some (true, s') /\
     saidas s' =
       [ (1000, SerialPrintln "[ALERTA] Fraude detectada! Veículo não autorizado tentou entrar. Fechando cancela.");
         (1000, DigitalWrite 14 false); (1000, DigitalWrite 27 false);
         (1000, DigitalWrite 26 true); (1000, ServoWrite 1495);
         (1000, SerialPrintln "[AÇÃO] Cancela Fechada.") ])
  /\
  (exists k : nat, forall n : nat, exists s' : V3.Est,
     V3.monitorarPassagemEntrada (k + S n) (mundo_so_pino V3.PINO_SENSOR_ENTRADA)
                                 (V3_em_passagem 0)
     = Some (true, s') /\
     saidas s' =
       [ (30010, SerialPrintln "[ALERTA] A cancela será fechada em 5 segundos!");
         (30010, DigitalWrite 12 true); (30210, DigitalWrite 12 false);
         (31010, DigitalWrite 12 true); (31210, DigitalWrite 12 false);
         (32010, DigitalWrite 12 true); (32210, DigitalWrite 12 false);
         (33010, DigitalWrite 12 true); (33210, DigitalWrite 12 false);
         (34010, DigitalWrite 12 true); (34210, DigitalWrite 12 false);
         (35010, DigitalWrite 14 false); (35010, DigitalWrite 27 false);
         (35010, DigitalWrite 26 true); (35010, ServoWrite 1495);
         (35010, SerialPrintln "[AÇÃO] Cancela Fechada.") ]).
Proof.
  split; [|split].
  - refine (proj1 (C6_fechamento_assimetrico (mundo_so_pino 0) (V3_em_passagem 0)
                     (delay (10 * Z.of_nat 3001) (V3_em_passagem 0))
                     RESOLVED_TIMEOUT) _ _ _).
    + apply V3_saida_percorre_ate.
      * intros j _. split; reflexivity.
      * vm_compute. discriminate.
    + repeat split.
    + discriminate.
  - refine (proj1 (C6_fechamento_assimetrico (mundo_so_pino V3.PINO_SENSOR_ENTRADA)
                     (V3_em_passagem 1000) (V3_em_passagem 1000)
                     RESOLVED_FRAUD) _ _ _).
    + apply percorre_aqui.
    + split; reflexivity.
    + discriminate.
  - refine (proj2 (C6_fechamento_assimetrico (mundo_so_pino V3.PINO_SENSOR_ENTRADA)
                     (V3_em_passagem 0)
                     (delay (10 * Z.of_nat 3001) (V3_em_passagem 0))
                     RESOLVED_TIMEOUT) _ _ _).
    + apply V3_entrada_percorre_ate.
      * intros j _. reflexivity.
      * vm_compute. discriminate.
    + reflexivity.
    + reflexivity.
Defined.

(** ** C7: how long the vehicle may stand at the entry sensor *)

Lemma V1_entrada_espera (w : Mundo) (t0 : Z) (k n : nat) (s : V1.Est) :
  (forall j : nat, (j < k)%nat ->
     nivel w V1.PINO_SENSOR_ENTRADA (tempo s + 50 * Z.of_nat j) = true) ->
  menos_ul (millis s) t0 + 50 * Z.of_nat k < V1.TIMEOUT_ENTRADA_MS + 50 ->
  enquanto (k + n) (V1.gerenciarEntradaVeiculo_tique w t0) s =
  enquanto n (V1.gerenciarEntradaVeiculo_tique w t0) (delay (50 * Z.of_nat k) s).
Proof.
  revert s. induction k as [|k IH]; intros s Hq He.
  - simpl. now rewrite delay_0.
  - cbn [Nat.add enquanto].
    assert (Ht : V1.gerenciarEntradaVeiculo_tique w t0 s = Segue (delay 50 s)).
    { rewrite V1_entrada_tique_casos. unfold digitalRead.
      pose proof (Hq 0%nat ltac:(lia)) as Hent.
      rewrite Z.mul_0_r, Z.add_0_r in Hent. rewrite Hent.
      replace (V1.TIMEOUT_ENTRADA_MS <=? menos_ul (millis s) t0) with false;
        [reflexivity|].
      symmetry. apply Z.leb_gt. lia. }
    rewrite Ht, IH.
    + rewrite delay_delay. do 2 f_equal. lia.
    + intros j Hj. pose proof (Hq (S j) ltac:(lia)) as Hent.
      rewrite tempo_delay.
      replace (tempo s + 50 + 50 * Z.of_nat j)
        with (tempo s + 50 * Z.of_nat (S j)) by lia.
      exact Hent.
    + pose proof (menos_ul_intervalo (millis s) t0).
      rewrite menos_ul_delay_pequeno;
        unfold V1.TIMEOUT_ENTRADA_MS, ULONG_MAX_1 in *; lia.
Qed.

(** The number of the first poll, [p] ms apart, at or after [D] ms. *)
Lemma primeira_amostra (D p : Z) :
  0 <= D -> 0 < p ->
  let q := (D + (p - 1)) / p in
  0 <= q /\ D <= p * q /\ p * q <= D + (p - 1) /\
  (forall j : Z, j < q -> p * j < D).
Proof.
  intros HD Hp q.
  pose proof (Z.div_mod (D + (p - 1)) p ltac:(lia)) as Hdm.
  pose proof (Z.mod_pos_bound (D + (p - 1)) p Hp) as Hm.
  fold q in Hdm.
  assert (Hq0 : 0 <= q) by (apply Z.div_pos; lia).
  split; [exact Hq0|]. split; [lia|]. split; [lia|].
  intros j Hj. assert (p * j <= p * (q - 1)) by (apply Z.mul_le_mono_nonneg_l; lia).
  lia.
Qed.

(** C7, as stated, fails on V3.ino: a vehicle that stands at the entry sensor
    for T + 1 = 30001 ms and then moves on is not timed out.  The sketch looks
    at the sensor every 10 ms, and gives up only on a poll that finds the
    vehicle there more than T ms after the start: the poll at 30000 ms is not
    late enough, and the poll at 30010 ms finds the sensor clear. *)
Lemma C7_um_ms_a_mais_nao_basta :
  (forall t : Z,
     nivel (mundo_passagem_V3 30001 100000) V3.PINO_SENSOR_ENTRADA t = (t <? 30001)) /\
  option_map (fun x => (fst x, tempo (snd x)))
             (V3.monitorarPassagemEntrada 3002 (mundo_passagem_V3 30001 100000)
                                          (V3_em_passagem 0))
  = Some (false, 30010).
Proof. split; [intros t; reflexivity|]. vm_compute. reflexivity. Qed.

(** C7, amended.  Let the vehicle stand at the entry sensor for [D] ms from
    the call of the entry supervisor, and then leave it for good.  V3.ino
    polls every 10 ms and gives up when a poll finds the vehicle there more
    than T = 30000 ms after the start: [monitorarPassagemEntrada] returns
    [true] (timeout, on the poll at 30010 ms) exactly when D > 30010, and
    otherwise returns [false] on the first poll at or after D ms.  V1.ino
    polls every 50 ms and gives up at T ms or more: [gerenciarEntradaVeiculo]
    returns [false] (timeout, on the poll at 30000 ms) exactly when D > 30000,
    and otherwise returns [true] on the first poll at or after D ms.  So a
    stay of T - 1 ms is timed out by neither, and a stay of T + 1 ms by V1.ino
    only. *)
Theorem C7_limite_do_timeout (w : Mundo) (D : Z) (n : nat) (s : V3.Est) (s1 : V1.Est) :
  0 <= D ->
  ((forall t : Z, tempo s <= t ->
      nivel w V3.PINO_SENSOR_ENTRADA t = (t <? tempo s + D)) ->
   V3.monitorarPassagemEntrada (3002 + n) w s =
   Some (if V3.TIMEOUT_OPERACAO + 10 <? D
         then (true, V3_resolve RESOLVED_TIMEOUT (delay (V3.TIMEOUT_OPERACAO + 10) s))
         else (false,
               println "[INFO] Veículo liberou o sensor de entrada."
                       (delay (10 * ((D + 9) / 10)) s))))
  /\
  ((forall t : Z, tempo s1 <= t ->
      nivel w V1.PINO_SENSOR_ENTRADA t = (t <? tempo s1 + D)) ->
   let sB := println "INFO: Aguardando veiculo passar pelo sensor de entrada..." s1 in
   V1.gerenciarEntradaVeiculo (601 + n) w s1 =
   Some (if V1.TIMEOUT_ENTRADA_MS <? D
         then (false,
               V1.acionarAlertaEFechar
                 (println "ERRO: Timeout na entrada. Cancelando operacao."
                          (delay V1.TIMEOUT_ENTRADA_MS sB)))
         else (true,
               println "INFO: Veiculo liberou o sensor de entrada.\n"
                       (delay (50 * ((D + 49) / 50)) sB)))).
Proof.
  intros HD. split.
  - intros Hw.
    destruct (V3.TIMEOUT_OPERACAO + 10 <? D) eqn:Ht.
    + apply Z.ltb_lt in Ht. unfold V3.TIMEOUT_OPERACAO in Ht.
      replace (3002 + n)%nat with (3001 + S n)%nat by lia.
      apply V3_entrada_sempre_presente.
      intros j Hj. rewrite Hw by lia. apply Z.ltb_lt. lia.
    + apply Z.ltb_ge in Ht. unfold V3.TIMEOUT_OPERACAO in Ht.
      destruct (primeira_amostra D 10 HD ltac:(lia)) as (Hq0 & Hq1 & Hq4 & Hq2).
      change (10 - 1) with 9 in *.
      set (q := (D + 9) / 10) in *.
      assert (Hq3 : q <= 3001) by lia.
      rewrite <- (Z2Nat.id q Hq0).
      set (k := Z.to_nat q).
      assert (Hk : Z.of_nat k = q) by (apply Z2Nat.id; exact Hq0).
      replace (3002 + n)%nat with (k + S (3001 + n - k))%nat by lia.
      unfold V3.monitorarPassagemEntrada, liga.
      rewrite V3_entrada_espera.
      * cbn [enquanto]. rewrite V3_entrada_tique_casos.
        unfold digitalRead. rewrite tempo_delay, Hw by lia.
        replace (tempo s + 10 * Z.of_nat k <? tempo s + D) with false;
          [reflexivity|].
        symmetry. apply Z.ltb_ge. lia.
      * intros j Hj. rewrite Hw by lia. apply Z.ltb_lt.
        pose proof (Hq2 (Z.of_nat j) ltac:(lia)). lia.
      * rewrite menos_ul_inicio. unfold V3.TIMEOUT_OPERACAO. lia.
  - intros Hw sB.
    assert (HB : tempo sB = tempo s1) by reflexivity.
    assert (Hm0 : menos_ul (millis sB) (millis s1) = 0) by exact (menos_ul_inicio s1).
    unfold V1.gerenciarEntradaVeiculo, liga. fold sB.
    destruct (V1.TIMEOUT_ENTRADA_MS <? D) eqn:Ht.
    + apply Z.ltb_lt in Ht. unfold V1.TIMEOUT_ENTRADA_MS in Ht.
      replace (601 + n)%nat with (600 + S n)%nat by lia.
      rewrite V1_entrada_espera.
      * cbn [enquanto]. rewrite V1_entrada_tique_casos.
        unfold digitalRead. rewrite tempo_delay, HB, Hw by lia.
        replace (tempo s1 + 50 * Z.of_nat 600 <? tempo s1 + D) with true
          by (symmetry; apply Z.ltb_lt; lia).
        rewrite (menos_ul_tempo (50 * Z.of_nat 600) s1);
          [reflexivity|rewrite tempo_delay, HB; reflexivity|unfold ULONG_MAX_1; lia].
      * intros j Hj. rewrite HB, Hw by lia. apply Z.ltb_lt. lia.
      * rewrite Hm0. unfold V1.TIMEOUT_ENTRADA_MS. lia.
    + apply Z.ltb_ge in Ht. unfold V1.TIMEOUT_ENTRADA_MS in Ht.
      destruct (primeira_amostra D 50 HD ltac:(lia)) as (Hq0 & Hq1 & Hq4 & Hq2).
      change (50 - 1) with 49 in *.
      set (q := (D + 49) / 50) in *.
      assert (Hq3 : q <= 600) by lia.
      rewrite <- (Z2Nat.id q Hq0).
      set (k := Z.to_nat q).
      assert (Hk : Z.of_nat k = q) by (apply Z2Nat.id; exact Hq0).
      replace (601 + n)%nat with (k + S (600 + n - k))%nat by lia.
      rewrite V1_entrada_espera.
      * cbn [enquanto]. rewrite V1_entrada_tique_casos.
        unfold digitalRead. rewrite tempo_delay, HB, Hw by lia.
        replace (tempo s1 + 50 * Z.of_nat k <? tempo s1 + D) with false;
          [reflexivity|].
        symmetry. apply Z.ltb_ge. lia.
      * intros j Hj. rewrite HB, Hw by lia. apply Z.ltb_lt.
        pose proof (Hq2 (Z.of_nat j) ltac:(lia)). lia.
      * rewrite Hm0. unfold V1.TIMEOUT_ENTRADA_MS. lia.
Qed.

(** C7 at work.  A stay of T - 1 = 29999 ms: both sketches see the sensor
    clear on the poll at 30000 ms and go on.  A stay of T + 1 = 30001 ms: V3.ino
    lets the vehicle go on the poll at 30010 ms; V1.ino has given up on the
    poll at 30000 ms. *)
Lemma C7_limite_do_timeout_exemplo :
  (V3.monitorarPassagemEntrada (3002 + 0) (mundo_passagem_V3 29999 100000)
                               (V3_em_passagem 0)
   = Some (false,
           println "[INFO] Veículo liberou o sensor de entrada."
                   (delay 30000 (V3_em_passagem 0)))
   /\
   V1.gerenciarEntradaVeiculo (601 + 0) (mundo_passagem_V3 29999 100000)
                              (V1_em_passagem 0)
   = Some (true,
           println "INFO: Veiculo liberou o sensor de entrada.\n"
             (delay 30000
                (println "INFO: Aguardando veiculo passar pelo sensor de entrada..."
                   (V1_em_passagem 0)))))
  /\
  (V3.monitorarPassagemEntrada (3002 + 0) (mundo_passagem_V3 30001 100000)
                               (V3_em_passagem 0)
   = Some (false,
           println "[INFO] Veículo liberou o sensor de entrada."
                   (delay 30010 (V3_em_passagem 0)))
   /\
   V1.gerenciarEntradaVeiculo (601 + 0) (mundo_passagem_V3 30001 100000)
                              (V1_em_passagem 0)
   = Some (false,
           V1.acionarAlertaEFechar
             (println "ERRO: Timeout na entrada. Cancelando operacao."
                (delay 30000
                   (println "INFO: Aguardando veiculo passar pelo sensor de entrada..."
                      (V1_em_passagem 0)))))).
Proof.
  pose proof (C7_limite_do_timeout (mundo_passagem_V3 29999 100000) 29999 0
                (V3_em_passagem 0) (V1_em_passagem 0) ltac:(lia)) as (Ha3 & Ha1).
  pose proof (C7_limite_do_timeout (mundo_passagem_V3 30001 100000) 30001 0
                (V3_em_passagem 0) (V1_em_passagem 0) ltac:(lia)) as (Hb3 & Hb1).
  split; split.
  - exact (Ha3 (fun t _ => eq_refl)).
  - exact (Ha1 (fun t _ => eq_refl)).
  - exact (Hb3 (fun t _ => eq_refl)).
  - exact (Hb1 (fun t _ => eq_refl)).
Defined.

(** ** C9: a fraud and a timeout look the same to the caller *)

Lemma V4_registrarOuReverter_falha (x : V4.Est) :
  V4.timeoutEntradaOcorrido (vars x) || V4.timeoutSaidaOcorrido (vars x) = true ->
  saidas (V4.registrarOuReverter x) =
    saidas x
    ++ [(tempo x,
         SerialPrintln "Operação cancelada por timeout. O veículo não será registrado.")] /\
  eeprom (placa (V4.registrarOuReverter x)) = eeprom (placa x).
Proof.
  intros Hf. unfold V4.registrarOuReverter. rewrite Hf.
  cbn [vars println emite].
  destruct (0 <? V4.contadorVeiculosDia (vars x)); split; reflexivity.
Qed.

Lemma V4_falha_vars_de (a b : V4.Est) :
  vars a = vars (V4.set_timeoutSaidaOcorrido false b) ->
  vars (V4.set_timeoutSaidaOcorrido true (V4.set_estadoCancelaAberta false a))
  = vars (V4.set_timeoutSaidaOcorrido true (V4.set_estadoCancelaAberta false b)).
Proof.
  unfold V4.set_timeoutSaidaOcorrido, V4.set_estadoCancelaAberta, com_vars.
  cbn [vars]. intros ->. reflexivity.
Qed.

(** The exit supervisor of V4.ino, run up to a poll on which it resolves. *)
Lemma V4_gerenciarSegurancaSaida_resolve (w : Mundo) (u : Z) (s sk : V4.Est)
  (r : Resolucao) :
  V4.timeoutEntradaOcorrido (vars s) = false ->
  percorre (V4.gerenciarSegurancaSaida_tique w (millis s))
           (0, V4.set_timeoutSaidaOcorrido false s) (u, sk) ->
  V4_condicao w (millis s) r sk ->
  exists k : nat, forall n : nat,
    V4.gerenciarSegurancaSaida (k + S n) w s = Some (V4_resolve r sk).
Proof.
  intros HtE Hp Hc.
  destruct (percorre_enquanto _ _ _ Hp) as (k & Hk).
  exists k. intros n.
  unfold V4.gerenciarSegurancaSaida, liga. rewrite HtE.
  change (millis (V4.set_timeoutSaidaOcorrido false s)) with (millis s).
  rewrite Hk. cbn [enquanto].
  rewrite (V4_saida_tique_resolve _ _ _ _ _ Hc).
  destruct r; reflexivity.
Qed.

(** C9.  The exit supervisor reports a fraud and a timeout alike.  In V3.ino
    [monitorarPassagemSaida], run up to a poll on which the passage fails,
    returns [true] and leaves the global variables as they were but for the
    closed gate, on a fraud as on a timeout; [loop] then prints the same
    notice of a timeout at the exit and leaves the variables, the counter
    among them, as they were before the passage but for the closed gate.  In
    V4.ino [gerenciarSegurancaSaida] sets [timeoutSaidaOcorrido] on either
    failure and leaves the same global variables; [loop] hands the state to
    [registrarOuReverter], which on either failure prints the same notice of
    a timeout, takes the provisional increment back and leaves the EEPROM
    alone. *)
Theorem C9_falhas_indistintas (w : Mundo) (n : nat) (r : Resolucao)
  (s sk s3 s3' : V3.Est) (u : Z) (s4 sk4 s4l s4l' : V4.Est) :
  (r <> RESOLVED_SUCCESS ->
   percorre (V3.monitorarPassagemSaida_tique w (millis s)) s sk ->
   V3_condicao w (millis s) r sk ->
   exists k : nat, forall m : nat,
     V3.monitorarPassagemSaida (k + S m) w s = Some (true, V3_resolve r sk) /\
     vars (V3_resolve r sk) = vars (V3.set_estadoCancelaAberta false s))
  /\
  (let s0 := V3.verificarResetDiarioContador w (V3.atualizarRelogio w s3) in
   V3.loop n w s3 = Some s3' ->
   V3.admite w s0 = true ->
   (exists x : V3.Est,
      s3' = println "[AVISO] Operação cancelada por timeout na entrada."
                    (V3_resolve RESOLVED_TIMEOUT x) /\
      vars s3' = vars (V3.set_estadoCancelaAberta false s0))
   \/
   (exists (r' : Resolucao) (sE x : V3.Est),
      V3_condicao w (millis sE) r' x /\
      s3' = (if falhou r'
             then println "[AVISO] Operação cancelada por timeout na saída."
                          (V3_resolve r' x)
             else V3.registrarSucesso (V3_resolve r' x)) /\
      (r' <> RESOLVED_SUCCESS ->
       vars s3' = vars (V3.set_estadoCancelaAberta false s0))))
  /\
  (r <> RESOLVED_SUCCESS ->
   V4.timeoutEntradaOcorrido (vars s4) = false ->
   percorre (V4.gerenciarSegurancaSaida_tique w (millis s4))
            (0, V4.set_timeoutSaidaOcorrido false s4) (u, sk4) ->
   V4_condicao w (millis s4) r sk4 ->
   exists k : nat, forall m : nat,
     V4.gerenciarSegurancaSaida (k + S m) w s4 = Some (V4_resolve r sk4) /\
     V4.timeoutSaidaOcorrido (vars (V4_resolve r sk4)) = true /\
     vars (V4_resolve r sk4)
     = vars (V4.set_timeoutSaidaOcorrido true (V4.set_estadoCancelaAberta false s4)))
  /\
  (let s0 := V4.verificacaoResetDiario (V4.sincronizarDataHora w s4l) in
   let c := mais1_ui (V4.contadorVeiculosDia (vars s0)) in
   V4.loop n w s4l = Some s4l' ->
   digitalRead w V4.pinoChaveManual s0 = false ->
   V4.veiculoNaEntrada w s0 && Bool.eqb (digitalRead w V4.pinoBotaoTicket s0) HIGH = true ->
   exists (r' : Resolucao) (x : V4.Est),
     V4_resolvido r' x /\
     s4l' = V4.registrarOuReverter x /\
     (r' <> RESOLVED_SUCCESS ->
      saidas s4l' =
        saidas x
        ++ [(tempo x,
             SerialPrintln "Operação cancelada por timeout. O veículo não será registrado.")] /\
      eeprom (placa s4l') = eeprom (placa x) /\
      V4.contadorVeiculosDia (vars s4l') = (if 0 <? c then c - 1 else c))).
Proof.
  split; [|split; [|split]].
  - intros Hr Hp Hc.
    destruct (V3_monitorarPassagemSaida_resolve _ _ _ _ Hp Hc) as (k & Hk).
    destruct (V3_saida_percorre _ _ _ _ Hp) as (j & Hj).
    exists k. intros m. split.
    + rewrite Hk. destruct r; [congruence|reflexivity|reflexivity].
    + rewrite V3_resolve_falha_vars by exact Hr.
      apply V3_set_estadoCancelaAberta_vars. rewrite Hj. reflexivity.
  - intros s0 H Ha. unfold V3.loop in H. fold s0 in H. rewrite Ha in H.
    unfold liga in H.
    destruct (V3.aguardarRetiradaTicket n w _) as [sC|] eqn:Eag; [|discriminate].
    apply V3_aguardarRetiradaTicket_vars in Eag.
    destruct (V3.monitorarPassagemEntrada n w _) as [[b1 s2]|] eqn:Een;
      [|discriminate].
    apply V3_monitorarPassagemEntrada_casos in Een.
    destruct Een as (k & Hcase). cbn zeta in Hcase.
    assert (Hv : vars (delay (10 * Z.of_nat k) (V3.abrirCancela sC))
                 = vars (V3.set_estadoCancelaAberta true s0)).
    { cbn [vars delay]. unfold V3.abrirCancela. cbn. rewrite Eag. reflexivity. }
    destruct Hcase as [(-> & -> & _ & _)|(-> & -> & _)].
    + left.
      assert (E : s3' = println "[AVISO] Operação cancelada por timeout na entrada."
                          (V3_resolve RESOLVED_TIMEOUT
                             (delay (10 * Z.of_nat k) (V3.abrirCancela sC))))
        by congruence.
      exists (delay (10 * Z.of_nat k) (V3.abrirCancela sC)).
      split; [exact E|].
      rewrite E, vars_println.
      rewrite V3_resolve_falha_vars by discriminate.
      rewrite (V3_set_estadoCancelaAberta_vars false _ _ Hv). reflexivity.
    + right.
      set (sE := println "[INFO] Veículo liberou o sensor de entrada."
                         (delay (10 * Z.of_nat k) (V3.abrirCancela sC))) in *.
      destruct (V3.monitorarPassagemSaida n w sE) as [[b2 s3r]|] eqn:Esa;
        [|discriminate].
      apply V3_monitorarPassagemSaida_casos in Esa.
      destruct Esa as (k2 & r' & Hc & -> & ->).
      exists r', sE, (delay (10 * Z.of_nat k2) sE).
      assert (E : s3' = if falhou r'
                        then println "[AVISO] Operação cancelada por timeout na saída."
                                     (V3_resolve r' (delay (10 * Z.of_nat k2) sE))
                        else V3.registrarSucesso
                               (V3_resolve r' (delay (10 * Z.of_nat k2) sE)))
        by (destruct r'; cbn [falhou] in H |- *; congruence).
      split; [exact Hc|]. split; [exact E|].
      intros Hr'. rewrite E.
        assert (Hx : vars (V3_resolve r' (delay (10 * Z.of_nat k2) sE))
                     = vars (V3.set_estadoCancelaAberta false s0)).
        { rewrite V3_resolve_falha_vars by exact Hr'.
          assert (HvE : vars (delay (10 * Z.of_nat k2) sE)
                        = vars (V3.set_estadoCancelaAberta true s0))
            by (rewrite <- Hv; reflexivity).
          rewrite (V3_set_estadoCancelaAberta_vars false _ _ HvE). reflexivity. }
        destruct r'; [congruence| |]; cbn [falhou];
          rewrite vars_println; exact Hx.
  - intros Hr HtE Hp Hc.
    destruct (V4_gerenciarSegurancaSaida_resolve _ _ _ _ _ HtE Hp Hc) as (k & Hk).
    apply V4_saida_percorre in Hp. cbn [snd] in Hp.
    exists k. intros m. split; [apply Hk|].
    rewrite V4_resolve_falha_vars by exact Hr. split; [reflexivity|].
    apply V4_falha_vars_de. exact Hp.
  - intros s0 c H Hm Ha.
    destruct (V4_loop_casos n w s4l s4l' H Hm Ha) as (r' & x & Hx & Hcx & Hf & Hs).
    exists r', x. split; [exact Hx|]. split; [exact Hs|].
    intros Hr'.
    assert (Hf' : V4.timeoutEntradaOcorrido (vars x)
                  || V4.timeoutSaidaOcorrido (vars x) = true)
      by (rewrite Hf; destruct r'; [congruence|reflexivity|reflexivity]).
    destruct (V4_registrarOuReverter_falha x Hf') as (Hsa & Hee).
    rewrite Hs. split; [exact Hsa|]. split; [exact Hee|].
    rewrite V4_registrarOuReverter_contador, Hf', Hcx. reflexivity.
Qed.


(** C9 at work.  On V3.ino a second vehicle at the entry on the first poll of
    the exit wait, and nobody at the exit for 30010 ms, both make
    [monitorarPassagemSaida] return [true] with the same global variables; a
    vehicle that leaves the entry after 5 s and never reaches the exit makes
    [loop] keep the 7 vehicles counted.  On V4.ino a second vehicle at the
    entry on the first poll sets [timeoutSaidaOcorrido]; a vehicle that never
    reaches the exit makes [loop] take the eighth vehicle back. *)
Lemma C9_falhas_indistintas_exemplo :
  (exists k : nat, forall m : nat,
     V3.monitorarPassagemSaida (k + S m) (mundo_so_pino V3.PINO_SENSOR_ENTRADA)
                               (V3_em_passagem 1000)
     = Some (true, V3_resolve RESOLVED_FRAUD (V3_em_passagem 1000)) /\
     vars (V3_resolve RESOLVED_FRAUD (V3_em_passagem 1000))
     = V3.mkGlobais 0 false "Jan  1 2025" 0)
  /\
  (exists k : nat, forall m : nat,
     V3.monitorarPassagemSaida (k + S m) (mundo_so_pino 0) (V3_em_passagem 0)
     = Some (true, V3_resolve RESOLVED_TIMEOUT (delay 30010 (V3_em_passagem 0))) /\
     vars (V3_resolve RESOLVED_TIMEOUT (delay 30010 (V3_em_passagem 0)))
     = V3.mkGlobais 0 false "Jan  1 2025" 0)
  /\
  (let w := mundo_passagem_V3 5000 100000 in
   let s3' := resultado (V3.loop 3100 w (V3_ocioso 0 7)) (V3_ocioso 0 7) in
   let s0 := V3.verificarResetDiarioContador w (V3.atualizarRelogio w (V3_ocioso 0 7)) in
   V3.loop 3100 w (V3_ocioso 0 7) = Some s3' /\
   V3.contadorVeiculos (vars s3') = 7 /\
   ((exists x : V3.Est,
       s3' = println "[AVISO] Operação cancelada por timeout na entrada."
                     (V3_resolve RESOLVED_TIMEOUT x) /\
       vars s3' = vars (V3.set_estadoCancelaAberta false s0))
    \/
    (exists (r' : Resolucao) (sE x : V3.Est),
       V3_condicao w (millis sE) r' x /\
       s3' = (if falhou r'
              then println "[AVISO] Operação cancelada por timeout na saída."
                           (V3_resolve r' x)
              else V3.registrarSucesso (V3_resolve r' x)) /\
       (r' <> RESOLVED_SUCCESS ->
        vars s3' = vars (V3.set_estadoCancelaAberta false s0)))))
  /\
  (exists k : nat, forall m : nat,
     V4.gerenciarSegurancaSaida (k + S m) mundo_so_ultrassom (V4_em_passagem 0)
     = Some (V4_resolve RESOLVED_FRAUD
               (V4.set_timeoutSaidaOcorrido false (V4_em_passagem 0))) /\
     V4.timeoutSaidaOcorrido
       (vars (V4_resolve RESOLVED_FRAUD
                (V4.set_timeoutSaidaOcorrido false (V4_em_passagem 0)))) = true /\
     vars (V4_resolve RESOLVED_FRAUD
             (V4.set_timeoutSaidaOcorrido false (V4_em_passagem 0)))
     = V4.mkGlobais false 1 "01/01/2025" "12:00:00" "01/01/2025" 0
                    false true false)
  /\
  (let w := mundo_passagem_V4 5000 100000 in
   let s4' := resultado (V4.loop 3100 w (V4_ocioso 0 7)) (V4_ocioso 0 7) in
   V4.loop 3100 w (V4_ocioso 0 7) = Some s4' /\
   V4.contadorVeiculosDia (vars s4') = 7 /\
   exists (r' : Resolucao) (x : V4.Est),
     V4_resolvido r' x /\
     s4' = V4.registrarOuReverter x /\
     (r' <> RESOLVED_SUCCESS ->
      saidas s4' =
        saidas x
        ++ [(tempo x,
             SerialPrintln "Operação cancelada por timeout. O veículo não será registrado.")] /\
      eeprom (placa s4') = eeprom (placa x) /\
      V4.contadorVeiculosDia (vars s4') = 7)).
Proof.
  split; [|split; [|split; [|split]]].
  - refine (proj1 (C9_falhas_indistintas
                     (mundo_so_pino V3.PINO_SENSOR_ENTRADA) 0 RESOLVED_FRAUD
                     (V3_em_passagem 1000) (V3_em_passagem 1000)
                     (V3_ocioso 0 7) (V3_ocioso 0 7) 0
                     (V4_em_passagem 0) (V4_em_passagem 0)
                     (V4_ocioso 0 7) (V4_ocioso 0 7)) _ _ _).
    + discriminate.
    + apply percorre_aqui.
    + split; reflexivity.
  - refine (proj1 (C9_falhas_indistintas
                     (mundo_so_pino 0) 0 RESOLVED_TIMEOUT
                     (V3_em_passagem 0)
                     (delay (10 * Z.of_nat 3001) (V3_em_passagem 0))
                     (V3_ocioso 0 7) (V3_ocioso 0 7) 0
                     (V4_em_passagem 0) (V4_em_passagem 0)
                     (V4_ocioso 0 7) (V4_ocioso 0 7)) _ _ _).
    + discriminate.
    + apply V3_saida_percorre_ate.
      * intros j _. split; reflexivity.
      * vm_compute. discriminate.
    + repeat split.
  - intros w s3' s0.
    assert (Hrun : V3.loop 3100 w (V3_ocioso 0 7) = Some s3')
      by (vm_compute; reflexivity).
    split; [exact Hrun|]. split; [vm_compute; reflexivity|].
    refine (proj1 (proj2 (C9_falhas_indistintas
                            w 3100 RESOLVED_FRAUD
                            (V3_em_passagem 0) (V3_em_passagem 0)
                            (V3_ocioso 0 7) s3' 0
                            (V4_em_passagem 0) (V4_em_passagem 0)
                            (V4_ocioso 0 7) (V4_ocioso 0 7))) Hrun _).
    reflexivity.
  - refine (proj1 (proj2 (proj2 (C9_falhas_indistintas
                     mundo_so_ultrassom 0 RESOLVED_FRAUD
                     (V3_em_passagem 0) (V3_em_passagem 0)
                     (V3_ocioso 0 7) (V3_ocioso 0 7) 0
                     (V4_em_passagem 0)
                     (V4.set_timeoutSaidaOcorrido false (V4_em_passagem 0))
                     (V4_ocioso 0 7) (V4_ocioso 0 7)))) _ _ _ _).
    + discriminate.
    + reflexivity.
    + apply percorre_aqui.
    + split; [reflexivity|]. split; [vm_compute; discriminate | reflexivity].
  - intros w s4'.
    assert (Hrun : V4.loop 3100 w (V4_ocioso 0 7) = Some s4')
      by (vm_compute; reflexivity).
    split; [exact Hrun|]. split; [vm_compute; reflexivity|].
    refine (proj2 (proj2 (proj2 (C9_falhas_indistintas
                     w 3100 RESOLVED_FRAUD
                     (V3_em_passagem 0) (V3_em_passagem 0)
                     (V3_ocioso 0 7) (V3_ocioso 0 7) 0
                     (V4_em_passagem 0) (V4_em_passagem 0)
                     (V4_ocioso 0 7) s4'))) Hrun _ _).
    + reflexivity.
    + reflexivity.
Defined.

(** ** C5: when a passage starts *)




